(** * Rice price forecast service: API handler, dashboard and forecast engine

    A shallow embedding of [src/api/forecast.py] (the FastAPI handler
    [forecast], its cached loaders and [_months_between]) and of
    [layout_forecasts] from [src/app.py], together with a model of the
    forecast engine [mli_rice.modeling.multi_step_forecast], which the two
    files import and whose source is not among them: it is written down
    from the specification (spec.md, sections 3, 4.1 and 4.2).

    Conventions:
    - Python [int] is [Z]; prices are IEEE binary64 numbers ([PrimFloat.float]);
    - a pandas [Timestamp] is its calendar month (from which [year] and
      [month] are computed) and its day;
    - a [DataFrame] of the regional history is the list of its rows;
    - exceptions are values of [Error]; the handler runs in a state and
      error monad over the process state (object store, [lru_cache] slots
      and a log of the external calls made);
    - what the engine may do to the frame it is handed is part of its
      result ([engine_frame]), so that the copy the handler makes of the
      cached history is visible in the model. *)

From Stdlib Require Import ZArith String Ascii.
From Stdlib Require PrimFloat.
From stdpp Require Import base decidable option list sorting strings gmap.

Local Open Scope Z_scope.

Abbreviation float := PrimFloat.float.

(** ** Timestamps and calendar arithmetic *)

(** A pandas [Timestamp] at day resolution. pandas keeps an instant and
    computes [year] and [month] from it, so the month of a Timestamp is
    always one of 1..12; accordingly the record keeps the number of the
    calendar month, counted from January of year 0, and the day. *)
Record Timestamp := mkMonthDay { month_index : Z; day : Z }.

Definition year (t : Timestamp) : Z := month_index t / 12.
Definition month (t : Timestamp) : Z := month_index t mod 12 + 1.

Definition mkTimestamp (y m d : Z) : Timestamp :=
  {| month_index := y * 12 + (m - 1); day := d |}.

#[global] Instance Timestamp_eq_dec : EqDecision Timestamp.
Proof. solve_decision. Defined.

(** [Timestamp.__le__]: chronological order. *)
Definition Timestamp_leb (a b : Timestamp) : bool :=
  (month_index a <? month_index b)
  || ((month_index a =? month_index b) && (day a <=? day b)).

Definition Timestamp_le (a b : Timestamp) : Prop := Is_true (Timestamp_leb a b).

#[global] Instance Timestamp_le_dec : RelDecision Timestamp_le.
Proof. intros a b. unfold Timestamp_le. apply _. Defined.

(** src/api/forecast.py, lines 50-51:
<<
def _months_between(start, end):
    return (end.year - start.year) * 12 + (end.month - start.month)
>> *)
Definition _months_between (start end_ : Timestamp) : Z :=
  (year end_ - year start) * 12 + (month end_ - month start).

Definition is_leap (y : Z) : bool :=
  (y mod 4 =? 0) && (negb (y mod 100 =? 0) || (y mod 400 =? 0)).

Definition days_in_month (y m : Z) : Z :=
  if m =? 2 then (if is_leap y then 29 else 28)
  else if (m =? 4) || (m =? 6) || (m =? 9) || (m =? 11) then 30
  else 31.

(** Modelled from the spec: the engine's date arithmetic is missing from the
    sources. "forecast_date = last_observed_date_of_region + step months":
    the calendar month advances by [k]; the day is kept, cut down to the
    length of the month reached (it is 1 throughout for first-of-month
    data). *)
Definition add_months (t : Timestamp) (k : Z) : Timestamp :=
  let reached := mkMonthDay (month_index t + k) 1 in
  {| month_index := month_index t + k;
     day := Z.min (day t) (days_in_month (year reached) (month reached)) |}.

(** ** Rendering dates: [strftime] *)

Definition digit (n : Z) : ascii := ascii_of_nat (48 + Z.to_nat (n mod 10)).

Definition pad2 (n : Z) : string :=
  String (digit (n / 10)) (String (digit n) EmptyString).

Definition pad4 (n : Z) : string :=
  String (digit (n / 1000)) (String (digit (n / 100)) (pad2 n)).

(** [t.strftime("%Y-%m-%d")], for years 0..9999. *)
Definition strftime_ymd (t : Timestamp) : string :=
  (pad4 (year t) +:+ "-" +:+ pad2 (month t) +:+ "-" +:+ pad2 (day t))%string.

(** ** Frames, configuration, records *)

(** One row of the regional monthly history ([region_df]): the region
    column ([admin1]), the [date] column and the price column
    ([avg_price]). This is the PricePoint of the specification. *)
Record PricePoint := mkPricePoint {
  admin1 : string;
  date : Timestamp;
  avg_price : float
}.

Abbreviation DataFrame := (list PricePoint).
Abbreviation RegionSeries := (list PricePoint).

(** map[region -> RegionSeries], kept in the engine's region order. *)
Abbreviation History := (list (string * list PricePoint)).

(** [TrainingConfig] of [mli_rice.modeling], by the attributes the two
    files read from it. *)
Record TrainingConfig := mkTrainingConfig {
  region_col : string;
  price_col : string;
  artifact_path : string
}.

(** Modelled from the spec: [FeatureConfig] of [mli_rice.features], "lag
    offsets (list of month counts), rolling window sizes". *)
Record FeatureConfig := mkFeatureConfig {
  lags : list nat;
  windows : list nat
}.

Abbreviation FeatureVector := (list (string * float)).

(** The fitted predictor: an opaque map from a feature vector to a price. *)
Record Pipeline := mkPipeline { predict : FeatureVector -> float }.

(** A row of the frame of forecasts, by the columns the two files read
    (lines 95-102 of src/api/forecast.py). *)
Record ForecastRecord := mkForecastRecord {
  region : string;
  current_date : Timestamp;
  forecast_date : Timestamp;
  current_price : float;
  forecast_price : float;
  price_change : float;
  pct_change : float;
  step : Z
}.

(** [region_df["date"].max()]; [None] stands for NaT (empty frame). *)
Definition max_date (df : DataFrame) : option Timestamp :=
  foldr (fun p acc =>
           match acc with
           | None => Some (date p)
           | Some t => if Timestamp_leb t (date p) then Some (date p) else Some t
           end) None df.

(** ** The forecast engine *)

(** Modelled from the spec: what the engine refuses, "months < 1 is a
    precondition violation". *)
Inductive ForecastError :=
| InvalidMonths.

(** Modelled from the spec: pct_change, missing from the sources with the
    rest of [mli_rice.modeling]. "pct_change computed with double-precision
    division; if current_price == 0, pct_change is reported as null/NaN
    sentinel, not a divide-by-zero fault." *)
Definition pct_change_of (current forecast : float) : float :=
  if PrimFloat.eqb current PrimFloat.zero then PrimFloat.nan
  else PrimFloat.div (PrimFloat.sub forecast current) current.

(** Modelled from the spec: how much history the Feature Builder needs,
    "at least max(lags ∪ windows) months of history". *)
Definition required_history (fc : FeatureConfig) : nat :=
  max_list (lags fc ++ windows fc).

(** Modelled from the spec: the regions of a frame in the engine's stable
    order, "deterministic (e.g., sorted lexicographically)". *)
Definition regions (df : DataFrame) : list string :=
  merge_sort String.le (remove_dups (admin1 <$> df)).

(** The order of two points by date. *)
Definition date_le (p q : PricePoint) : Prop := Timestamp_le (date p) (date q).

#[global] Instance date_le_dec : RelDecision date_le.
Proof. intros p q. unfold date_le. apply _. Defined.

(** Modelled from the spec: the RegionSeries of a region, "ordered-by-date
    sequence of PricePoint for one region". *)
Definition region_series (r : string) (df : DataFrame) : RegionSeries :=
  merge_sort date_le (filter (fun p => admin1 p = r) df).

(** Modelled from the spec: the accumulator of one region during a run
    ("one autonomous accumulator per region"): its series so far and the
    date of its last observed (not forecast) point. *)
Record RegionState := mkRegionState {
  rs_region : string;
  rs_last_observed : option Timestamp;
  rs_series : RegionSeries
}.

(** Modelled from the spec: the accumulators a run starts from, one per
    region of the frame, in the order of [regions]. *)
Definition init_region (df : DataFrame) (r : string) : RegionState :=
  let s := region_series r df in
  {| rs_region := r; rs_last_observed := date <$> last s; rs_series := s |}.

Definition group_regions (df : DataFrame) : list RegionState :=
  init_region df <$> regions df.

(** Modelled from the spec: the "snapshot of each region's series" kept
    for a step. *)
Definition snapshot (sts : list RegionState) : History :=
  (fun st => (rs_region st, rs_series st)) <$> sts.

Section ForecastEngine.

(** The values of the features (lags, rolling statistics, calendar
    attributes) are whatever the feature code of [mli_rice.features]
    computes from the usable points; the engine depends on them only
    through the predictor, so they are a parameter. *)
Variable feature_values : FeatureConfig -> RegionSeries -> Timestamp -> FeatureVector.

(** Modelled from the spec: the Feature Builder,
    [build(series, as_of_date) -> FeatureVector], "using only PricePoints
    with date ≤ as_of_date"; [None] is InsufficientHistory, signalled when
    there are fewer months than the largest configured lag or window. *)
Definition build (fc : FeatureConfig) (series : RegionSeries) (as_of : Timestamp)
  : option FeatureVector :=
  let usable := filter (fun p => Timestamp_le (date p) as_of) series in
  if decide (required_history fc <= length usable)%nat
  then Some (feature_values fc usable as_of)
  else None.

Variable pipeline : Pipeline.
Variable feature_config : FeatureConfig.

(** Modelled from the spec: one region at one step (4.2, steps 1a-1d).
    A region without enough history is left as it is and yields no
    record, so it is skipped at every later step as well. *)
Definition forecast_region (k : Z) (st : RegionState)
  : RegionState * option ForecastRecord :=
  match last (rs_series st), rs_last_observed st with
  | Some cur, Some d0 =>
      match build feature_config (rs_series st) (date cur) with
      | Some fv =>
          let p := predict pipeline fv in
          let fd := add_months d0 k in
          ({| rs_region := rs_region st;
              rs_last_observed := Some d0;
              rs_series := rs_series st
                           ++ [ {| admin1 := rs_region st; date := fd; avg_price := p |} ] |},
           Some {| region := rs_region st;
                   current_date := date cur;
                   forecast_date := fd;
                   current_price := avg_price cur;
                   forecast_price := p;
                   price_change := PrimFloat.sub p (avg_price cur);
                   pct_change := pct_change_of (avg_price cur) p;
                   step := k |})
      | None => (st, None)
      end
  | _, _ => (st, None)
  end.

(** Modelled from the spec: one step over all regions, in their order;
    the regions are independent of each other. *)
Definition forecast_step (k : Z) (sts : list RegionState)
  : list RegionState * list ForecastRecord :=
  let rs := forecast_region k <$> sts in
  (fst <$> rs, omap snd rs).

(** Modelled from the spec: the loop "for step = 1..months, for each
    region"; the snapshot kept for a step is the state of every series
    when the step starts, i.e. the history the step's forecasts were
    computed from. *)
Fixpoint forecast_loop (n : nat) (k : Z) (sts : list RegionState)
  : list ForecastRecord * list History :=
  match n with
  | O => ([], [])
  | S n' =>
      let '(sts', recs) := forecast_step k sts in
      let '(rest, snaps) := forecast_loop n' (k + 1) sts' in
      (recs ++ rest, snapshot sts :: snaps)
  end.

End ForecastEngine.

(** Modelled from the spec: [mli_rice.modeling.multi_step_forecast], the
    engine's entry point
    [forecast(history, months, config, model) -> (records, snapshots)];
    "months < 1 is a precondition violation (reject before entering the
    loop)". *)
Definition multi_step_forecast
    (feature_values : FeatureConfig -> RegionSeries -> Timestamp -> FeatureVector)
    (history : DataFrame) (pipeline : Pipeline) (months : Z)
    (config : TrainingConfig) (feature_config : FeatureConfig)
  : ForecastError + (list ForecastRecord * list History) :=
  if months <? 1 then inl InvalidMonths
  else inr (forecast_loop feature_values pipeline feature_config
              (Z.to_nat months) 1 (group_regions history)).

(** ** The API process: errors, state, and the state-and-error monad *)

Inductive Error :=
| RequestValidationError                      (* FastAPI refuses a query parameter: 422 *)
| HTTPException (status_code : Z) (detail : string)
| RuntimeError (msg : string)
| ValueError (msg : string)
| TypeError (msg : string)
| IndexError (msg : string)
| ReferenceLost                               (* a reference to no object: never met *)
| EngineFailure (e : ForecastError).

(** The calls that leave the handler. *)
Inductive Event :=
| LoadRiceData                                (* load_rice_data and region_monthly_average *)
| CopyFrame
| JoblibLoad
| MultiStepForecast (months : Z).

(** What the files hold: the regional monthly history the data module
    computes, and the fitted pipeline when the artifact exists. *)
Record Environment := mkEnvironment {
  rice_data : DataFrame;
  artifact : option Pipeline
}.

(** The state of the server process: the DataFrame objects alive, by
    reference; the two [lru_cache(maxsize=1)] slots (the history slot
    holds a reference, so every caller gets the same object); and the
    calls made so far. *)
Record Process := mkProcess {
  heap : gmap nat DataFrame;
  history_cache : option nat;
  pipeline_cache : option Pipeline;
  log : list Event
}.

Definition initial_process : Process :=
  {| heap := ∅; history_cache := None; pipeline_cache := None; log := [] |}.

Definition M (A : Type) : Type := Process -> (Error + A) * Process.

Definition ret {A} (a : A) : M A := fun p => (inr a, p).

Definition raise {A} (e : Error) : M A := fun p => (inl e, p).

(** A computation that touches no state: it returns or raises. *)
Definition lift {A} (r : Error + A) : M A := fun p => (r, p).

Definition bind {A B} (m : M A) (f : A -> M B) : M B :=
  fun p => match m p with
           | (inl e, p') => (inl e, p')
           | (inr a, p') => f a p'
           end.

Notation "x <- m ;; k" := (bind m (fun x => k))
  (at level 100, m at next level, right associativity).

Definition emit (ev : Event) : M unit :=
  fun p => (inr tt, {| heap := heap p; history_cache := history_cache p;
                       pipeline_cache := pipeline_cache p; log := log p ++ [ev] |}).

(** A new object holding [df]. *)
Definition alloc (df : DataFrame) : M nat :=
  fun p => let l := fresh (dom (heap p)) in
           (inr l, {| heap := <[l := df]> (heap p); history_cache := history_cache p;
                      pipeline_cache := pipeline_cache p; log := log p |}).

Definition read (l : nat) : M DataFrame :=
  fun p => match heap p !! l with
           | Some df => (inr df, p)
           | None => (inl ReferenceLost, p)
           end.

Definition write (l : nat) (df : DataFrame) : M unit :=
  fun p => (inr tt, {| heap := <[l := df]> (heap p); history_cache := history_cache p;
                       pipeline_cache := pipeline_cache p; log := log p |}).

Definition set_history_cache (l : nat) : M unit :=
  fun p => (inr tt, {| heap := heap p; history_cache := Some l;
                       pipeline_cache := pipeline_cache p; log := log p |}).

Definition set_pipeline_cache (pl : Pipeline) : M unit :=
  fun p => (inr tt, {| heap := heap p; history_cache := history_cache p;
                       pipeline_cache := Some pl; log := log p |}).

(** [df.copy()]: a new object with the same rows. *)
Definition copy (l : nat) : M nat :=
  df <- read l ;;
  _ <- emit CopyFrame ;;
  alloc df.

(** ** The response of the handler *)

Record ResultRow := mkResultRow {
  res_region : string;
  res_current_date : string;
  res_forecast_date : string;
  res_current_price : float;
  res_forecast_price : float;
  res_price_change : float;
  res_pct_change : float;
  res_step : Z
}.

Record Response := mkResponse {
  latest_observation : string;
  months_requested : Z;
  months_generated : Z;
  target_date : option string;
  result_count : Z;
  results : list ResultRow
}.

(** Lines 94-103: the dict built from a row of [forecasts]. *)
Definition result_of_row (row : ForecastRecord) : ResultRow :=
  {| res_region := region row;
     res_current_date := strftime_ymd (current_date row);
     res_forecast_date := strftime_ymd (forecast_date row);
     res_current_price := current_price row;
     res_forecast_price := forecast_price row;
     res_price_change := price_change row;
     res_pct_change := pct_change row;
     res_step := step row |}.

(** [t.strftime("%Y-%m")]. *)
Definition strftime_ym (t : Timestamp) : string :=
  (pad4 (year t) +:+ "-" +:+ pad2 (month t))%string.

(** [pd.Timestamp(year=y, month=m, day=1)]: a ValueError outside the months
    of the calendar or the range pandas represents (1677-09-21 to
    2262-04-11). *)
Definition Timestamp_first_of_month (y m : Z) : Error + Timestamp :=
  if (1 <=? m) && (m <=? 12) && (1677 * 12 + 10 <=? y * 12 + m) && (y * 12 + m <=? 2262 * 12 + 4)
  then inr (mkTimestamp y m 1)
  else inl (ValueError "Timestamp out of range").

(** The query parameters of GET /, each absent or an integer. *)
Record Query := mkQuery {
  q_months : option Z;
  q_target_year : option Z;
  q_target_month : option Z
}.

Definition in_bounds (lo hi : Z) (v : option Z) : bool :=
  match v with
  | None => true
  | Some x => (lo <=? x) && (x <=? hi)
  end.

(** Lines 56-58: the bounds declared with [Query(..., ge=, le=)], which
    FastAPI checks before it calls the handler. *)
Definition valid_query (q : Query) : bool :=
  in_bounds 1 24 (q_months q)
  && in_bounds 2000 2100 (q_target_year q)
  && in_bounds 1 12 (q_target_month q).

(** What running [multi_step_forecast] on a frame object amounts to: its
    result or the exception it raises, and the rows the frame object holds
    afterwards (the engine appends forecast points to the series it is
    given). *)
Record EngineRun := mkEngineRun {
  engine_result : Error + (list ForecastRecord * list History);
  engine_frame : DataFrame
}.

Section API.

Variable env : Environment.

(** [TrainingConfig()] and [FeatureConfig()]: the defaults of the two
    configuration classes, declared in [mli_rice]. *)
Variable TrainingConfig_default : TrainingConfig.
Variable FeatureConfig_default : FeatureConfig.

(** The imported [multi_step_forecast]. *)
Variable engine : DataFrame -> Pipeline -> Z -> TrainingConfig -> FeatureConfig -> EngineRun.

(** Lines 30-33, under [lru_cache(maxsize=1)]: the first call loads the
    history and keeps the object; later calls return that same object. *)
Definition get_region_history : M nat :=
  fun p => match history_cache p with
           | Some l => (inr l, p)
           | None =>
               (_ <- emit LoadRiceData ;;
                l <- alloc (rice_data env) ;;
                _ <- set_history_cache l ;;
                ret l) p
           end.

(** Lines 36-42, under [lru_cache(maxsize=1)]; a call that raises caches
    nothing. *)
Definition get_pipeline : M Pipeline :=
  fun p => match pipeline_cache p with
           | Some pl => (inr pl, p)
           | None =>
               match artifact env with
               | None =>
                   (inl (RuntimeError ("Missing trained model at "
                                       +:+ artifact_path TrainingConfig_default +:+ ".")), p)
               | Some pl =>
                   (_ <- emit JoblibLoad ;;
                    _ <- set_pipeline_cache pl ;;
                    ret pl) p
               end
           end.

(** Lines 45-47. *)
Definition get_feature_config : FeatureConfig := FeatureConfig_default.

(** Lines 82-88: the call of the engine on the frame object [l]. *)
Definition call_engine (l : nat) (pl : Pipeline) (months : Z)
    (config : TrainingConfig) (fc : FeatureConfig)
  : M (list ForecastRecord * list History) :=
  df <- read l ;;
  _ <- emit (MultiStepForecast months) ;;
  let run := engine df pl months config fc in
  _ <- write l (engine_frame run) ;;
  match engine_result run with
  | inl e => raise e
  | inr out => ret out
  end.

(** Lines 66-80: the target date and the number of months to generate.
    With an empty history [last_observed] is NaT: the month difference is
    NaN, [delta < 1] is false and [max(months, delta)] is [months]. *)
Definition resolve_target (months : Z) (target_year target_month : option Z)
    (last_observed : option Timestamp) : Error + (option Timestamp * Z) :=
  if xorb (bool_decide (target_year = None)) (bool_decide (target_month = None))
  then inl (HTTPException 400 "Provide both target_year and target_month, or omit both.")
  else
    match target_year, target_month with
    | Some y, Some m =>
        match Timestamp_first_of_month y m with
        | inl e => inl e
        | inr target =>
            match last_observed with
            | Some lo =>
                let delta := _months_between lo target in
                if delta <? 1
                then inl (HTTPException 400
                            ("Target must be after the latest observation ("
                             +:+ strftime_ym lo +:+ ")."))
                else inr (Some target, Z.max months delta)
            | None => inr (Some target, months)
            end
        end
    | _, _ => inr (None, months)
    end.

(** Lines 90-114: the rows kept, the dicts built from them and the
    response; [strftime] on NaT raises. *)
Definition make_response (months months_to_generate : Z) (target : option Timestamp)
    (last_observed : option Timestamp) (forecasts : list ForecastRecord)
  : Error + Response :=
  let forecasts :=
    match target with
    | Some t => filter (fun row => forecast_date row = t) forecasts
    | None => forecasts
    end in
  let results := result_of_row <$> forecasts in
  match last_observed with
  | None => inl (ValueError "NaTType does not support strftime")
  | Some lo =>
      inr {| latest_observation := strftime_ymd lo;
             months_requested := months;
             months_generated := months_to_generate;
             target_date := strftime_ymd <$> target;
             result_count := Z.of_nat (length results);
             results := results |}
  end.

(** Lines 55-114: the handler. *)
Definition forecast (months : Z) (target_year target_month : option Z) : M Response :=
  cached <- get_region_history ;;
  region_df <- copy cached ;;
  pipeline <- get_pipeline ;;
  let config := TrainingConfig_default in
  let feature_cfg := get_feature_config in
  frame <- read region_df ;;
  let last_observed := max_date frame in
  resolved <- lift (resolve_target months target_year target_month last_observed) ;;
  let target := resolved.1 in
  let months_to_generate := resolved.2 in
  out <- call_engine region_df pipeline months_to_generate config feature_cfg ;;
  lift (make_response months months_to_generate target last_observed out.1).

(** GET /: FastAPI validates the query parameters, fills in the default
    [months = 1], and only then calls the handler. *)
Definition get_root (q : Query) : M Response :=
  if valid_query q
  then forecast (default 1 (q_months q)) (q_target_year q) (q_target_month q)
  else raise RequestValidationError.

End API.

(** ** The dashboard: [layout_forecasts] of src/app.py *)

(** Modelled from the spec: the AdvisoryRecord of [mli_rice.rules],
    "(region, forecast_date, rule name, severity/category, message)". *)
Record AdvisoryRecord := mkAdvisoryRecord {
  adv_region : string;
  adv_forecast_date : Timestamp;
  adv_rule : string;
  adv_severity : string;
  adv_message : string
}.

Inductive Widget :=
| Header (text : string)
| Warning (text : string)
| Subheader (text : string)
| Info (text : string)
| PredictionsTable (rows : list ForecastRecord)   (* a reformatted copy of the rows *)
| AdvisoriesTable (rows : list AdvisoryRecord).

(** What a run of the page does, in order: the widgets it renders and the
    calls it makes into [mli_rice]. *)
Inductive Action :=
| Render (w : Widget)
| CallMultiStepForecast (region_df : DataFrame) (months : Z)
| CallGenerateAdvisories (history_for_step : History) (predictions : list ForecastRecord).

(** What the user does with the widgets: the position given to the slider
    and the entry picked in the select box. *)
Record User := mkUser {
  slider_value : Z;
  selectbox_index : nat
}.

(** [st.slider(label, min_value, max_value, value)]: the value returned
    lies between the two bounds. *)
Definition slider (min_value max_value : Z) (u : User) : Z :=
  Z.max min_value (Z.min max_value (slider_value u)).

(** [st.selectbox(label, options)]: one of the options, the first one by
    default; None when there is no option. *)
Definition selectbox {A} (options : list A) (u : User) : option A :=
  match options !! selectbox_index u with
  | Some x => Some x
  | None => head options
  end.

(** [l[i]] on a Python list: negative indices count from the end, an
    index out of range raises IndexError. *)
Definition py_index {A} (l : list A) (i : Z) : option A :=
  let n := Z.of_nat (length l) in
  if (0 <=? i) && (i <? n) then l !! Z.to_nat i
  else if (- n <=? i) && (i <? 0) then l !! Z.to_nat (n + i)
  else None.

(** [sorted(predictions["step"].unique())]. *)
Definition step_options (predictions : list ForecastRecord) : list Z :=
  merge_sort Z.le (remove_dups (step <$> predictions)).

(** Lines 44-48 of src/app.py: [load_pipeline]. *)
Definition load_pipeline (env : Environment) : option Pipeline := artifact env.

Section Dashboard.

Variable TrainingConfig_default : TrainingConfig.
Variable FeatureConfig_default : FeatureConfig.

(** The imported [multi_step_forecast] and [generate_advisories]. *)
Variable engine : DataFrame -> Pipeline -> Z -> TrainingConfig -> FeatureConfig -> EngineRun.
Variable generate_advisories : History -> list ForecastRecord -> list AdvisoryRecord.

(** Lines 117-138: from the select box to the advisories. *)
Definition layout_advisories (u : User) (predictions : list ForecastRecord)
    (histories : list History) : list Action * option Error :=
  match selectbox (step_options predictions) u with
  | None => ([], Some (TypeError "unsupported operand type(s) for -: 'NoneType' and 'int'"))
  | Some selected_step =>
      let selected_predictions :=
        filter (fun row => step row = selected_step) predictions in
      match py_index histories (selected_step - 1) with
      | None => ([], Some (IndexError "list index out of range"))
      | Some history_for_step =>
          let advisories := generate_advisories history_for_step selected_predictions in
          (CallGenerateAdvisories history_for_step selected_predictions
             :: match advisories with
                | [] => [Render (Info "No advisories triggered under the current rules.")]
                | _ => [Render (Subheader "Rule-based advisories");
                        Render (AdvisoriesTable advisories)]
                end,
           None)
      end
  end.

(** Lines 95-138. *)
Definition layout_forecasts (u : User) (region_df : DataFrame) (pipeline : option Pipeline)
  : list Action * option Error :=
  match pipeline with
  | None =>
      ([Render (Header "Forecasts & Advisories");
        Render (Warning "No trained pipeline found. Run the training CLI to generate `artifacts/best_model.joblib`.")],
       None)
  | Some pl =>
      let config := TrainingConfig_default in
      let months_to_forecast := slider 1 6 u in
      let feature_cfg := FeatureConfig_default in
      let called := [Render (Header "Forecasts & Advisories");
                     CallMultiStepForecast region_df months_to_forecast] in
      match engine_result (engine region_df pl months_to_forecast config feature_cfg) with
      | inl e => (called, Some e)
      | inr (predictions, histories) =>
          let shown := called ++ [Render (Subheader "Forecast results");
                                  Render (PredictionsTable predictions)] in
          let '(acts, err) := layout_advisories u predictions histories in
          (shown ++ acts, err)
      end
  end.

End Dashboard.

(** ** The engine as the API and the dashboard call it *)

(** [multi_step_forecast] as a run on a frame object. The specification
    keeps one accumulator per region and never writes to the frame it was
    given, so the frame is the same afterwards. *)
Definition spec_engine
    (feature_values : FeatureConfig -> RegionSeries -> Timestamp -> FeatureVector)
    (df : DataFrame) (pl : Pipeline) (months : Z)
    (config : TrainingConfig) (fc : FeatureConfig) : EngineRun :=
  {| engine_result :=
       match multi_step_forecast feature_values df pl months config fc with
       | inl e => inl (EngineFailure e)
       | inr out => inr out
       end;
     engine_frame := df |}.

(** ** Notions used in the statements *)

(** The date of the last observed point of a region. *)
Definition last_observed_date (g : string) (df : DataFrame) : option Timestamp :=
  date <$> last (region_series g df).

(** The regions with sufficient history, in the engine's order. *)
Definition sufficient_regions (fc : FeatureConfig) (df : DataFrame) : list string :=
  filter (fun g => (required_history fc <= length (region_series g df))%nat) (regions df).

(** The records of one region, in the order of the output. *)
Definition records_of (g : string) (records : list ForecastRecord) : list ForecastRecord :=
  filter (fun row => region row = g) records.

(** The synthetic price point a record appends to its region's series. *)
Definition point_of_record (row : ForecastRecord) : PricePoint :=
  {| admin1 := region row; date := forecast_date row; avg_price := forecast_price row |}.

(** (step ascending, then region ascending), strictly. *)
Definition key_before (a b : Z * string) : Prop :=
  a.1 < b.1 \/ (a.1 = b.1 /\ strict String.le a.2 b.2).

Definition record_key (row : ForecastRecord) : Z * string := (step row, region row).
Definition result_key (row : ResultRow) : Z * string := (res_step row, res_region row).

(** The process state agrees with the files: the cached history object
    holds the history the data module computes, and a cached pipeline is
    the one of the artifact. *)
Definition coherent (env : Environment) (p : Process) : Prop :=
  (forall l, history_cache p = Some l -> heap p !! l = Some (rice_data env))
  /\ (forall pl, pipeline_cache p = Some pl -> artifact env = Some pl).

(** The calls of the engine among logged events. *)
Definition is_forecast_call (ev : Event) : bool :=
  match ev with
  | MultiStepForecast _ => true
  | _ => false
  end.

(** The calls of [generate_advisories] a run of the page makes. *)
Definition advisory_calls (acts : list Action) : list (History * list ForecastRecord) :=
  omap (fun a => match a with
                 | CallGenerateAdvisories h rows => Some (h, rows)
                 | _ => None
                 end) acts.

Definition engine_calls (acts : list Action) : list (DataFrame * Z) :=
  omap (fun a => match a with
                 | CallMultiStepForecast df m => Some (df, m)
                 | _ => None
                 end) acts.

(** A region has enough history for the Feature Builder. *)
Definition sufficient (fc : FeatureConfig) (st : RegionState) : Prop :=
  (required_history fc <= length (rs_series st))%nat.

#[global] Instance sufficient_dec fc st : Decision (sufficient fc st).
Proof. unfold sufficient. apply _. Defined.

(** The accumulator of a region as step [k] starts: its last point is its
    latest one, and lies before the month step [k] forecasts. *)
Definition ready (k : Z) (st : RegionState) : Prop :=
  exists cur d0,
    last (rs_series st) = Some cur
    /\ rs_last_observed st = Some d0
    /\ Forall (fun p => Timestamp_le (date p) (date cur)) (rs_series st)
    /\ month_index (date cur) < month_index d0 + k.

(** What step [k] does to a region it forecasts: [row] is emitted and the
    accumulator goes from [st] to [st']. *)
Definition emitted (k : Z) (st st' : RegionState) (row : ForecastRecord) : Prop :=
  region row = rs_region st
  /\ step row = k
  /\ rs_region st' = rs_region st
  /\ rs_last_observed st' = rs_last_observed st
  /\ rs_series st' = rs_series st ++ [point_of_record row]
  /\ (exists d0, rs_last_observed st = Some d0 /\ forecast_date row = add_months d0 k)
  /\ (exists cur, last (rs_series st) = Some cur
                  /\ current_date row = date cur /\ current_price row = avg_price cur)
  /\ price_change row = PrimFloat.sub (forecast_price row) (current_price row)
  /\ pct_change row = pct_change_of (current_price row) (forecast_price row).

(** The region and last observed date of an accumulator: what a run never
    changes. *)
Definition signature (st : RegionState) : string * option Timestamp :=
  (rs_region st, rs_last_observed st).

(** A record of a run over the accumulators [sts], from a step in
    [lo, hi). *)
Definition record_from (sts : list RegionState) (lo hi : Z) (row : ForecastRecord) : Prop :=
  lo <= step row < hi
  /\ (exists d0, (region row, Some d0) ∈ (signature <$> sts)
                 /\ forecast_date row = add_months d0 (step row))
  /\ price_change row = PrimFloat.sub (forecast_price row) (current_price row)
  /\ pct_change row = pct_change_of (current_price row) (forecast_price row).

(** The keys (step, region) of steps [ks] over regions [G], step by step. *)
Definition grid (ks : list Z) (G : list string) : list (Z * string) :=
  concat ((fun k => (fun g => (k, g)) <$> G) <$> ks).

(** Every region with enough history is ready for step [k]. *)
Definition all_ready (fc : FeatureConfig) (k : Z) (sts : list RegionState) : Prop :=
  Forall (fun st => sufficient fc st -> ready k st) sts.

(** Exactly one of the two target parameters is supplied. *)
Definition unpaired_target (q : Query) : Prop :=
  (is_Some (q_target_year q) /\ q_target_month q = None)
  \/ (q_target_year q = None /\ is_Some (q_target_month q)).

(** The calls made before the target parameters are looked at. *)
Definition loading_calls (env : Environment) (p : Process) : list Event :=
  match history_cache p with Some _ => [] | None => [LoadRiceData] end
  ++ [CopyFrame]
  ++ match artifact env, pipeline_cache p with
     | Some _, None => [JoblibLoad]
     | _, _ => []
     end.

(** The errors that tell the client its request is invalid: the 422 of
    the parameter validation and the 4xx raised by the handler. *)
Definition is_invalid_request (e : Error) : bool :=
  match e with
  | RequestValidationError => true
  | HTTPException code _ => (400 <=? code) && (code <? 500)
  | _ => false
  end.

(** ** The handler as a function of the files and the parameters *)

Section Outcome.

Variable env : Environment.
Variable cfg : TrainingConfig.
Variable fc : FeatureConfig.
Variable engine : DataFrame -> Pipeline -> Z -> TrainingConfig -> FeatureConfig -> EngineRun.

(** The exception of [get_pipeline] when the artifact is missing. *)
Definition missing_model : Error :=
  RuntimeError ("Missing trained model at " +:+ artifact_path cfg +:+ ".").

(** What a call of the handler answers. *)
Definition forecast_outcome (months : Z) (target_year target_month : option Z)
  : Error + Response :=
  match artifact env with
  | None => inl missing_model
  | Some pl =>
      let last_observed := max_date (rice_data env) in
      match resolve_target months target_year target_month last_observed with
      | inl e => inl e
      | inr resolved =>
          match engine_result (engine (rice_data env) pl resolved.2 cfg fc) with
          | inl e => inl e
          | inr out => make_response months resolved.2 resolved.1 last_observed out.1
          end
      end
  end.

(** The external calls a call of the handler makes from the state [p]. *)
Definition forecast_calls (p : Process) (months : Z) (target_year target_month : option Z)
  : list Event :=
  match history_cache p with Some _ => [] | None => [LoadRiceData] end
  ++ [CopyFrame]
  ++ match artifact env with
     | None => []
     | Some _ =>
         match pipeline_cache p with Some _ => [] | None => [JoblibLoad] end
         ++ match resolve_target months target_year target_month
                    (max_date (rice_data env)) with
            | inl _ => []
            | inr resolved => [MultiStepForecast resolved.2]
            end
     end.

(** The same for GET /. *)
Definition get_root_outcome (q : Query) : Error + Response :=
  if valid_query q
  then forecast_outcome (default 1 (q_months q)) (q_target_year q) (q_target_month q)
  else inl RequestValidationError.

Definition get_root_calls (p : Process) (q : Query) : list Event :=
  if valid_query q
  then forecast_calls p (default 1 (q_months q)) (q_target_year q) (q_target_month q)
  else [].

End Outcome.

(** ** A worked example *)

Section Example.
Import PrimFloat.

(** Region A has two observed months, region B one, region C two with a
    latest price of zero. *)
Definition ex_history : DataFrame :=
  [ {| admin1 := "B"; date := mkTimestamp 2024 1 1; avg_price := 40%float |};
    {| admin1 := "A"; date := mkTimestamp 2023 12 1; avg_price := 49%float |};
    {| admin1 := "C"; date := mkTimestamp 2023 12 1; avg_price := 3%float |};
    {| admin1 := "A"; date := mkTimestamp 2024 1 1; avg_price := 50%float |};
    {| admin1 := "C"; date := mkTimestamp 2024 1 1; avg_price := 0%float |} ].

Definition ex_feature_config : FeatureConfig := {| lags := [1%nat; 2%nat]; windows := [2%nat] |}.

Definition ex_training_config : TrainingConfig :=
  {| region_col := "admin1"; price_col := "avg_price";
     artifact_path := "artifacts/best_model.joblib" |}.

Definition ex_feature_values (fc : FeatureConfig) (s : RegionSeries) (t : Timestamp)
  : FeatureVector :=
  match last s with
  | Some p => [("lag_1"%string, avg_price p)]
  | None => []
  end.

(** A predictor that adds one to the latest price. *)
Definition ex_pipeline : Pipeline :=
  {| predict := fun fv => match fv with
                          | (_, x) :: _ => (x + 1)%float
                          | [] => 0%float
                          end |}.

Definition ex_row_A1 : ForecastRecord :=
  {| region := "A";
     current_date := mkTimestamp 2024 1 1; forecast_date := mkTimestamp 2024 2 1;
     current_price := 50%float; forecast_price := 51%float;
     price_change := 1%float; pct_change := (1 / 50)%float; step := 1 |}.

End Example.

Definition ex_env : Environment :=
  {| rice_data := ex_history; artifact := Some ex_pipeline |}.

Definition ex_env_no_artifact : Environment :=
  {| rice_data := ex_history; artifact := None |}.

(** An engine that leaves the frame it was given extended with a row, to
    exercise the copy made by the handler. *)
Definition ex_appending_engine (df : DataFrame) (pl : Pipeline) (months : Z)
    (cfg : TrainingConfig) (fc : FeatureConfig) : EngineRun :=
  {| engine_result := engine_result (spec_engine ex_feature_values df pl months cfg fc);
     engine_frame := df ++ [ {| admin1 := "A"; date := mkTimestamp 2024 2 1;
                                avg_price := PrimFloat.one |} ] |}.

(** ** A server process over its lifetime *)






(** The files after the artifact [pl] has been put in place. *)
Definition with_artifact (env : Environment) (pl : Pipeline) : Environment :=
  {| rice_data := rice_data env; artifact := Some pl |}.


(** An engine that returns no record, whatever it is asked. *)
Definition ex_silent_engine (df : DataFrame) (pl : Pipeline) (months : Z)
    (cfg : TrainingConfig) (fc : FeatureConfig) : EngineRun :=
  {| engine_result := inr ([], []); engine_frame := df |}.

(** A record of forecasts of step [k], to exercise the dashboard. *)
Definition ex_row_step (k : Z) : ForecastRecord :=
  {| region := region ex_row_A1;
     current_date := current_date ex_row_A1; forecast_date := forecast_date ex_row_A1;
     current_price := current_price ex_row_A1; forecast_price := forecast_price ex_row_A1;
     price_change := price_change ex_row_A1; pct_change := pct_change ex_row_A1;
     step := k |}.

(** ** The other sections of the dashboard (src/app.py) *)

(** The values [json.loads] returns. The fields of an object are its
    items in insertion order, with distinct keys. *)
#[warnings="-register-all"]
Inductive JSON :=
| JNull
| JBool (b : bool)
| JNumber (x : float)
| JString (s : string)
| JArray (items : list JSON)
| JObject (fields : list (string * JSON)).

(** A Python dict with string keys: its items in insertion order. *)
Abbreviation PyDict := (list (string * JSON)).

(** [d.get(k)]: None when the key is missing. *)
Fixpoint dict_get (k : string) (d : PyDict) : option JSON :=
  match d with
  | [] => None
  | (k', v) :: d' => if decide (k' = k) then Some v else dict_get k d'
  end.

(** [d[k] = v]: the value of a key already present is replaced where it
    stands; a new key goes to the end. *)
Fixpoint dict_set (k : string) (v : JSON) (d : PyDict) : PyDict :=
  match d with
  | [] => [(k, v)]
  | (k', v') :: d' => if decide (k' = k) then (k, v) :: d' else (k', v') :: dict_set k v d'
  end.

(** [{**d, **extra}]: the items of [extra] are set one after the other. *)
Definition dict_update (d extra : PyDict) : PyDict :=
  foldl (fun acc kv => dict_set kv.1 kv.2 acc) d extra.

(** [bool(v)] on a parsed JSON value. *)
Definition truthy (v : JSON) : bool :=
  match v with
  | JNull => false
  | JBool b => b
  | JNumber x => negb (PrimFloat.eqb x PrimFloat.zero)
  | JString s => negb (String.eqb s "")
  | JArray items => match items with [] => false | _ => true end
  | JObject fields => match fields with [] => false | _ => true end
  end.

(** [name == selected], [selected] being what [metrics.get] returned. *)
Definition names (selected : option JSON) (name : string) : bool :=
  match selected with
  | Some (JString s) => String.eqb name s
  | _ => false
  end.

(** What a run of a section of the page may raise: an exception of
    [layout_forecasts], or one of Python's KeyError and AttributeError. *)
Inductive Exception :=
| Raised (e : Error)
| KeyError (key : string)
| AttributeError (msg : string).

Inductive MetricValue :=
| Count (n : nat)                 (* an int; [len(df)] is shown with separators *)
| Span (lo hi : option Z)         (* "{min} - {max}"; None is nan *)
| Price (x : float).              (* "{x:.2f} PHP/kg" *)

(** What the page shows, in order. *)
Inductive Display :=
| ShowTitle (text : string)
| ShowCaption (text : string)
| ShowHeader (text : string)
| ShowInfo (text : string)
| ShowWrite (text : string)
| ShowMetric (label : string) (value : MetricValue)
| ShowLineChart (title : string) (points : list (Timestamp * float)) (yaxis_title : string)
| ShowRecords (records : list PyDict)     (* [st.dataframe] of a frame built from dicts *)
| ShowForecasts (a : Action).             (* what [layout_forecasts] does *)

(** Lines 86-89: one record per model, in the order of the dict; a value
    that is no mapping cannot be unpacked with [**]. *)
Fixpoint evaluation_records (selected : option JSON) (models : PyDict)
  : Exception + list PyDict :=
  match models with
  | [] => inr []
  | (name, stats) :: rest =>
      match stats with
      | JObject fields =>
          let record := dict_update [("model"%string, JString name)] fields in
          let record :=
            dict_set "selected" (JString (if names selected name then "best" else "")) record in
          match evaluation_records selected rest with
          | inl e => inl e
          | inr records => inr (record :: records)
          end
      | _ => inl (Raised (TypeError "argument after ** must be a mapping"))
      end
  end.

(** Line 91: the four columns that are renamed. *)
Definition rename_column (k : string) : string :=
  if decide (k = "cv_rmse"%string) then "CV RMSE"
  else if decide (k = "cv_r2"%string) then "CV R2"
  else if decide (k = "holdout_rmse"%string) then "Holdout RMSE"
  else if decide (k = "holdout_r2"%string) then "Holdout R2"
  else k.

Definition rename_record (record : PyDict) : PyDict :=
  (fun kv => (rename_column kv.1, kv.2)) <$> record.

(** Lines 79-92 of src/app.py: [layout_evaluation]. *)
Definition layout_evaluation (metrics : option JSON) : list Display * option Exception :=
  let header := [ShowHeader "Model Evaluation"] in
  let info :=
    ShowInfo "Train the model via `python -m mli_rice.cli train` to log evaluation metrics." in
  match metrics with
  | None => (header ++ [info], None)
  | Some v =>
      if negb (truthy v) then (header ++ [info], None)
      else
        match v with
        | JObject fields =>
            let selected := dict_get "selected_model" fields in
            match dict_get "models" fields with
            | None => (header, Some (KeyError "models"))
            | Some (JObject models) =>
                match evaluation_records selected models with
                | inl e => (header, Some e)
                | inr records => (header ++ [ShowRecords (rename_record <$> records)], None)
                end
            | Some _ => (header, Some (AttributeError "object has no attribute 'items'"))
            end
        | _ => (header, Some (AttributeError "object has no attribute 'get'"))
        end
  end.

(** A row of the dataset, by the columns [layout_overview] reads. *)
Record Observation := mkObservation {
  obs_admin1 : string;
  obs_year : Z
}.

(** A row of the national monthly average. *)
Record NationalPoint := mkNationalPoint {
  nat_date : Timestamp;
  national_price : float
}.

(** [df["year"].min()] and [.max()]; None stands for nan (empty frame). *)
Definition min_year (df : list Observation) : option Z :=
  foldr (fun o acc => match acc with None => Some (obs_year o)
                                   | Some y => Some (Z.min (obs_year o) y) end) None df.

Definition max_year (df : list Observation) : option Z :=
  foldr (fun o acc => match acc with None => Some (obs_year o)
                                   | Some y => Some (Z.max (obs_year o) y) end) None df.

(** [st.selectbox(label, options)], by the position picked. *)
Definition choose {A} (options : list A) (index : nat) : option A :=
  match options !! index with
  | Some x => Some x
  | None => head options
  end.

(** Line 66: [sorted(region_df["admin1"].unique())]. *)
Definition available_regions (region_df : DataFrame) : list string :=
  merge_sort String.le (remove_dups (admin1 <$> region_df)).

(** Lines 58-76 of src/app.py: [layout_overview]; [iloc[-1]] on an empty
    column raises IndexError. *)
Definition layout_overview (region_index : nat) (df : list Observation)
    (region_df : DataFrame) (national_df : list NationalPoint)
  : list Display * option Exception :=
  let shown :=
    [ShowHeader "Exploratory Overview";
     ShowMetric "Rows" (Count (length df));
     ShowMetric "Regions" (Count (length (remove_dups (obs_admin1 <$> df))));
     ShowMetric "Span" (Span (min_year df) (max_year df))] in
  match last national_df with
  | None => (shown, Some (Raised (IndexError "single positional indexer is out-of-bounds")))
  | Some latest =>
      let region_choice := choose (available_regions region_df) region_index in
      let subset := filter (fun row => Some (admin1 row) = region_choice) region_df in
      let title := match region_choice with
                   | Some r => (r +:+ " retail prices")%string
                   | None => "None retail prices"%string
                   end in
      (shown ++ [ShowMetric "Latest Price" (Price (national_price latest));
                 ShowLineChart title ((fun row => (date row, avg_price row)) <$> subset)
                   "PHP/kg";
                 ShowLineChart "National average retail price"
                   ((fun row => (nat_date row, national_price row)) <$> national_df)
                   "PHP/kg"],
       None)
  end.

(** Lines 141-147: [sdg_notes]. *)
Definition sdg_notes : list PyDict :=
  [ [("SDG"%string, JString "SDG 2 Zero Hunger");
     ("Contribution"%string,
      JString "Targets price volatility early, allowing LGUs to stabilize consumer access.")];
    [("SDG"%string, JString "SDG 8 Decent Work & Growth");
     ("Contribution"%string,
      JString "Highlights fair market opportunities and protects farmer income through proactive guidance.")] ].

(** Lines 150-156: [layout_sdg_section]. *)
Definition layout_sdg_section : list Display :=
  [ShowHeader "SDG Alignment";
   ShowWrite "The workflow prioritizes food security (SDG 2) and resilient livelihoods (SDG 8) by pairing forecasts with prescriptive advisories.";
   ShowRecords sdg_notes].

(** What the files of the dashboard hold: the dataset, the parsed metrics
    when [metrics.json] exists, the pipeline when the artifact exists. *)
Record Files := mkFiles {
  rice_csv : list Observation;
  metrics_json : option JSON;
  best_model : option Pipeline
}.

(** What the visitor picks: a region in the overview, and the widgets of
    the forecasts. *)
Record Visitor := mkVisitor {
  region_pick : nat;
  forecasts_user : User
}.

(** Lines 51-55: [load_metrics]. *)
Definition load_metrics (files : Files) : option JSON := metrics_json files.

(** One section after the other: an exception ends the run of the page. *)
Definition and_then (a b : list Display * option Exception) : list Display * option Exception :=
  match a.2 with
  | Some e => a
  | None => (a.1 ++ b.1, b.2)
  end.

Section Main.

Variable TrainingConfig_default : TrainingConfig.
Variable FeatureConfig_default : FeatureConfig.
Variable engine : DataFrame -> Pipeline -> Z -> TrainingConfig -> FeatureConfig -> EngineRun.
Variable generate_advisories : History -> list ForecastRecord -> list AdvisoryRecord.

(** [data_module.region_monthly_average] and [national_monthly_average],
    declared in [mli_rice.data]. *)
Variable region_monthly_average : list Observation -> DataFrame.
Variable national_monthly_average : list Observation -> list NationalPoint.

(** [layout_forecasts] as a section of the page. *)
Definition forecasts_section (u : User) (region_df : DataFrame) (pipeline : option Pipeline)
  : list Display * option Exception :=
  let r := layout_forecasts TrainingConfig_default FeatureConfig_default engine
             generate_advisories u region_df pipeline in
  (ShowForecasts <$> r.1, Raised <$> r.2).

(** Lines 159-171 of src/app.py: [main]. *)
Definition main (files : Files) (v : Visitor) : list Display * option Exception :=
  let df := rice_csv files in
  let region_df := region_monthly_average df in
  let national_df := national_monthly_average df in
  let metrics := load_metrics files in
  let pipeline := load_pipeline {| rice_data := region_df; artifact := best_model files |} in
  and_then ([ShowTitle "Rice Price Forecasting & Advisory";
             ShowCaption "Forecasting pipeline + knowledge-based advisories inspired by the MLI guide."],
            None)
    (and_then (layout_overview (region_pick v) df region_df national_df)
       (and_then (layout_evaluation metrics)
          (and_then (forecasts_section (forecasts_user v) region_df pipeline)
             (layout_sdg_section, None)))).

End Main.

(** The calls of the engine a run of the page has made. *)
Definition page_engine_calls (shown : list Display) : list (DataFrame * Z) :=
  engine_calls (omap (fun d => match d with ShowForecasts a => Some a | _ => None end) shown).

(** A record is marked as the selected model. *)
Definition is_best (record : PyDict) : bool :=
  match dict_get "selected" record with
  | Some (JString s) => String.eqb s "best"
  | _ => false
  end.

(** What the select box shows for a step: "<%b %Y of the date> (step k)",
    or "Step k". *)
Inductive StepLabel :=
| MonthAndStep (month_shown : Timestamp) (k : Z)
| StepOnly (k : Z).

(** Lines 118-123 of src/app.py: [_format_step], the [format_func] of the
    select box. *)
Definition _format_step (predictions : list ForecastRecord) (step_ : Z) : StepLabel :=
  match filter (fun row => step row = step_) predictions with
  | row :: _ => MonthAndStep (forecast_date row) step_
  | [] => StepOnly step_
  end.

(** ** Calendar arithmetic *)

Lemma months_between_index (a b : Timestamp) :
  _months_between a b = month_index b - month_index a.
Proof.
  unfold _months_between, year, month.
  pose proof (Z.div_mod (month_index a) 12 ltac:(lia)).
  pose proof (Z.div_mod (month_index b) 12 ltac:(lia)).
  lia.
Qed.

Lemma month_range (t : Timestamp) : 1 <= month t <= 12.
Proof. unfold month. pose proof (Z.mod_pos_bound (month_index t) 12 ltac:(lia)). lia. Qed.

Lemma year_mkTimestamp (y m d : Z) : 1 <= m <= 12 -> year (mkTimestamp y m d) = y.
Proof.
  intros Hm. unfold year, mkTimestamp; simpl.
  symmetry. apply (Z.div_unique _ 12 y (m - 1)); lia.
Qed.

Lemma month_mkTimestamp (y m d : Z) : 1 <= m <= 12 -> month (mkTimestamp y m d) = m.
Proof.
  intros Hm. unfold month, mkTimestamp; simpl.
  rewrite <- (Z.mod_unique (y * 12 + (m - 1)) 12 y (m - 1)); lia.
Qed.

Lemma month_index_add_months (t : Timestamp) (k : Z) :
  month_index (add_months t k) = month_index t + k.
Proof. reflexivity. Qed.

Lemma months_between_add_months (t : Timestamp) (k : Z) :
  _months_between t (add_months t k) = k.
Proof. rewrite months_between_index, month_index_add_months. lia. Qed.

(** The calendar month reached does not depend on the day. *)
Lemma add_months_day_irrelevant (t t' : Timestamp) (k : Z) :
  year t = year t' -> month t = month t' ->
  year (add_months t k) = year (add_months t' k)
  /\ month (add_months t k) = month (add_months t' k).
Proof.
  intros Hy Hm.
  assert (month_index t = month_index t') as Hi.
  { unfold year, month in *.
    pose proof (Z.div_mod (month_index t) 12 ltac:(lia)).
    pose proof (Z.div_mod (month_index t') 12 ltac:(lia)). lia. }
  unfold year, month. rewrite !month_index_add_months, Hi. done.
Qed.

Lemma Timestamp_le_spec (a b : Timestamp) :
  Timestamp_le a b <->
  month_index a < month_index b \/ (month_index a = month_index b /\ day a <= day b).
Proof.
  unfold Timestamp_le, Timestamp_leb.
  rewrite orb_True, andb_True, !Is_true_true, Z.ltb_lt, Z.eqb_eq, Z.leb_le. done.
Qed.

#[global] Instance Timestamp_le_refl : Reflexive Timestamp_le.
Proof. intros a. apply Timestamp_le_spec. lia. Qed.

#[global] Instance Timestamp_le_trans : Transitive Timestamp_le.
Proof. intros a b c. rewrite !Timestamp_le_spec. lia. Qed.

#[global] Instance Timestamp_le_total : Total Timestamp_le.
Proof. intros a b. rewrite !Timestamp_le_spec. lia. Qed.

#[global] Instance date_le_trans : Transitive date_le.
Proof. intros a b c. unfold date_le. apply Timestamp_le_trans. Qed.

#[global] Instance date_le_total : Total date_le.
Proof. intros a b. unfold date_le. apply Timestamp_le_total. Qed.

Lemma Timestamp_le_index_lt (a b : Timestamp) :
  month_index a < month_index b -> Timestamp_le a b.
Proof. intros. apply Timestamp_le_spec. lia. Qed.

(** ** The Feature Builder and one step of the engine *)

Lemma filter_all {A} (P : A -> Prop) `{!forall x, Decision (P x)} (l : list A) :
  Forall P l -> filter P l = l.
Proof.
  induction 1 as [|x l Hx _ IH]; [done|].
  rewrite filter_cons_True by done. by rewrite IH.
Qed.

Section EngineFacts.

Variable feature_values : FeatureConfig -> RegionSeries -> Timestamp -> FeatureVector.
Variable pipeline : Pipeline.
Variable fc : FeatureConfig.

Lemma build_enough (series : RegionSeries) (as_of : Timestamp) :
  Forall (fun p => Timestamp_le (date p) as_of) series ->
  (required_history fc <= length series)%nat ->
  build feature_values fc series as_of = Some (feature_values fc series as_of).
Proof.
  intros Hall Hlen. unfold build. rewrite (filter_all _ _ Hall).
  by rewrite decide_True.
Qed.

Lemma build_short (series : RegionSeries) (as_of : Timestamp) :
  (length series < required_history fc)%nat ->
  build feature_values fc series as_of = None.
Proof.
  intros Hlen. unfold build. rewrite decide_False; [done|].
  pose proof (length_filter (fun p => Timestamp_le (date p) as_of) series). lia.
Qed.

Lemma forecast_region_emits (k : Z) (st st' : RegionState) (row : ForecastRecord) :
  forecast_region feature_values pipeline fc k st = (st', Some row) ->
  emitted k st st' row.
Proof.
  unfold forecast_region.
  destruct (last (rs_series st)) as [cur|] eqn:Hlast; [|discriminate].
  destruct (rs_last_observed st) as [d0|] eqn:Hobs; [|discriminate].
  destruct (build _ _ _ _) as [fv|]; [|discriminate].
  intros [= <- <-]. unfold emitted, point_of_record; simpl.
  rewrite Hobs. repeat split; eauto.
Qed.

Lemma forecast_region_skips (k : Z) (st st' : RegionState) :
  forecast_region feature_values pipeline fc k st = (st', None) -> st' = st.
Proof.
  unfold forecast_region.
  destruct (last (rs_series st)); [|congruence].
  destruct (rs_last_observed st); [|congruence].
  destruct (build _ _ _ _); congruence.
Qed.

Lemma forecast_region_signature (k : Z) (st : RegionState) :
  signature (forecast_region feature_values pipeline fc k st).1 = signature st.
Proof.
  destruct (forecast_region _ _ _ k st) as [st' [row|]] eqn:Hfr; simpl.
  - apply forecast_region_emits in Hfr as (_ & _ & Hr & Ho & _).
    unfold signature. by rewrite Hr, Ho.
  - by apply forecast_region_skips in Hfr as ->.
Qed.

Lemma forecast_step_signature (k : Z) (sts : list RegionState) :
  signature <$> (forecast_step feature_values pipeline fc k sts).1 = signature <$> sts.
Proof.
  unfold forecast_step; simpl. rewrite <- !list_fmap_compose.
  apply list_fmap_ext. intros i st _. apply forecast_region_signature.
Qed.

(** A region with enough history is forecast, and is ready for the next
    step. *)
Lemma forecast_region_sufficient (k : Z) (st : RegionState) :
  sufficient fc st -> ready k st ->
  exists st' row,
    forecast_region feature_values pipeline fc k st = (st', Some row)
    /\ sufficient fc st' /\ ready (k + 1) st'.
Proof.
  intros Hsuf (cur & d0 & Hlast & Hobs & Hall & Hidx).
  unfold forecast_region. rewrite Hlast, Hobs.
  rewrite (build_enough _ _ Hall Hsuf).
  eexists _, _. split; [reflexivity|]. split.
  - unfold sufficient in *; simpl. rewrite length_app. lia.
  - exists {| admin1 := rs_region st; date := add_months d0 k;
              avg_price := predict pipeline (feature_values fc (rs_series st) (date cur)) |}, d0.
    cbn [rs_series rs_last_observed date]. rewrite last_snoc.
    split; [done|]. split; [done|]. split.
    + apply Forall_app. split.
      * eapply Forall_impl; [exact Hall|]. intros p Hp; cbn beta in *.
        etrans; [exact Hp|]. apply Timestamp_le_index_lt.
        rewrite month_index_add_months. lia.
      * apply Forall_singleton. reflexivity.
    + rewrite month_index_add_months. lia.
Qed.

(** A region without enough history is skipped and stays as it is. *)
Lemma forecast_region_insufficient (k : Z) (st : RegionState) :
  ~ sufficient fc st ->
  forecast_region feature_values pipeline fc k st = (st, None).
Proof.
  intros Hsuf. unfold forecast_region.
  destruct (last (rs_series st)); [|done].
  destruct (rs_last_observed st); [|done].
  rewrite build_short; [done|]. unfold sufficient in Hsuf. lia.
Qed.

End EngineFacts.

(** ** The loop of the engine *)

Lemma record_from_signature (sts sts' : list RegionState) (lo hi lo' hi' : Z)
    (row : ForecastRecord) :
  signature <$> sts' = signature <$> sts -> lo' <= lo -> hi <= hi' ->
  record_from sts' lo hi row -> record_from sts lo' hi' row.
Proof.
  intros Hsig Hlo Hhi (Hstep & (d0 & Hin & Hdate) & Hprice & Hpct).
  split; [lia|]. split; [|done].
  exists d0. by rewrite <- Hsig.
Qed.

Lemma record_from_emitted (k : Z) (st st' : RegionState) (sts : list RegionState)
    (row : ForecastRecord) :
  st ∈ sts -> emitted k st st' row -> record_from sts k (k + 1) row.
Proof.
  intros Hst (Hreg & Hstep & _ & _ & _ & (d0 & Hobs & Hdate) & _ & Hprice & Hpct).
  split; [lia|]. split; [|done].
  exists d0. split; [|by rewrite Hstep].
  apply list_elem_of_fmap. exists st. split; [|done].
  unfold signature. by rewrite Hreg, Hobs.
Qed.

Section LoopFacts.

Variable feature_values : FeatureConfig -> RegionSeries -> Timestamp -> FeatureVector.
Variable pipeline : Pipeline.
Variable fc : FeatureConfig.

Lemma forecast_step_emitted (k : Z) (sts : list RegionState) (row : ForecastRecord) :
  row ∈ (forecast_step feature_values pipeline fc k sts).2 ->
  exists st, st ∈ sts
    /\ emitted k st (forecast_region feature_values pipeline fc k st).1 row.
Proof.
  unfold forecast_step; simpl. intros Hrow.
  apply list_elem_of_omap in Hrow as (x & Hx & Hsnd).
  apply list_elem_of_fmap in Hx as (st & -> & Hst).
  exists st. split; [done|]. apply (forecast_region_emits feature_values pipeline fc).
  destruct (forecast_region _ _ _ k st) as [st' o]; simpl in *. by subst.
Qed.

Lemma forecast_loop_records (n : nat) (k : Z) (sts : list RegionState) :
  Forall (record_from sts k (k + Z.of_nat n))
         (forecast_loop feature_values pipeline fc n k sts).1.
Proof.
  revert k sts. induction n as [|n IH]; intros k sts; [constructor|].
  cbn [forecast_loop].
  pose proof (forecast_step_signature feature_values pipeline fc k sts) as Hsig.
  pose proof (forecast_step_emitted k sts) as Hem.
  destruct (forecast_step _ _ _ k sts) as [sts' recs].
  specialize (IH (k + 1) sts').
  destruct (forecast_loop _ _ _ n (k + 1) sts') as [rest snaps].
  cbn [fst snd] in *. apply Forall_app. split.
  - apply Forall_forall. intros row Hrow.
    destruct (Hem row Hrow) as (st & Hst & Hrel).
    eapply (record_from_signature sts sts k _ k); [done|lia| |].
    2: { eapply record_from_emitted; eauto. }
    lia.
  - eapply Forall_impl; [exact IH|]. intros row Hrow.
    eapply record_from_signature; [exact Hsig| | |exact Hrow]; lia.
Qed.

Lemma forecast_step_shape (k : Z) (sts : list RegionState) :
  all_ready fc k sts ->
  record_key <$> (forecast_step feature_values pipeline fc k sts).2
  = (fun g => (k, g)) <$> (rs_region <$> filter (sufficient fc) sts)
  /\ rs_region <$> filter (sufficient fc) (forecast_step feature_values pipeline fc k sts).1
     = rs_region <$> filter (sufficient fc) sts
  /\ all_ready fc (k + 1) (forecast_step feature_values pipeline fc k sts).1.
Proof.
  unfold forecast_step; cbn [fst snd].
  induction 1 as [|st sts Hst Hall (IH1 & IH2 & IH3)]; [by repeat split; constructor|].
  rewrite !fmap_cons. cbn [omap list_omap].
  destruct (decide (sufficient fc st)) as [Hsuf|Hsuf].
  - destruct (forecast_region_sufficient feature_values pipeline fc k st Hsuf (Hst Hsuf))
      as (st' & row & Hfr & Hsuf' & Hready').
    pose proof (forecast_region_emits _ _ _ _ _ _ _ Hfr)
      as (Hreg & Hstep & Hreg' & _).
    rewrite Hfr; cbn [fst snd].
    rewrite !filter_cons_True by done. rewrite !fmap_cons.
    split; [|split].
    + unfold record_key at 1. rewrite Hreg, Hstep. f_equal. exact IH1.
    + rewrite Hreg'. f_equal. exact IH2.
    + constructor; [done|exact IH3].
  - rewrite (forecast_region_insufficient feature_values pipeline fc k st Hsuf);
      cbn [fst snd].
    rewrite !filter_cons_False by done.
    split; [exact IH1|]. split; [exact IH2|].
    constructor; [done|exact IH3].
Qed.

Lemma forecast_loop_shape (n : nat) (k : Z) (sts : list RegionState) :
  all_ready fc k sts ->
  record_key <$> (forecast_loop feature_values pipeline fc n k sts).1
  = grid (seqZ k (Z.of_nat n)) (rs_region <$> filter (sufficient fc) sts).
Proof.
  revert k sts. induction n as [|n IH]; intros k sts Hall; [done|].
  cbn [forecast_loop].
  destruct (forecast_step_shape k sts Hall) as (H1 & H2 & H3).
  destruct (forecast_step _ _ _ k sts) as [sts' recs].
  specialize (IH (k + 1) sts' H3).
  destruct (forecast_loop _ _ _ n (k + 1) sts') as [rest snaps].
  cbn [fst snd] in *.
  rewrite fmap_app, H1, IH, H2.
  rewrite (seqZ_cons k (Z.of_nat (S n))) by lia.
  replace (Z.succ k) with (k + 1) by lia.
  replace (Z.pred (Z.of_nat (S n))) with (Z.of_nat n) by lia.
  done.
Qed.

Lemma forecast_loop_snapshots_length (n : nat) (k : Z) (sts : list RegionState) :
  length (forecast_loop feature_values pipeline fc n k sts).2 = n.
Proof.
  revert k sts. induction n as [|n IH]; intros k sts; [done|].
  cbn [forecast_loop].
  destruct (forecast_step _ _ _ k sts) as [sts' recs].
  specialize (IH (k + 1) sts').
  destruct (forecast_loop _ _ _ n (k + 1) sts') as [rest snaps].
  cbn [fst snd length] in *. by rewrite IH.
Qed.

(** The snapshot kept for the step [k + j] holds, for each region, the
    series the run started from and the points forecast at the steps
    before [k + j], nothing else. *)
Lemma forecast_loop_snapshots (n : nat) (k : Z) (sts : list RegionState)
    (j : nat) (h : History) (g : string) (s : RegionSeries) :
  (forecast_loop feature_values pipeline fc n k sts).2 !! j = Some h ->
  (g, s) ∈ h ->
  exists st added,
    st ∈ sts /\ rs_region st = g /\ s = rs_series st ++ added
    /\ Forall (fun p => exists row,
                 row ∈ (forecast_loop feature_values pipeline fc n k sts).1
                 /\ k <= step row < k + Z.of_nat j
                 /\ p = point_of_record row) added.
Proof.
  revert k sts j. induction n as [|n IH]; intros k sts j; [done|].
  cbn [forecast_loop].
  pose proof (forecast_step_emitted k sts) as Hem.
  pose proof (fun st => forecast_region_skips feature_values pipeline fc k st) as Hskip.
  unfold forecast_step in *.
  set (rs := forecast_region feature_values pipeline fc k <$> sts) in *.
  cbn [fst snd] in *.
  specialize (IH (k + 1) (rs.*1)).
  destruct (forecast_loop _ _ _ n (k + 1) (rs.*1)) as [rest snaps].
  cbn [fst snd] in *.
  destruct j as [|j]; cbn [lookup list_lookup].
  - intros [= <-] Hin. unfold snapshot in Hin.
    apply list_elem_of_fmap in Hin as (st & [= -> ->] & Hst).
    exists st, []. rewrite app_nil_r. repeat split; [done|constructor].
  - intros Hj Hin. destruct (IH j Hj Hin) as (st' & added & Hst' & Hreg & Hs & Hadded).
    apply list_elem_of_fmap in Hst' as ([st'' o] & -> & Hx).
    apply list_elem_of_fmap in Hx as (st & Hfr & Hst). cbn [fst] in *.
    assert (Forall (fun p => exists row, row ∈ omap snd rs ++ rest
                       /\ k <= step row < k + Z.of_nat (S j)
                       /\ p = point_of_record row) added) as Hadded'.
    { eapply Forall_impl; [exact Hadded|]. intros p (row & Hrow & Hk & ->).
      exists row. split; [|split; [lia|done]].
      apply elem_of_app. by right. }
    destruct o as [row|].
    + assert (row ∈ omap snd rs) as Hrow.
      { apply list_elem_of_omap. exists (st'', Some row). split; [|done].
        subst rs. apply list_elem_of_fmap. by exists st. }
      destruct (Hem row Hrow) as (st0 & _ & _).
      symmetry in Hfr. apply forecast_region_emits in Hfr
        as (_ & Hstep & Hreg' & _ & Hser & _).
      exists st, (point_of_record row :: added).
      split; [done|]. split; [congruence|]. split.
      * rewrite Hs, Hser. by rewrite <- app_assoc.
      * constructor; [|done]. exists row. split; [|split; [lia|done]].
        apply elem_of_app. by left.
    + symmetry in Hfr. apply Hskip in Hfr as ->.
      exists st, added. done.
Qed.

End LoopFacts.

(** ** Regions and their series *)

Lemma StronglySorted_last {A} (R : relation A) `{!Reflexive R} (l : list A) (x : A) :
  StronglySorted R l -> last l = Some x -> Forall (fun y => R y x) l.
Proof.
  intros Hs Hl. apply last_Some in Hl as [l' ->].
  apply StronglySorted_app in Hs as (Hlt & _ & _).
  apply Forall_app. split.
  - apply Forall_forall. intros y Hy. apply Hlt; [done|]. apply list_elem_of_singleton. done.
  - apply Forall_singleton. reflexivity.
Qed.

Lemma StronglySorted_strict {A} (R : relation A) `{!AntiSymm (=) R} (l : list A) :
  StronglySorted R l -> NoDup l -> StronglySorted (strict R) l.
Proof.
  induction 1 as [|x l Hs IH Hx]; intros Hnd; [constructor|].
  apply NoDup_cons in Hnd as [Hnot Hnd].
  constructor; [by apply IH|].
  apply Forall_forall. intros y Hy. split.
  - rewrite Forall_forall in Hx. by apply Hx.
  - intros Hyx. rewrite Forall_forall in Hx.
    assert (x = y) as -> by (apply (anti_symm R); auto). done.
Qed.

Lemma StronglySorted_filter {A} (R : relation A) (P : A -> Prop)
    `{!forall x, Decision (P x)} (l : list A) :
  StronglySorted R l -> StronglySorted R (filter P l).
Proof.
  induction 1 as [|x l Hs IH Hx]; [constructor|].
  rewrite filter_cons. destruct (decide (P x)); [|done].
  constructor; [done|].
  apply Forall_forall. intros y Hy. apply list_elem_of_filter in Hy as [_ Hy].
  rewrite Forall_forall in Hx. by apply Hx.
Qed.

Lemma StronglySorted_seqZ (m : Z) (n : nat) : StronglySorted Z.lt (seqZ m (Z.of_nat n)).
Proof.
  revert m. induction n as [|n IH]; intros m; [constructor|].
  rewrite seqZ_cons by lia.
  replace (Z.pred (Z.of_nat (S n))) with (Z.of_nat n) by lia.
  constructor; [apply IH|].
  apply Forall_forall. intros k Hk. apply elem_of_seqZ in Hk. lia.
Qed.

#[global] Instance date_le_refl : Reflexive date_le.
Proof. intros p. unfold date_le. reflexivity. Qed.

Lemma elem_of_regions (g : string) (df : DataFrame) :
  g ∈ regions df <-> exists p, p ∈ df /\ admin1 p = g.
Proof.
  unfold regions. rewrite merge_sort_Permutation, elem_of_remove_dups, list_elem_of_fmap.
  split.
  - intros (p & -> & Hp). by exists p.
  - intros (p & Hp & <-). by exists p.
Qed.

Lemma regions_NoDup (df : DataFrame) : NoDup (regions df).
Proof. unfold regions. rewrite merge_sort_Permutation. apply NoDup_remove_dups. Qed.

Lemma regions_sorted (df : DataFrame) : StronglySorted (strict String.le) (regions df).
Proof.
  apply StronglySorted_strict; [apply _| |apply regions_NoDup].
  apply StronglySorted_merge_sort; apply _.
Qed.

Lemma region_series_length (g : string) (df : DataFrame) :
  length (region_series g df) = length (filter (fun p => admin1 p = g) df).
Proof. unfold region_series. by rewrite merge_sort_Permutation. Qed.

Lemma region_series_sorted (g : string) (df : DataFrame) :
  StronglySorted date_le (region_series g df).
Proof. apply StronglySorted_merge_sort; apply _. Qed.

Lemma region_series_nonempty (g : string) (df : DataFrame) :
  g ∈ regions df -> exists cur, last (region_series g df) = Some cur.
Proof.
  intros (p & Hp & Hg)%elem_of_regions.
  destruct (last (region_series g df)) as [cur|] eqn:Hlast; [by eexists|].
  apply last_None in Hlast.
  assert (p ∈ region_series g df) as Hin.
  { unfold region_series. rewrite merge_sort_Permutation.
    apply list_elem_of_filter. done. }
  rewrite Hlast in Hin. by apply elem_of_nil in Hin.
Qed.

(** The last point of a series is its latest one. *)
Lemma last_observed_latest (g : string) (df : DataFrame) (d0 : Timestamp) :
  last_observed_date g df = Some d0 ->
  Forall (fun p => Timestamp_le (date p) d0) (region_series g df).
Proof.
  unfold last_observed_date. intros Hd.
  destruct (last (region_series g df)) as [cur|] eqn:Hlast; [|done].
  injection Hd as <-.
  apply (StronglySorted_last date_le _ cur); [apply region_series_sorted|done].
Qed.

Lemma group_regions_signature (df : DataFrame) :
  signature <$> group_regions df = (fun g => (g, last_observed_date g df)) <$> regions df.
Proof. unfold group_regions. by rewrite <- list_fmap_compose. Qed.

Lemma group_regions_ready (fc : FeatureConfig) (df : DataFrame) :
  all_ready fc 1 (group_regions df).
Proof.
  unfold all_ready, group_regions. apply Forall_fmap, Forall_forall.
  intros g Hg _. destruct (region_series_nonempty g df Hg) as [cur Hcur].
  exists cur, (date cur). unfold init_region; cbn [rs_series rs_last_observed].
  rewrite Hcur. split; [done|]. split; [done|]. split; [|lia].
  apply (StronglySorted_last date_le _ cur); [apply region_series_sorted|done].
Qed.

Lemma group_regions_sufficient (fc : FeatureConfig) (df : DataFrame) :
  rs_region <$> filter (sufficient fc) (group_regions df) = sufficient_regions fc df.
Proof.
  unfold group_regions, sufficient_regions.
  induction (regions df) as [|g l IH]; [done|].
  rewrite fmap_cons, !filter_cons.
  unfold sufficient at 1. cbn [init_region rs_series].
  destruct (decide _); [|done].
  rewrite fmap_cons. by f_equal.
Qed.

Lemma sufficient_regions_NoDup (fc : FeatureConfig) (df : DataFrame) :
  NoDup (sufficient_regions fc df).
Proof. apply NoDup_filter, regions_NoDup. Qed.

Lemma sufficient_regions_sorted (fc : FeatureConfig) (df : DataFrame) :
  StronglySorted (strict String.le) (sufficient_regions fc df).
Proof. apply StronglySorted_filter, regions_sorted. Qed.

(** ** Keys of a run *)

Lemma grid_cons (k : Z) (ks : list Z) (G : list string) :
  grid (k :: ks) G = ((fun g => (k, g)) <$> G) ++ grid ks G.
Proof. done. Qed.

Lemma grid_length (ks : list Z) (G : list string) :
  length (grid ks G) = (length ks * length G)%nat.
Proof.
  induction ks as [|k ks IH]; [done|].
  rewrite grid_cons, length_app, length_fmap, IH. done.
Qed.

Lemma filter_row_in (k : Z) (G : list string) (g : string) :
  NoDup G -> g ∈ G ->
  filter (fun kg : Z * string => kg.2 = g) ((fun g' => (k, g')) <$> G) = [(k, g)].
Proof.
  induction 1 as [|g' G Hnot Hnd IH]; intros Hin; [by apply elem_of_nil in Hin|].
  rewrite fmap_cons, filter_cons; cbn [snd].
  destruct (decide (g' = g)) as [->|Hne].
  - f_equal. clear IH Hin Hnd. induction G as [|g'' G IH]; [done|].
    apply not_elem_of_cons in Hnot as [Hne Hnot].
    rewrite fmap_cons, filter_cons_False by (cbn; congruence). by apply IH.
  - apply elem_of_cons in Hin as [->|Hin]; [done|]. by apply IH.
Qed.

Lemma filter_row_out (k : Z) (G : list string) (g : string) :
  g ∉ G ->
  filter (fun kg : Z * string => kg.2 = g) ((fun g' => (k, g')) <$> G) = [].
Proof.
  induction G as [|g' G IH]; intros Hnot; [done|].
  apply not_elem_of_cons in Hnot as [Hne Hnot].
  rewrite fmap_cons, filter_cons_False by (cbn; congruence). by apply IH.
Qed.

Lemma grid_filter_in (ks : list Z) (G : list string) (g : string) :
  NoDup G -> g ∈ G ->
  filter (fun kg : Z * string => kg.2 = g) (grid ks G) = (fun k => (k, g)) <$> ks.
Proof.
  intros Hnd Hin. induction ks as [|k ks IH]; [done|].
  rewrite grid_cons, filter_app, IH, filter_row_in by done. done.
Qed.

Lemma grid_filter_out (ks : list Z) (G : list string) (g : string) :
  g ∉ G -> filter (fun kg : Z * string => kg.2 = g) (grid ks G) = [].
Proof.
  intros Hnot. induction ks as [|k ks IH]; [done|].
  rewrite grid_cons, filter_app, IH, filter_row_out by done. done.
Qed.

Lemma grid_elem (ks : list Z) (G : list string) (k : Z) (g : string) :
  (k, g) ∈ grid ks G -> k ∈ ks /\ g ∈ G.
Proof.
  induction ks as [|k' ks IH]; [by intros ?%elem_of_nil|].
  rewrite grid_cons, elem_of_app, list_elem_of_fmap.
  intros [(g' & [= -> ->] & Hg)|Hin].
  - split; [left|done].
  - destruct (IH Hin). split; [by right|done].
Qed.

Lemma grid_sorted (ks : list Z) (G : list string) :
  StronglySorted Z.lt ks -> StronglySorted (strict String.le) G ->
  StronglySorted key_before (grid ks G).
Proof.
  intros Hks HG. induction Hks as [|k ks Hks IH Hk]; [constructor|].
  rewrite grid_cons. apply StronglySorted_app_2; [| |exact IH].
  - intros [k1 g1] [k2 g2] (g' & [= -> ->] & _)%list_elem_of_fmap [Hk2 _]%grid_elem.
    left; cbn. rewrite Forall_forall in Hk. by apply Hk.
  - eapply StronglySorted_fmap; [|exact HG].
    intros g1 g2 Hlt. right; cbn. done.
Qed.

Lemma records_of_keys (g : string) (recs : list ForecastRecord) :
  step <$> records_of g recs
  = fst <$> filter (fun kg : Z * string => kg.2 = g) (record_key <$> recs).
Proof.
  unfold records_of. induction recs as [|row recs IH]; [done|].
  rewrite fmap_cons, !filter_cons; cbn [record_key snd].
  destruct (decide (region row = g)); [|done].
  rewrite !fmap_cons. by f_equal.
Qed.

(** ** The engine: counts, steps, dates and percentage changes *)

Lemma multi_step_forecast_runs
    (fv : FeatureConfig -> RegionSeries -> Timestamp -> FeatureVector)
    (history : DataFrame) (pl : Pipeline) (m : Z)
    (cfg : TrainingConfig) (fc : FeatureConfig) :
  1 <= m ->
  multi_step_forecast fv history pl m cfg fc
  = inr (forecast_loop fv pl fc (Z.to_nat m) 1 (group_regions history)).
Proof.
  intros Hm. unfold multi_step_forecast.
  destruct (m <? 1) eqn:Hlt; [apply Z.ltb_lt in Hlt; lia|done].
Qed.

Lemma multi_step_forecast_inv
    (fv : FeatureConfig -> RegionSeries -> Timestamp -> FeatureVector)
    (history : DataFrame) (pl : Pipeline) (m : Z)
    (cfg : TrainingConfig) (fc : FeatureConfig)
    (out : list ForecastRecord * list History) :
  multi_step_forecast fv history pl m cfg fc = inr out ->
  1 <= m /\ out = forecast_loop fv pl fc (Z.to_nat m) 1 (group_regions history).
Proof.
  unfold multi_step_forecast.
  destruct (m <? 1) eqn:Hlt; [done|]. apply Z.ltb_ge in Hlt.
  intros [= <-]. done.
Qed.

Lemma multi_step_forecast_keys
    (fv : FeatureConfig -> RegionSeries -> Timestamp -> FeatureVector)
    (history : DataFrame) (pl : Pipeline) (m : Z)
    (cfg : TrainingConfig) (fc : FeatureConfig)
    (out : list ForecastRecord * list History) :
  multi_step_forecast fv history pl m cfg fc = inr out ->
  record_key <$> out.1 = grid (seqZ 1 m) (sufficient_regions fc history).
Proof.
  intros [Hm ->]%multi_step_forecast_inv.
  rewrite (forecast_loop_shape fv pl fc _ _ _ (group_regions_ready fc history)).
  rewrite group_regions_sufficient. by rewrite Z2Nat.id by lia.
Qed.

(** C1: a run with [months = m] returns, for each region with sufficient
    history, exactly [m] records, whose steps are 1, 2, ..., m in this
    order; it returns no record for any other region; in total it returns
    m times (the number of regions with sufficient history) records. *)
Theorem forecast_returns_m_records_per_region
    (fv : FeatureConfig -> RegionSeries -> Timestamp -> FeatureVector)
    (history : DataFrame) (pl : Pipeline) (m : Z)
    (cfg : TrainingConfig) (fc : FeatureConfig) :
  1 <= m ->
  exists records snapshots,
    multi_step_forecast fv history pl m cfg fc = inr (records, snapshots)
    /\ Z.of_nat (length records) = m * Z.of_nat (length (sufficient_regions fc history))
    /\ (forall g, g ∈ sufficient_regions fc history ->
          Z.of_nat (length (records_of g records)) = m
          /\ step <$> records_of g records = seqZ 1 m)
    /\ (forall g, g ∉ sufficient_regions fc history -> records_of g records = []).
Proof.
  intros Hm.
  destruct (forecast_loop fv pl fc (Z.to_nat m) 1 (group_regions history))
    as [records snapshots] eqn:Hloop.
  exists records, snapshots.
  assert (multi_step_forecast fv history pl m cfg fc = inr (records, snapshots)) as Hrun.
  { by rewrite multi_step_forecast_runs, Hloop. }
  pose proof (multi_step_forecast_keys _ _ _ _ _ _ _ Hrun) as Hkeys. cbn [fst] in Hkeys.
  split; [done|]. split; [|split].
  - rewrite <- (length_fmap record_key), Hkeys, grid_length, length_seqZ. lia.
  - intros g Hg.
    assert (step <$> records_of g records = seqZ 1 m) as Hsteps.
    { rewrite records_of_keys, Hkeys.
      rewrite grid_filter_in by (done || apply sufficient_regions_NoDup).
      rewrite <- list_fmap_compose. apply list_fmap_id. }
    split; [|done].
    rewrite <- (length_fmap step), Hsteps, length_seqZ. lia.
  - intros g Hg.
    apply (fmap_nil_inv step).
    rewrite records_of_keys, Hkeys. by rewrite grid_filter_out.
Qed.

Lemma forecast_returns_m_records_per_region_witness :
  exists records snapshots,
    multi_step_forecast ex_feature_values ex_history ex_pipeline 3
      ex_training_config ex_feature_config = inr (records, snapshots)
    /\ Z.of_nat (length records)
       = 3 * Z.of_nat (length (sufficient_regions ex_feature_config ex_history))
    /\ (forall g, g ∈ sufficient_regions ex_feature_config ex_history ->
          Z.of_nat (length (records_of g records)) = 3
          /\ step <$> records_of g records = seqZ 1 3)
    /\ (forall g, g ∉ sufficient_regions ex_feature_config ex_history ->
          records_of g records = []).
Proof.
  apply (forecast_returns_m_records_per_region
           ex_feature_values ex_history ex_pipeline 3 ex_training_config ex_feature_config).
  lia.
Defined.

(** C2: in every run, the forecast date of a record of step k is the last
    observed date of its region advanced by exactly k calendar months:
    the month difference computed by [_months_between] is k, and the
    calendar month reached is the same whatever the day of the month of
    the last observed date. *)
Theorem forecast_date_is_k_months_ahead
    (fv : FeatureConfig -> RegionSeries -> Timestamp -> FeatureVector)
    (history : DataFrame) (pl : Pipeline) (m : Z)
    (cfg : TrainingConfig) (fc : FeatureConfig)
    (out : list ForecastRecord * list History) (row : ForecastRecord) :
  multi_step_forecast fv history pl m cfg fc = inr out ->
  row ∈ out.1 ->
  exists d0,
    last_observed_date (region row) history = Some d0
    /\ 1 <= step row <= m
    /\ forecast_date row = add_months d0 (step row)
    /\ _months_between d0 (forecast_date row) = step row
    /\ (forall d, year d = year d0 -> month d = month d0 ->
          year (add_months d (step row)) = year (forecast_date row)
          /\ month (add_months d (step row)) = month (forecast_date row)).
Proof.
  intros [Hm ->]%multi_step_forecast_inv Hrow.
  pose proof (forecast_loop_records fv pl fc (Z.to_nat m) 1 (group_regions history)) as Hall.
  rewrite Forall_forall in Hall.
  destruct (Hall row Hrow) as (Hstep & (d0 & Hsig & Hdate) & _).
  rewrite group_regions_signature in Hsig.
  apply list_elem_of_fmap in Hsig as (g & [= Hg Hd0] & _).
  exists d0. split; [by rewrite Hg|]. split; [lia|]. split; [done|]. split.
  - rewrite Hdate. apply months_between_add_months.
  - intros d Hy Hmo. rewrite Hdate. by apply add_months_day_irrelevant.
Qed.

Lemma forecast_date_is_k_months_ahead_witness :
  exists d0,
    last_observed_date "A" ex_history = Some d0
    /\ 1 <= 1 <= 3
    /\ mkTimestamp 2024 2 1 = add_months d0 1
    /\ _months_between d0 (mkTimestamp 2024 2 1) = 1
    /\ (forall d, year d = year d0 -> month d = month d0 ->
          year (add_months d 1) = year (mkTimestamp 2024 2 1)
          /\ month (add_months d 1) = month (mkTimestamp 2024 2 1)).
Proof.
  eapply (forecast_date_is_k_months_ahead
            ex_feature_values ex_history ex_pipeline 3 ex_training_config
            ex_feature_config _ ex_row_A1).
  - vm_compute. reflexivity.
  - apply list_elem_of_here.
Defined.

(** C3: every record of a run carries
    pct_change = (forecast_price - current_price) / current_price when the
    current price is not zero, and the NaN sentinel when it is zero; the
    run returns its records in both cases, it raises nothing. *)
Theorem pct_change_or_sentinel
    (fv : FeatureConfig -> RegionSeries -> Timestamp -> FeatureVector)
    (history : DataFrame) (pl : Pipeline) (m : Z)
    (cfg : TrainingConfig) (fc : FeatureConfig) :
  1 <= m ->
  exists records snapshots,
    multi_step_forecast fv history pl m cfg fc = inr (records, snapshots)
    /\ forall row, row ∈ records ->
         price_change row = PrimFloat.sub (forecast_price row) (current_price row)
         /\ (PrimFloat.eqb (current_price row) PrimFloat.zero = false ->
               pct_change row
               = PrimFloat.div (PrimFloat.sub (forecast_price row) (current_price row))
                               (current_price row))
         /\ (PrimFloat.eqb (current_price row) PrimFloat.zero = true ->
               pct_change row = PrimFloat.nan).
Proof.
  intros Hm.
  pose proof (forecast_loop_records fv pl fc (Z.to_nat m) 1 (group_regions history)) as Hall.
  destruct (forecast_loop fv pl fc (Z.to_nat m) 1 (group_regions history))
    as [records snapshots] eqn:Hloop.
  exists records, snapshots. split.
  { by rewrite multi_step_forecast_runs, Hloop. }
  intros row Hrow. cbn [fst] in Hall. rewrite Forall_forall in Hall.
  destruct (Hall row Hrow) as (_ & _ & Hprice & Hpct).
  split; [done|]. rewrite Hpct. unfold pct_change_of.
  split; intros ->; done.
Qed.

Lemma pct_change_or_sentinel_witness :
  exists records snapshots,
    multi_step_forecast ex_feature_values ex_history ex_pipeline 2
      ex_training_config ex_feature_config = inr (records, snapshots)
    /\ forall row, row ∈ records ->
         price_change row = PrimFloat.sub (forecast_price row) (current_price row)
         /\ (PrimFloat.eqb (current_price row) PrimFloat.zero = false ->
               pct_change row
               = PrimFloat.div (PrimFloat.sub (forecast_price row) (current_price row))
                               (current_price row))
         /\ (PrimFloat.eqb (current_price row) PrimFloat.zero = true ->
               pct_change row = PrimFloat.nan).
Proof.
  apply (pct_change_or_sentinel
           ex_feature_values ex_history ex_pipeline 2 ex_training_config ex_feature_config).
  lia.
Defined.

(** ** Running the handler *)

Section APIFacts.

Variable env : Environment.
Variable cfg : TrainingConfig.
Variable fc : FeatureConfig.
Variable engine : DataFrame -> Pipeline -> Z -> TrainingConfig -> FeatureConfig -> EngineRun.

Lemma coherent_insert (p p' : Process) (l : nat) (df : DataFrame) :
  coherent env p ->
  heap p' = <[l := df]> (heap p) ->
  history_cache p' = history_cache p ->
  pipeline_cache p' = pipeline_cache p ->
  history_cache p <> Some l ->
  coherent env p'.
Proof.
  intros [Hh Hp] Hheap Hhc Hpc Hne. split.
  - intros c Hc. rewrite Hhc in Hc. rewrite Hheap.
    rewrite lookup_insert_ne by congruence. by apply Hh.
  - intros pl Hpl. rewrite Hpc in Hpl. by apply Hp.
Qed.

Lemma fresh_not_allocated (h : gmap nat DataFrame) : h !! fresh (dom h) = None.
Proof. apply not_elem_of_dom. apply is_fresh. Qed.

Lemma get_region_history_run (p : Process) :
  coherent env p ->
  exists l p1,
    get_region_history env p = (inr l, p1)
    /\ heap p1 !! l = Some (rice_data env)
    /\ history_cache p1 = Some l
    /\ pipeline_cache p1 = pipeline_cache p
    /\ log p1 = log p ++ match history_cache p with Some _ => [] | None => [LoadRiceData] end
    /\ coherent env p1.
Proof.
  intros Hco. unfold get_region_history.
  destruct (history_cache p) as [l|] eqn:Hc.
  - exists l, p. destruct Hco as [Hh Hp]. rewrite app_nil_r. repeat split; auto.
  - eexists _, _. split; [reflexivity|]. cbn.
    split; [apply lookup_insert_eq|]. repeat split; try done.
    + intros l [= <-]. apply lookup_insert_eq.
    + apply Hco.
Qed.

Lemma copy_run (p : Process) (l : nat) (df : DataFrame) :
  heap p !! l = Some df ->
  exists l' p1,
    copy l p = (inr l', p1)
    /\ l' <> l
    /\ heap p1 = <[l' := df]> (heap p)
    /\ history_cache p1 = history_cache p
    /\ pipeline_cache p1 = pipeline_cache p
    /\ log p1 = log p ++ [CopyFrame].
Proof.
  intros Hl. unfold copy, bind, read. rewrite Hl. cbn.
  eexists _, _. split; [reflexivity|]. cbn. repeat split; try done.
  intros Heq. pose proof (fresh_not_allocated (heap p)) as Hf.
  rewrite Heq in Hf. congruence.
Qed.

Lemma get_pipeline_run (p : Process) :
  coherent env p ->
  match artifact env with
  | None => get_pipeline env cfg p = (inl (missing_model cfg), p)
  | Some pl =>
      exists p1,
        get_pipeline env cfg p = (inr pl, p1)
        /\ heap p1 = heap p
        /\ history_cache p1 = history_cache p
        /\ pipeline_cache p1 = Some pl
        /\ log p1 = log p ++ match pipeline_cache p with Some _ => [] | None => [JoblibLoad] end
  end.
Proof.
  intros [Hh Hp]. unfold get_pipeline.
  destruct (pipeline_cache p) as [pl|] eqn:Hc.
  - rewrite (Hp pl eq_refl). exists p. rewrite app_nil_r. done.
  - destruct (artifact env) as [pl|]; [|done].
    eexists. split; [reflexivity|]. done.
Qed.

Lemma call_engine_run (p : Process) (l : nat) (df : DataFrame) (pl : Pipeline) (m : Z) :
  heap p !! l = Some df ->
  exists p1,
    call_engine engine l pl m cfg fc p = (engine_result (engine df pl m cfg fc), p1)
    /\ heap p1 = <[l := engine_frame (engine df pl m cfg fc)]> (heap p)
    /\ history_cache p1 = history_cache p
    /\ pipeline_cache p1 = pipeline_cache p
    /\ log p1 = log p ++ [MultiStepForecast m].
Proof.
  intros Hl. unfold call_engine, bind, read. rewrite Hl. cbn.
  destruct (engine_result (engine df pl m cfg fc)) as [e|out]; eexists; split;
    try reflexivity; done.
Qed.

(** The handler answers [forecast_outcome], makes the calls
    [forecast_calls], and leaves the caches as the files have them. *)
Lemma forecast_run (p : Process) (months : Z) (target_year target_month : option Z) :
  coherent env p ->
  exists p',
    forecast env cfg fc engine months target_year target_month p
    = (forecast_outcome env cfg fc engine months target_year target_month, p')
    /\ log p' = log p ++ forecast_calls env p months target_year target_month
    /\ coherent env p'.
Proof.
  intros Hco. unfold forecast, forecast_outcome, forecast_calls, get_feature_config.
  destruct (get_region_history_run p Hco) as (l & p1 & Hrun1 & Hl & Hc1 & Hpc1 & Hlog1 & Hco1).
  destruct (copy_run p1 l _ Hl) as (l' & p2 & Hrun2 & Hne & Hheap2 & Hc2 & Hpc2 & Hlog2).
  assert (coherent env p2) as Hco2.
  { eapply coherent_insert; eauto. rewrite Hc1. congruence. }
  assert (heap p2 !! l' = Some (rice_data env)) as Hl'.
  { rewrite Hheap2. apply lookup_insert_eq. }
  unfold bind at 1. rewrite Hrun1. unfold bind at 1. rewrite Hrun2.
  unfold bind at 1.
  pose proof (get_pipeline_run p2 Hco2) as Hrun3.
  destruct (artifact env) as [pl|] eqn:Hart.
  2: { rewrite Hrun3. exists p2. split; [done|]. split; [|done].
       rewrite Hlog2, Hlog1, <- app_assoc. done. }
  destruct Hrun3 as (p3 & Hrun3 & Hheap3 & Hc3 & Hpc3 & Hlog3). rewrite Hrun3.
  assert (coherent env p3) as Hco3.
  { split.
    - intros c Hc. rewrite Hheap3. apply Hco2. by rewrite <- Hc3.
    - intros pl' Hpl'. congruence. }
  assert (log p3 = log p ++ match history_cache p with Some _ => [] | None => [LoadRiceData] end
                     ++ [CopyFrame]
                     ++ match pipeline_cache p with Some _ => [] | None => [JoblibLoad] end)
    as Hlog3'.
  { rewrite Hlog3, Hlog2, Hlog1, Hpc2, Hpc1, <- !app_assoc. done. }
  unfold bind at 1, read at 1. rewrite Hheap3, Hl'.
  unfold bind at 1, lift at 1.
  destruct (resolve_target months target_year target_month (max_date (rice_data env)))
    as [e|resolved].
  { exists p3. split; [done|]. split; [|done]. by rewrite Hlog3', app_nil_r. }
  assert (heap p3 !! l' = Some (rice_data env)) as Hl3 by (by rewrite Hheap3).
  destruct (call_engine_run p3 l' _ pl resolved.2 Hl3)
    as (p4 & Hrun4 & Hheap4 & Hc4 & Hpc4 & Hlog4).
  unfold bind at 1. rewrite Hrun4.
  assert (coherent env p4) as Hco4.
  { eapply coherent_insert; eauto. rewrite Hc3, Hc2, Hc1. congruence. }
  assert (log p4 = log p ++ match history_cache p with Some _ => [] | None => [LoadRiceData] end
                     ++ [CopyFrame]
                     ++ match pipeline_cache p with Some _ => [] | None => [JoblibLoad] end
                     ++ [MultiStepForecast resolved.2]) as Hlog4'.
  { rewrite Hlog4, Hlog3', <- !app_assoc. done. }
  exists p4.
  destruct (engine_result (engine (rice_data env) pl resolved.2 cfg fc)) as [e|out];
    (split; [done|]); split; done.
Qed.

Lemma get_root_run (p : Process) (q : Query) :
  coherent env p ->
  exists p',
    get_root env cfg fc engine q p = (get_root_outcome env cfg fc engine q, p')
    /\ log p' = log p ++ get_root_calls env p q
    /\ coherent env p'.
Proof.
  intros Hco. unfold get_root, get_root_outcome, get_root_calls.
  destruct (valid_query q).
  - by apply forecast_run.
  - exists p. rewrite app_nil_r. done.
Qed.

End APIFacts.

(** ** Requests that are refused *)

Lemma unpaired_target_xor (q : Query) :
  unpaired_target q ->
  xorb (bool_decide (q_target_year q = None)) (bool_decide (q_target_month q = None)) = true.
Proof.
  intros [[[y Hy] Hm]|[Hy [m Hm]]]; rewrite Hy, Hm; done.
Qed.

Lemma resolve_target_unpaired (months : Z) (q : Query) (lo : option Timestamp) :
  unpaired_target q ->
  resolve_target months (q_target_year q) (q_target_month q) lo
  = inl (HTTPException 400 "Provide both target_year and target_month, or omit both.").
Proof. intros Hq. unfold resolve_target. by rewrite unpaired_target_xor. Qed.

Lemma Timestamp_first_of_month_valid (y m : Z) :
  2000 <= y <= 2100 -> 1 <= m <= 12 ->
  Timestamp_first_of_month y m = inr (mkTimestamp y m 1).
Proof.
  intros Hy Hm. unfold Timestamp_first_of_month.
  destruct (_ && _) eqn:Hb; [done|].
  rewrite !andb_false_iff, !Z.leb_gt in Hb. lia.
Qed.

Lemma valid_query_bounds (q : Query) (y m : Z) :
  valid_query q = true -> q_target_year q = Some y -> q_target_month q = Some m ->
  2000 <= y <= 2100 /\ 1 <= m <= 12.
Proof.
  unfold valid_query, in_bounds. intros Hv Hy Hm. rewrite Hy, Hm in Hv.
  rewrite !andb_true_iff, !Z.leb_le in Hv. lia.
Qed.

Lemma resolve_target_paired (months : Z) (q : Query) (y m : Z) (lo : Timestamp) :
  valid_query q = true -> q_target_year q = Some y -> q_target_month q = Some m ->
  resolve_target months (q_target_year q) (q_target_month q) (Some lo)
  = if _months_between lo (mkTimestamp y m 1) <? 1
    then inl (HTTPException 400 ("Target must be after the latest observation ("
                                 +:+ strftime_ym lo +:+ ")."))
    else inr (Some (mkTimestamp y m 1), Z.max months (_months_between lo (mkTimestamp y m 1))).
Proof.
  intros Hv Hy Hm. destruct (valid_query_bounds q y m Hv Hy Hm) as [Hyb Hmb].
  unfold resolve_target. rewrite Hy, Hm. cbn [bool_decide xorb].
  rewrite !bool_decide_eq_false_2 by done. cbn [xorb].
  by rewrite Timestamp_first_of_month_valid.
Qed.

(** C4: a request whose [months] lies outside 1..24 (0 and 25 among them)
    is refused by the validation of the query parameters; the handler is
    not entered, so the process state is the one before the request: the
    history was not read and the predictor was neither loaded nor
    invoked. *)
Theorem months_out_of_bounds_rejected
    (env : Environment) (cfg : TrainingConfig) (fc : FeatureConfig)
    (engine : DataFrame -> Pipeline -> Z -> TrainingConfig -> FeatureConfig -> EngineRun)
    (q : Query) (p : Process) (m : Z) :
  q_months q = Some m -> m < 1 \/ 24 < m ->
  get_root env cfg fc engine q p = (inl RequestValidationError, p).
Proof.
  intros Hq Hm. unfold get_root, valid_query, in_bounds. rewrite Hq.
  destruct ((1 <=? m) && (m <=? 24)) eqn:Hb; [|done].
  rewrite andb_true_iff, !Z.leb_le in Hb. lia.
Qed.

Lemma months_out_of_bounds_rejected_witness :
  get_root ex_env ex_training_config ex_feature_config (spec_engine ex_feature_values)
    (mkQuery (Some 0) None None) initial_process
  = (inl RequestValidationError, initial_process)
  /\ get_root ex_env ex_training_config ex_feature_config (spec_engine ex_feature_values)
       (mkQuery (Some 25) None None) initial_process
     = (inl RequestValidationError, initial_process).
Proof.
  split.
  - apply (months_out_of_bounds_rejected ex_env ex_training_config ex_feature_config
             (spec_engine ex_feature_values) (mkQuery (Some 0) None None)
             initial_process 0); [reflexivity|lia].
  - apply (months_out_of_bounds_rejected ex_env ex_training_config ex_feature_config
             (spec_engine ex_feature_values) (mkQuery (Some 25) None None)
             initial_process 25); [reflexivity|lia].
Defined.

Lemma initial_process_coherent (env : Environment) : coherent env initial_process.
Proof. split; intros ? Hc; discriminate Hc. Qed.

Lemma forecast_calls_refused (env : Environment) (p : Process)
    (months : Z) (ty tm : option Z) (e : Error) :
  resolve_target months ty tm (max_date (rice_data env)) = inl e ->
  forecast_calls env p months ty tm = loading_calls env p.
Proof.
  intros Hr. unfold forecast_calls, loading_calls. rewrite Hr.
  destruct (artifact env); [|done]. by rewrite app_nil_r.
Qed.

Lemma forecast_calls_no_artifact (env : Environment) (p : Process)
    (months : Z) (ty tm : option Z) :
  artifact env = None ->
  forecast_calls env p months ty tm = loading_calls env p.
Proof. intros Ha. unfold forecast_calls, loading_calls. by rewrite Ha. Qed.

Lemma loading_calls_no_forecast (env : Environment) (p : Process) :
  filter (fun ev => is_forecast_call ev = true) (loading_calls env p) = [].
Proof.
  unfold loading_calls.
  destruct (history_cache p), (artifact env), (pipeline_cache p); done.
Qed.

Lemma get_root_invalid
    (env : Environment) (cfg : TrainingConfig) (fc : FeatureConfig)
    (engine : DataFrame -> Pipeline -> Z -> TrainingConfig -> FeatureConfig -> EngineRun)
    (q : Query) (p : Process) :
  valid_query q = false ->
  get_root env cfg fc engine q p = (inl RequestValidationError, p).
Proof. intros Hv. unfold get_root. by rewrite Hv. Qed.

(** C8: when the artifact of the fitted predictor is missing, every call
    of the handler fails with the RuntimeError of [get_pipeline]: the
    history has been obtained and copied, the engine is not called, no
    region is forecast; through GET / every request fails without a call
    of the engine, with that RuntimeError whenever its parameters pass
    validation; and the dashboard, given no pipeline, shows the warning and
    stops before the engine. *)
Theorem missing_artifact_fails_request
    (env : Environment) (cfg : TrainingConfig) (fc : FeatureConfig)
    (engine : DataFrame -> Pipeline -> Z -> TrainingConfig -> FeatureConfig -> EngineRun)
    (generate_advisories : History -> list ForecastRecord -> list AdvisoryRecord)
    (p : Process) (u : User) (region_df : DataFrame) :
  coherent env p -> artifact env = None ->
  (forall months target_year target_month, exists p',
      forecast env cfg fc engine months target_year target_month p
      = (inl (missing_model cfg), p')
      /\ log p' = log p ++ loading_calls env p
      /\ filter (fun ev => is_forecast_call ev = true) (loading_calls env p) = [])
  /\ (forall q, exists e p' calls,
        get_root env cfg fc engine q p = (inl e, p')
        /\ log p' = log p ++ calls
        /\ filter (fun ev => is_forecast_call ev = true) calls = []
        /\ (valid_query q = true -> e = missing_model cfg))
  /\ layout_forecasts cfg fc engine generate_advisories u region_df (load_pipeline env)
     = ([Render (Header "Forecasts & Advisories");
         Render (Warning "No trained pipeline found. Run the training CLI to generate `artifacts/best_model.joblib`.")],
        None)
  /\ engine_calls
       (layout_forecasts cfg fc engine generate_advisories u region_df (load_pipeline env)).1
     = [].
Proof.
  intros Hco Hart.
  assert (forall months ty tm, exists p',
             forecast env cfg fc engine months ty tm p = (inl (missing_model cfg), p')
             /\ log p' = log p ++ loading_calls env p) as Hf.
  { intros months ty tm.
    destruct (forecast_run env cfg fc engine p months ty tm Hco) as (p' & Hrun & Hlog & _).
    exists p'. unfold forecast_outcome in Hrun. rewrite Hart in Hrun.
    split; [done|]. by rewrite Hlog, forecast_calls_no_artifact. }
  split; [|split; [|split]].
  - intros months ty tm. destruct (Hf months ty tm) as (p' & Hrun & Hlog).
    exists p'. split; [done|]. split; [done|]. apply loading_calls_no_forecast.
  - intros q. destruct (valid_query q) eqn:Hq.
    + destruct (Hf (default 1 (q_months q)) (q_target_year q) (q_target_month q))
        as (p' & Hrun & Hlog).
      exists (missing_model cfg), p', (loading_calls env p).
      unfold get_root. rewrite Hq.
      split; [done|]. split; [done|]. split; [apply loading_calls_no_forecast|done].
    + exists RequestValidationError, p, [].
      rewrite get_root_invalid by done. rewrite app_nil_r. done.
  - unfold load_pipeline. rewrite Hart. reflexivity.
  - unfold load_pipeline. rewrite Hart. reflexivity.
Qed.

Lemma missing_artifact_fails_request_witness :
  (forall months target_year target_month, exists p',
      forecast ex_env_no_artifact ex_training_config ex_feature_config
        (spec_engine ex_feature_values) months target_year target_month initial_process
      = (inl (missing_model ex_training_config), p')
      /\ log p' = log initial_process ++ loading_calls ex_env_no_artifact initial_process
      /\ filter (fun ev => is_forecast_call ev = true)
           (loading_calls ex_env_no_artifact initial_process) = [])
  /\ (forall q, exists e p' calls,
        get_root ex_env_no_artifact ex_training_config ex_feature_config
          (spec_engine ex_feature_values) q initial_process = (inl e, p')
        /\ log p' = log initial_process ++ calls
        /\ filter (fun ev => is_forecast_call ev = true) calls = []
        /\ (valid_query q = true -> e = missing_model ex_training_config))
  /\ layout_forecasts ex_training_config ex_feature_config (spec_engine ex_feature_values)
       (fun _ _ => []) (mkUser 3 0) ex_history (load_pipeline ex_env_no_artifact)
     = ([Render (Header "Forecasts & Advisories");
         Render (Warning "No trained pipeline found. Run the training CLI to generate `artifacts/best_model.joblib`.")],
        None)
  /\ engine_calls
       (layout_forecasts ex_training_config ex_feature_config (spec_engine ex_feature_values)
          (fun _ _ => []) (mkUser 3 0) ex_history (load_pipeline ex_env_no_artifact)).1
     = [].
Proof.
  apply (missing_artifact_fails_request ex_env_no_artifact ex_training_config
           ex_feature_config (spec_engine ex_feature_values) (fun _ _ => [])
           initial_process (mkUser 3 0) ex_history).
  - apply initial_process_coherent.
  - reflexivity.
Defined.

(** C5, as stated, fails: with the artifact missing, a request that
    supplies only [target_year] fails with the RuntimeError of
    [get_pipeline], which is no invalid-request error, after the history
    was loaded and copied; with the artifact present it is refused with
    400 only after the history and the pipeline were loaded and cached. *)
Lemma unpaired_target_counterexample :
  (get_root ex_env_no_artifact ex_training_config ex_feature_config
     (spec_engine ex_feature_values) (mkQuery (Some 2) (Some 2024) None) initial_process).1
  = inl (RuntimeError "Missing trained model at artifacts/best_model.joblib.")
  /\ is_invalid_request (RuntimeError "Missing trained model at artifacts/best_model.joblib.")
     = false
  /\ log (get_root ex_env_no_artifact ex_training_config ex_feature_config
            (spec_engine ex_feature_values) (mkQuery (Some 2) (Some 2024) None)
            initial_process).2
     = [LoadRiceData; CopyFrame]
  /\ log (get_root ex_env ex_training_config ex_feature_config
            (spec_engine ex_feature_values) (mkQuery (Some 2) (Some 2024) None)
            initial_process).2
     = [LoadRiceData; CopyFrame; JoblibLoad].
Proof. vm_compute. done. Qed.

(** C5, amended: with the pipeline available, a request that supplies
    exactly one of [target_year] and [target_month] is refused with an
    invalid-request error and the engine is not called, so no forecast
    step runs; when its parameters pass validation the error is the HTTP
    400 of the handler, raised after the history was obtained and copied
    and the pipeline obtained (each loaded and cached on first use). *)
Theorem unpaired_target_rejected_after_loading
    (env : Environment) (cfg : TrainingConfig) (fc : FeatureConfig)
    (engine : DataFrame -> Pipeline -> Z -> TrainingConfig -> FeatureConfig -> EngineRun)
    (q : Query) (p : Process) (pl : Pipeline) :
  coherent env p -> artifact env = Some pl -> unpaired_target q ->
  exists e p' calls,
    get_root env cfg fc engine q p = (inl e, p')
    /\ is_invalid_request e = true
    /\ log p' = log p ++ calls
    /\ filter (fun ev => is_forecast_call ev = true) calls = []
    /\ (valid_query q = true ->
          e = HTTPException 400 "Provide both target_year and target_month, or omit both."
          /\ calls = loading_calls env p).
Proof.
  intros Hco Hart Hq. destruct (valid_query q) eqn:Hv.
  - destruct (get_root_run env cfg fc engine p q Hco) as (p' & Hrun & Hlog & _).
    unfold get_root_outcome, get_root_calls in *. rewrite Hv in *.
    pose proof (resolve_target_unpaired (default 1 (q_months q)) q
                  (max_date (rice_data env)) Hq) as Hres.
    unfold forecast_outcome in Hrun. rewrite Hart, Hres in Hrun.
    rewrite (forecast_calls_refused _ _ _ _ _ _ Hres) in Hlog.
    eexists _, p', _. split; [exact Hrun|]. split; [done|]. split; [exact Hlog|].
    split; [apply loading_calls_no_forecast|done].
  - exists RequestValidationError, p, [].
    rewrite get_root_invalid by done. rewrite app_nil_r. done.
Qed.

Lemma unpaired_target_rejected_after_loading_witness :
  exists e p' calls,
    get_root ex_env ex_training_config ex_feature_config (spec_engine ex_feature_values)
      (mkQuery (Some 2) (Some 2024) None) initial_process = (inl e, p')
    /\ is_invalid_request e = true
    /\ log p' = log initial_process ++ calls
    /\ filter (fun ev => is_forecast_call ev = true) calls = []
    /\ (valid_query (mkQuery (Some 2) (Some 2024) None) = true ->
          e = HTTPException 400 "Provide both target_year and target_month, or omit both."
          /\ calls = loading_calls ex_env initial_process).
Proof.
  apply (unpaired_target_rejected_after_loading ex_env ex_training_config
           ex_feature_config (spec_engine ex_feature_values)
           (mkQuery (Some 2) (Some 2024) None) initial_process ex_pipeline).
  - apply initial_process_coherent.
  - reflexivity.
  - left. split; [by eexists|reflexivity].
Defined.

(** C10, as stated, fails: with the artifact missing, a request whose
    target month (2023-12) is not after the latest observation (2024-01)
    fails with the RuntimeError of [get_pipeline], which is no
    invalid-request error. *)
Lemma target_not_after_counterexample :
  (get_root ex_env_no_artifact ex_training_config ex_feature_config
     (spec_engine ex_feature_values) (mkQuery (Some 2) (Some 2023) (Some 12))
     initial_process).1
  = inl (RuntimeError "Missing trained model at artifacts/best_model.joblib.")
  /\ is_invalid_request (RuntimeError "Missing trained model at artifacts/best_model.joblib.")
     = false
  /\ max_date (rice_data ex_env_no_artifact) = Some (mkTimestamp 2024 1 1)
  /\ _months_between (mkTimestamp 2024 1 1) (mkTimestamp 2023 12 1) = -1.
Proof. vm_compute. done. Qed.

(** C10, amended: with the pipeline available, when both [target_year]
    and [target_month] are supplied and the target month is not strictly
    after the latest observed month (month difference < 1), the request
    fails with an invalid-request error and the engine is not called; when
    its parameters pass validation the error is the HTTP 400 "Target must
    be after the latest observation". *)
Theorem target_not_after_latest_rejected
    (env : Environment) (cfg : TrainingConfig) (fc : FeatureConfig)
    (engine : DataFrame -> Pipeline -> Z -> TrainingConfig -> FeatureConfig -> EngineRun)
    (q : Query) (p : Process) (pl : Pipeline) (y m : Z) (lo : Timestamp) :
  coherent env p -> artifact env = Some pl ->
  q_target_year q = Some y -> q_target_month q = Some m ->
  max_date (rice_data env) = Some lo ->
  _months_between lo (mkTimestamp y m 1) < 1 ->
  exists e p' calls,
    get_root env cfg fc engine q p = (inl e, p')
    /\ is_invalid_request e = true
    /\ log p' = log p ++ calls
    /\ filter (fun ev => is_forecast_call ev = true) calls = []
    /\ (valid_query q = true ->
          e = HTTPException 400 ("Target must be after the latest observation ("
                                 +:+ strftime_ym lo +:+ ").")
          /\ calls = loading_calls env p).
Proof.
  intros Hco Hart Hy Hm Hlo Hdelta. destruct (valid_query q) eqn:Hv.
  - destruct (get_root_run env cfg fc engine p q Hco) as (p' & Hrun & Hlog & _).
    unfold get_root_outcome, get_root_calls in *. rewrite Hv in *.
    pose proof (resolve_target_paired (default 1 (q_months q)) q y m lo Hv Hy Hm) as Hres.
    apply Z.ltb_lt in Hdelta. rewrite Hdelta in Hres. rewrite <- Hlo in Hres at 1.
    unfold forecast_outcome in Hrun. rewrite Hart, Hres in Hrun.
    rewrite (forecast_calls_refused _ _ _ _ _ _ Hres) in Hlog.
    eexists _, p', _. split; [exact Hrun|]. split; [done|]. split; [exact Hlog|].
    split; [apply loading_calls_no_forecast|done].
  - exists RequestValidationError, p, [].
    rewrite get_root_invalid by done. rewrite app_nil_r. done.
Qed.

Lemma target_not_after_latest_rejected_witness :
  exists e p' calls,
    get_root ex_env ex_training_config ex_feature_config (spec_engine ex_feature_values)
      (mkQuery (Some 2) (Some 2024) (Some 1)) initial_process = (inl e, p')
    /\ is_invalid_request e = true
    /\ log p' = log initial_process ++ calls
    /\ filter (fun ev => is_forecast_call ev = true) calls = []
    /\ (valid_query (mkQuery (Some 2) (Some 2024) (Some 1)) = true ->
          e = HTTPException 400 ("Target must be after the latest observation ("
                                 +:+ strftime_ym (mkTimestamp 2024 1 1) +:+ ").")
          /\ calls = loading_calls ex_env initial_process).
Proof.
  apply (target_not_after_latest_rejected ex_env ex_training_config
           ex_feature_config (spec_engine ex_feature_values)
           (mkQuery (Some 2) (Some 2024) (Some 1)) initial_process ex_pipeline 2024 1
           (mkTimestamp 2024 1 1)).
  - apply initial_process_coherent.
  - reflexivity.
  - reflexivity.
  - reflexivity.
  - reflexivity.
  - vm_compute. reflexivity.
Defined.

(** ** Requests that are served *)

(** C9: when both [target_year] and [target_month] are supplied and the
    target month is after the latest observation, the number of months
    generated is the larger of the months requested and the month
    difference from the latest observation to the target, and the results
    are exactly the records of the run whose forecast date is the target
    date; when neither is supplied, the months generated are the months
    requested and every record of the run is in the results. *)
Theorem target_selects_months_and_rows
    (env : Environment) (cfg : TrainingConfig) (fc : FeatureConfig)
    (engine : DataFrame -> Pipeline -> Z -> TrainingConfig -> FeatureConfig -> EngineRun)
    (q : Query) (p : Process) (pl : Pipeline) (lo : Timestamp) :
  coherent env p -> valid_query q = true ->
  artifact env = Some pl -> max_date (rice_data env) = Some lo ->
  (forall y m forecasts histories,
      q_target_year q = Some y -> q_target_month q = Some m ->
      1 <= _months_between lo (mkTimestamp y m 1) ->
      engine_result (engine (rice_data env) pl
                       (Z.max (default 1 (q_months q))
                              (_months_between lo (mkTimestamp y m 1))) cfg fc)
      = inr (forecasts, histories) ->
      exists resp p',
        get_root env cfg fc engine q p = (inr resp, p')
        /\ months_requested resp = default 1 (q_months q)
        /\ months_generated resp
           = Z.max (default 1 (q_months q)) (_months_between lo (mkTimestamp y m 1))
        /\ target_date resp = Some (strftime_ymd (mkTimestamp y m 1))
        /\ results resp
           = result_of_row <$> filter (fun row => forecast_date row = mkTimestamp y m 1)
                                      forecasts
        /\ result_count resp = Z.of_nat (length (results resp)))
  /\ (forall forecasts histories,
        q_target_year q = None -> q_target_month q = None ->
        engine_result (engine (rice_data env) pl (default 1 (q_months q)) cfg fc)
        = inr (forecasts, histories) ->
        exists resp p',
          get_root env cfg fc engine q p = (inr resp, p')
          /\ months_requested resp = default 1 (q_months q)
          /\ months_generated resp = default 1 (q_months q)
          /\ target_date resp = None
          /\ results resp = result_of_row <$> forecasts
          /\ result_count resp = Z.of_nat (length (results resp))).
Proof.
  intros Hco Hv Hart Hlo.
  destruct (get_root_run env cfg fc engine p q Hco) as (p' & Hrun & _).
  unfold get_root_outcome, forecast_outcome in Hrun. rewrite Hv, Hart in Hrun.
  split.
  - intros y m forecasts histories Hy Hm Hdelta Heng.
    pose proof (resolve_target_paired (default 1 (q_months q)) q y m lo Hv Hy Hm) as Hres.
    apply Z.ltb_ge in Hdelta. rewrite Hdelta in Hres.
    rewrite <- Hlo in Hres at 1. rewrite Hres in Hrun. cbn [fst snd] in Hrun.
    rewrite Heng, Hlo in Hrun.
    eexists _, p'. split; [exact Hrun|]. done.
  - intros forecasts histories Hy Hm Heng.
    unfold resolve_target in Hrun. rewrite Hy, Hm in Hrun. cbn in Hrun.
    rewrite Heng, Hlo in Hrun.
    eexists _, p'. split; [exact Hrun|]. done.
Qed.

Lemma target_selects_months_and_rows_witness :
  exists resp p',
    get_root ex_env ex_training_config ex_feature_config (spec_engine ex_feature_values)
      (mkQuery (Some 2) (Some 2024) (Some 4)) initial_process = (inr resp, p')
    /\ months_requested resp = 2
    /\ months_generated resp = 3
    /\ target_date resp = Some "2024-04-01"%string
    /\ res_step <$> results resp = [3; 3]
    /\ result_count resp = 2.
Proof.
  destruct (target_selects_months_and_rows ex_env ex_training_config ex_feature_config
              (spec_engine ex_feature_values) (mkQuery (Some 2) (Some 2024) (Some 4))
              initial_process ex_pipeline (mkTimestamp 2024 1 1)
              (initial_process_coherent ex_env) eq_refl eq_refl eq_refl) as [Hboth _].
  edestruct (Hboth 2024 4) as (resp & p' & Hrun & Hreq & Hgen & Htd & Hres & Hcnt);
    [reflexivity|reflexivity|by vm_compute|vm_compute; reflexivity|].
  exists resp, p'. split; [exact Hrun|]. split; [exact Hreq|].
  split; [exact Hgen|]. split; [exact Htd|].
  rewrite Hcnt, Hres. vm_compute. done.
Defined.

(** ** Repeated runs and the order of the records *)

Lemma StronglySorted_fmap_inv {A B} (f : A -> B) (R : relation B) (l : list A) :
  StronglySorted R (f <$> l) -> StronglySorted (fun x y => R (f x) (f y)) l.
Proof.
  induction l as [|x l IH]; [constructor|].
  rewrite fmap_cons. intros [Hx Hl]%StronglySorted_cons.
  constructor; [by apply IH|]. rewrite Forall_fmap in Hx. exact Hx.
Qed.

Lemma make_response_sorted (months mg : Z) (target lo : option Timestamp)
    (forecasts : list ForecastRecord) (resp : Response) :
  StronglySorted key_before (record_key <$> forecasts) ->
  make_response months mg target lo forecasts = inr resp ->
  StronglySorted key_before (result_key <$> results resp).
Proof.
  intros Hs%StronglySorted_fmap_inv. unfold make_response.
  destruct lo as [lo|]; [|done]. intros [= <-]. cbn [results].
  rewrite <- list_fmap_compose.
  apply (StronglySorted_fmap _ (fun x y => key_before (record_key x) (record_key y)));
    [done|].
  destruct target; [by apply StronglySorted_filter|done].
Qed.

Lemma multi_step_forecast_sorted
    (fv : FeatureConfig -> RegionSeries -> Timestamp -> FeatureVector)
    (history : DataFrame) (pl : Pipeline) (m : Z)
    (cfg : TrainingConfig) (fc : FeatureConfig)
    (out : list ForecastRecord * list History) :
  multi_step_forecast fv history pl m cfg fc = inr out ->
  StronglySorted key_before (record_key <$> out.1).
Proof.
  intros Hrun. rewrite (multi_step_forecast_keys _ _ _ _ _ _ _ Hrun).
  apply multi_step_forecast_inv in Hrun as [Hm _].
  apply grid_sorted; [|apply sufficient_regions_sorted].
  rewrite <- (Z2Nat.id m) by lia. apply StronglySorted_seqZ.
Qed.

Lemma get_root_outcome_sorted
    (env : Environment) (cfg : TrainingConfig) (fc : FeatureConfig)
    (fv : FeatureConfig -> RegionSeries -> Timestamp -> FeatureVector)
    (q : Query) (resp : Response) :
  get_root_outcome env cfg fc (spec_engine fv) q = inr resp ->
  StronglySorted key_before (result_key <$> results resp).
Proof.
  unfold get_root_outcome, forecast_outcome.
  destruct (valid_query q); [|done].
  destruct (artifact env) as [pl|]; [|done].
  destruct (resolve_target _ _ _ _) as [e|resolved]; [done|].
  unfold spec_engine; cbn [engine_result].
  destruct (multi_step_forecast _ _ _ _ _ _) as [e|out] eqn:Hrun; [done|].
  apply make_response_sorted. by eapply multi_step_forecast_sorted.
Qed.

(** C6: a request repeated in the state the first run left gets the very
    same answer, whatever the engine does to the frame it is given (the
    handler hands it a copy of the cached history); and with the engine of
    the specification the results of an answer are in (step ascending,
    region ascending) order, with no two results for one step and
    region. *)
Theorem rerun_is_identical_and_ordered
    (env : Environment) (cfg : TrainingConfig) (fc : FeatureConfig)
    (engine : DataFrame -> Pipeline -> Z -> TrainingConfig -> FeatureConfig -> EngineRun)
    (fv : FeatureConfig -> RegionSeries -> Timestamp -> FeatureVector)
    (q : Query) (p : Process) :
  coherent env p ->
  (get_root env cfg fc engine q (get_root env cfg fc engine q p).2).1
  = (get_root env cfg fc engine q p).1
  /\ (forall resp,
        (get_root env cfg fc (spec_engine fv) q p).1 = inr resp ->
        StronglySorted key_before (result_key <$> results resp)).
Proof.
  intros Hco. split.
  - destruct (get_root_run env cfg fc engine p q Hco) as (p1 & Hrun1 & _ & Hco1).
    destruct (get_root_run env cfg fc engine p1 q Hco1) as (p2 & Hrun2 & _).
    rewrite Hrun1. cbn [fst snd]. by rewrite Hrun2.
  - intros resp Hresp.
    destruct (get_root_run env cfg fc (spec_engine fv) p q Hco) as (p1 & Hrun1 & _).
    rewrite Hrun1 in Hresp. by eapply get_root_outcome_sorted.
Qed.

Lemma rerun_is_identical_and_ordered_witness :
  (get_root ex_env ex_training_config ex_feature_config ex_appending_engine
     (mkQuery (Some 2) None None)
     (get_root ex_env ex_training_config ex_feature_config ex_appending_engine
        (mkQuery (Some 2) None None) initial_process).2).1
  = (get_root ex_env ex_training_config ex_feature_config ex_appending_engine
       (mkQuery (Some 2) None None) initial_process).1
  /\ (forall resp,
        (get_root ex_env ex_training_config ex_feature_config
           (spec_engine ex_feature_values) (mkQuery (Some 2) None None)
           initial_process).1 = inr resp ->
        StronglySorted key_before (result_key <$> results resp)).
Proof.
  apply (rerun_is_identical_and_ordered ex_env ex_training_config ex_feature_config
           ex_appending_engine ex_feature_values (mkQuery (Some 2) None None)
           initial_process).
  apply initial_process_coherent.
Defined.

(** ** The dashboard: which history the advisories see *)

Lemma selectbox_elem {A} (l : list A) (u : User) (x : A) :
  selectbox l u = Some x -> x ∈ l.
Proof.
  unfold selectbox. destruct (l !! selectbox_index u) as [y|] eqn:Hl.
  - intros [= <-]. by eapply list_elem_of_lookup_2.
  - destruct l as [|y l]; [done|]. intros [= <-]. left.
Qed.

Lemma step_options_elem (predictions : list ForecastRecord) (k : Z) :
  k ∈ step_options predictions -> exists row, row ∈ predictions /\ step row = k.
Proof.
  unfold step_options.
  rewrite merge_sort_Permutation, elem_of_remove_dups, list_elem_of_fmap.
  intros (row & -> & Hrow). by exists row.
Qed.

Lemma py_index_in_range {A} (l : list A) (i : Z) :
  0 <= i < Z.of_nat (length l) -> py_index l i = l !! Z.to_nat i.
Proof.
  intros Hi. unfold py_index.
  destruct ((0 <=? i) && (i <? Z.of_nat (length l))) eqn:Hb; [done|].
  rewrite andb_false_iff, Z.leb_gt, Z.ltb_ge in Hb. lia.
Qed.

Section DashboardFacts.

Variable cfg : TrainingConfig.
Variable fc : FeatureConfig.
Variable engine : DataFrame -> Pipeline -> Z -> TrainingConfig -> FeatureConfig -> EngineRun.
Variable generate_advisories : History -> list ForecastRecord -> list AdvisoryRecord.

(** Whatever the engine returned: the advisories are computed once, from
    the entry [selected_step - 1] of [histories] and the predictions of
    the selected step. *)
Lemma layout_advisories_call (u : User) (predictions : list ForecastRecord)
    (histories : list History) (k : Z) (h : History) :
  selectbox (step_options predictions) u = Some k ->
  py_index histories (k - 1) = Some h ->
  advisory_calls (layout_advisories generate_advisories u predictions histories).1
  = [(h, filter (fun row => step row = k) predictions)]
  /\ (layout_advisories generate_advisories u predictions histories).2 = None.
Proof.
  intros Hsel Hidx. unfold layout_advisories. rewrite Hsel, Hidx. cbn [fst snd].
  split; [|done]. cbn [advisory_calls omap list_omap].
  by destruct (generate_advisories _ _).
Qed.

Lemma layout_forecasts_returned (u : User) (region_df : DataFrame) (pl : Pipeline)
    (predictions : list ForecastRecord) (histories : list History) :
  engine_result (engine region_df pl (slider 1 6 u) cfg fc) = inr (predictions, histories) ->
  advisory_calls (layout_forecasts cfg fc engine generate_advisories u region_df (Some pl)).1
  = advisory_calls (layout_advisories generate_advisories u predictions histories).1
  /\ (layout_forecasts cfg fc engine generate_advisories u region_df (Some pl)).2
     = (layout_advisories generate_advisories u predictions histories).2
  /\ engine_calls (layout_forecasts cfg fc engine generate_advisories u region_df (Some pl)).1
     = [(region_df, slider 1 6 u)].
Proof.
  intros Heng. unfold layout_forecasts. rewrite Heng.
  assert (engine_calls (layout_advisories generate_advisories u predictions histories).1 = [])
    as Hnone.
  { unfold layout_advisories. destruct (selectbox _ _); [|done].
    destruct (py_index _ _); [|done]. cbn. by destruct (generate_advisories _ _). }
  destruct (layout_advisories _ _ _ _) as [acts err]. cbn [fst snd] in *.
  unfold advisory_calls, engine_calls in *. rewrite !omap_app, Hnone. done.
Qed.

End DashboardFacts.

Lemma slider_range (lo hi : Z) (u : User) : lo <= hi -> lo <= slider lo hi u <= hi.
Proof. unfold slider. lia. Qed.

(** C7: on the dashboard, with [m] the months chosen on the slider, the
    engine returns its predictions and one snapshot per step; for the step
    k selected in the select box, the advisories are computed exactly once,
    from the snapshot at index k - 1 and the predictions of step k alone;
    that snapshot holds, for each region, the observed series followed by
    points forecast at steps before k only. *)
Theorem advisories_use_history_as_of_step
    (cfg : TrainingConfig) (fc : FeatureConfig)
    (fv : FeatureConfig -> RegionSeries -> Timestamp -> FeatureVector)
    (generate_advisories : History -> list ForecastRecord -> list AdvisoryRecord)
    (u : User) (region_df : DataFrame) (pl : Pipeline) :
  exists predictions histories,
    multi_step_forecast fv region_df pl (slider 1 6 u) cfg fc = inr (predictions, histories)
    /\ Z.of_nat (length histories) = slider 1 6 u
    /\ forall k,
         selectbox (step_options predictions) u = Some k ->
         exists h,
           1 <= k <= slider 1 6 u
           /\ histories !! Z.to_nat (k - 1) = Some h
           /\ advisory_calls
                (layout_forecasts cfg fc (spec_engine fv) generate_advisories
                   u region_df (Some pl)).1
              = [(h, filter (fun row => step row = k) predictions)]
           /\ (layout_forecasts cfg fc (spec_engine fv) generate_advisories
                 u region_df (Some pl)).2 = None
           /\ forall g s, (g, s) ∈ h ->
                exists added,
                  s = region_series g region_df ++ added
                  /\ Forall (fun pt => exists row,
                               row ∈ predictions /\ step row < k
                               /\ pt = point_of_record row) added.
Proof.
  pose proof (slider_range 1 6 u ltac:(lia)) as Hm.
  set (m := slider 1 6 u) in *.
  pose proof (forecast_loop_records fv pl fc (Z.to_nat m) 1 (group_regions region_df)) as Hrec.
  pose proof (forecast_loop_snapshots_length fv pl fc (Z.to_nat m) 1
                (group_regions region_df)) as Hlen.
  pose proof (forecast_loop_snapshots fv pl fc (Z.to_nat m) 1
                (group_regions region_df)) as Hsnap.
  destruct (forecast_loop fv pl fc (Z.to_nat m) 1 (group_regions region_df))
    as [predictions histories] eqn:Hloop.
  cbn [fst snd] in *.
  assert (multi_step_forecast fv region_df pl m cfg fc = inr (predictions, histories))
    as Hrun by (rewrite multi_step_forecast_runs by lia; by rewrite Hloop).
  exists predictions, histories. split; [done|]. split; [lia|].
  intros k Hsel.
  assert (1 <= k <= m) as Hk.
  { apply selectbox_elem, step_options_elem in Hsel as (row & Hrow & <-).
    rewrite Forall_forall in Hrec. destruct (Hrec row Hrow) as (Hstep & _). lia. }
  destruct (lookup_lt_is_Some_2 histories (Z.to_nat (k - 1)) ltac:(lia)) as [h Hh].
  exists h. split; [done|]. split; [done|].
  assert (py_index histories (k - 1) = Some h) as Hidx.
  { rewrite py_index_in_range by lia. done. }
  destruct (layout_forecasts_returned cfg fc (spec_engine fv) generate_advisories
              u region_df pl predictions histories) as (Hcalls & Herr & _).
  { unfold spec_engine; cbn [engine_result]. fold m. by rewrite Hrun. }
  destruct (layout_advisories_call generate_advisories u predictions histories k h
              Hsel Hidx) as [Hcall Hnone].
  split; [by rewrite Hcalls|]. split; [by rewrite Herr|].
  intros g s Hgs.
  destruct (Hsnap _ h g s Hh Hgs) as (st & added & Hst & Hreg & Hs & Hadded).
  exists added. split.
  - unfold group_regions in Hst. apply list_elem_of_fmap in Hst as (g' & -> & _).
    cbn [init_region rs_region rs_series] in *. by subst.
  - eapply Forall_impl; [exact Hadded|]. intros pt (row & Hrow & Hstep & ->).
    exists row. split; [done|]. split; [lia|done].
Qed.

(** ** The model on the worked example *)

(** The example of the specification: last observed 2024-05, step 3 gives
    2024-08, from the first as from the last day of the month. *)
Example add_months_may_to_august :
  add_months (mkTimestamp 2024 5 1) 3 = mkTimestamp 2024 8 1
  /\ year (add_months (mkTimestamp 2024 5 31) 3) = 2024
  /\ month (add_months (mkTimestamp 2024 5 31) 3) = 8.
Proof. vm_compute. done. Qed.

(** Region A, last observed 50.0 on 2024-01, two months: step 1 goes from
    2024-01 to 2024-02, step 2 starts from the forecast of step 1 on
    2024-02 and goes to 2024-03. Region B has too little history. *)
Example two_months_for_region_A :
  exists records snapshots,
    multi_step_forecast ex_feature_values ex_history ex_pipeline 2
      ex_training_config ex_feature_config = inr (records, snapshots)
    /\ (fun row => (step row, strftime_ymd (current_date row),
                    strftime_ymd (forecast_date row),
                    PrimFloat.eqb (current_price row) (forecast_price row)))
         <$> records_of "A" records
       = [(1, "2024-01-01", "2024-02-01", false); (2, "2024-02-01", "2024-03-01", false)]%string
    /\ current_price <$> drop 1 (records_of "A" records)
       = forecast_price <$> take 1 (records_of "A" records)
    /\ records_of "B" records = []
    /\ regions ex_history = ["A"; "B"; "C"]%string
    /\ sufficient_regions ex_feature_config ex_history = ["A"; "C"]%string.
Proof. eexists _, _. split; [vm_compute; reflexivity|]. vm_compute. done. Qed.

(** Region C has a latest price of zero: its first record carries the
    sentinel, its second one, from a current price of one, a quotient. *)
Example sentinel_for_region_C :
  exists records snapshots,
    multi_step_forecast ex_feature_values ex_history ex_pipeline 2
      ex_training_config ex_feature_config = inr (records, snapshots)
    /\ pct_change <$> records_of "C" records = [PrimFloat.nan; PrimFloat.one].
Proof. eexists _, _. split; [vm_compute; reflexivity|]. vm_compute. done. Qed.

(** On the dashboard, slider at 3 and the second entry of the select box:
    the advisories of step 2 are computed from the snapshot at index 1, in
    which region A has its two observed months and the forecast of step
    1. *)
Example advisories_of_step_two :
  exists (h : History) (rows : list ForecastRecord),
    advisory_calls
      (layout_forecasts ex_training_config ex_feature_config
         (spec_engine ex_feature_values) (fun _ _ => []) (mkUser 3 1)
         ex_history (Some ex_pipeline)).1 = [(h, rows)]
    /\ step <$> rows = [2; 2]
    /\ (fun gs : string * list PricePoint =>
          (gs.1, (fun pt => strftime_ymd (date pt)) <$> gs.2)) <$> h
       = [("A", ["2023-12-01"; "2024-01-01"; "2024-02-01"]);
          ("B", ["2024-01-01"]);
          ("C", ["2023-12-01"; "2024-01-01"; "2024-02-01"])]%string.
Proof. eexists _, _. split; [vm_compute; reflexivity|]. vm_compute. done. Qed.

(** A served request and its repetition: the same answer, the history
    loaded once. *)
Example served_twice :
  exists resp p1 p2,
    get_root ex_env ex_training_config ex_feature_config ex_appending_engine
      (mkQuery None None None) initial_process = (inr resp, p1)
    /\ get_root ex_env ex_training_config ex_feature_config ex_appending_engine
         (mkQuery None None None) p1 = (inr resp, p2)
    /\ months_generated resp = 1
    /\ log p2 = [LoadRiceData; CopyFrame; JoblibLoad; MultiStepForecast 1;
                 CopyFrame; MultiStepForecast 1].
Proof. eexists _, _, _. split; [vm_compute; reflexivity|]. vm_compute. done. Qed.

(** ** More on [_months_between] *)

(** X1: month differences add up along a chain of dates, change sign when
    the two dates are swapped, and vanish exactly between two dates of the
    same calendar month, whatever their days. *)
Theorem months_between_chain (a b c : Timestamp) :
  _months_between a c = _months_between a b + _months_between b c
  /\ _months_between b a = - _months_between a b
  /\ (_months_between a b = 0 <-> year a = year b /\ month a = month b).
Proof.
  rewrite !months_between_index. split; [lia|]. split; [lia|].
  unfold year, month.
  pose proof (Z.div_mod (month_index a) 12 ltac:(lia)).
  pose proof (Z.div_mod (month_index b) 12 ltac:(lia)).
  split.
  - intros Hi. assert (month_index a = month_index b) as -> by lia. done.
  - intros [Hy Hm]. lia.
Qed.

(** ** The caches and the object store over a request *)

Section StoreFacts.

Variable env : Environment.
Variable cfg : TrainingConfig.
Variable fc : FeatureConfig.
Variable engine : DataFrame -> Pipeline -> Z -> TrainingConfig -> FeatureConfig -> EngineRun.

Lemma get_region_history_store (p : Process) :
  coherent env p ->
  exists l p1,
    get_region_history env p = (inr l, p1)
    /\ heap p1 !! l = Some (rice_data env)
    /\ history_cache p1 = Some l
    /\ (forall c, history_cache p = Some c -> c = l)
    /\ pipeline_cache p1 = pipeline_cache p
    /\ log p1 = log p ++ match history_cache p with Some _ => [] | None => [LoadRiceData] end
    /\ coherent env p1
    /\ (forall l0 df, heap p !! l0 = Some df -> heap p1 !! l0 = Some df).
Proof.
  intros Hco. unfold get_region_history.
  destruct (history_cache p) as [l|] eqn:Hc.
  - exists l, p. destruct Hco as [Hh Hp]. rewrite app_nil_r.
    split; [done|]. split; [by apply Hh|]. split; [done|].
    split; [by intros c [= ->]|]. repeat split; auto.
  - eexists _, _. split; [reflexivity|]. cbn.
    split; [apply lookup_insert_eq|]. split; [done|]. split; [done|].
    split; [done|]. split; [done|]. split.
    + split; [|apply Hco]. intros l [= <-]. apply lookup_insert_eq.
    + intros l0 df Hl0. rewrite lookup_insert_ne; [done|].
      intros <-. rewrite fresh_not_allocated in Hl0. done.
Qed.

Lemma copy_store (p : Process) (l : nat) (df : DataFrame) :
  heap p !! l = Some df ->
  exists l' p1,
    copy l p = (inr l', p1)
    /\ heap p !! l' = None
    /\ heap p1 = <[l' := df]> (heap p)
    /\ history_cache p1 = history_cache p
    /\ pipeline_cache p1 = pipeline_cache p
    /\ log p1 = log p ++ [CopyFrame].
Proof.
  intros Hl. unfold copy, bind, read. rewrite Hl. cbn.
  eexists _, _. split; [reflexivity|]. cbn.
  split; [apply fresh_not_allocated|]. done.
Qed.

(** A call of the handler, with what it leaves in the process. *)
Lemma forecast_store (p : Process) (months : Z) (target_year target_month : option Z) :
  coherent env p ->
  exists p',
    forecast env cfg fc engine months target_year target_month p
    = (forecast_outcome env cfg fc engine months target_year target_month, p')
    /\ log p' = log p ++ forecast_calls env p months target_year target_month
    /\ coherent env p'
    /\ is_Some (history_cache p')
    /\ (forall l, history_cache p = Some l -> history_cache p' = Some l)
    /\ pipeline_cache p'
       = match pipeline_cache p with Some pl => Some pl | None => artifact env end
    /\ (forall l0 df, heap p !! l0 = Some df -> heap p' !! l0 = Some df).
Proof.
  intros Hco.
  destruct (forecast_run env cfg fc engine p months target_year target_month Hco)
    as (p' & Hrun & Hlog & Hco').
  exists p'. split; [done|]. split; [done|]. split; [done|].
  revert Hrun. unfold forecast, get_feature_config.
  destruct (get_region_history_store p Hco)
    as (l & p1 & Hrun1 & Hl & Hc1 & Huniq & Hpc1 & _ & Hco1 & Hfr1).
  destruct (copy_store p1 l _ Hl) as (l' & p2 & Hrun2 & Hfresh & Hheap2 & Hc2 & Hpc2 & _).
  assert (forall l0 df, heap p !! l0 = Some df -> heap p2 !! l0 = Some df) as Hfr2.
  { intros l0 df Hl0. rewrite Hheap2. rewrite lookup_insert_ne; [by apply Hfr1|].
    intros <-. apply Hfr1 in Hl0. congruence. }
  assert (coherent env p2) as Hco2.
  { eapply coherent_insert; eauto. rewrite Hc1. intros [= ->]. congruence. }
  unfold bind at 1. rewrite Hrun1. unfold bind at 1. rewrite Hrun2. unfold bind at 1.
  pose proof (get_pipeline_run env cfg p2 Hco2) as Hrun3.
  assert (match pipeline_cache p with Some pl => Some pl | None => artifact env end
          = match artifact env with Some pl => Some pl | None => pipeline_cache p end)
    as Hcache.
  { destruct Hco as [_ Hp]. destruct (pipeline_cache p) as [pl|] eqn:Hpc.
    - by rewrite (Hp pl eq_refl).
    - by destruct (artifact env). }
  rewrite Hcache. clear Hcache.
  destruct (artifact env) as [pl|] eqn:Hart.
  2: { rewrite Hrun3. intros [= _ <-].
       split; [rewrite Hc2, Hc1; by eexists|]. split.
       - intros c Hc. rewrite Hc2, Hc1. f_equal. symmetry. by apply Huniq.
       - split; [congruence|done]. }
  destruct Hrun3 as (p3 & Hrun3 & Hheap3 & Hc3 & Hpc3 & _). rewrite Hrun3.
  assert (heap p3 !! l' = Some (rice_data env)) as Hl3.
  { rewrite Hheap3, Hheap2. apply lookup_insert_eq. }
  unfold bind at 1, read at 1. rewrite Hl3.
  unfold bind at 1, lift at 1.
  destruct (resolve_target months target_year target_month (max_date (rice_data env)))
    as [e|resolved].
  { intros [= _ <-]. split; [rewrite Hc3, Hc2, Hc1; by eexists|]. split.
    - intros c Hc. rewrite Hc3, Hc2, Hc1. f_equal. symmetry. by apply Huniq.
    - split; [done|]. intros l0 df Hl0. rewrite Hheap3. by apply Hfr2. }
  destruct (call_engine_run cfg fc engine p3 l' _ pl resolved.2 Hl3)
    as (p4 & Hrun4 & Hheap4 & Hc4 & Hpc4 & _).
  unfold bind at 1. rewrite Hrun4.
  assert (is_Some (history_cache p4)
          /\ (forall c, history_cache p = Some c -> history_cache p4 = Some c)
          /\ pipeline_cache p4 = Some pl
          /\ (forall l0 df, heap p !! l0 = Some df -> heap p4 !! l0 = Some df)) as Hfin.
  { split; [rewrite Hc4, Hc3, Hc2, Hc1; by eexists|]. split.
    - intros c Hc. rewrite Hc4, Hc3, Hc2, Hc1. f_equal. symmetry. by apply Huniq.
    - split; [congruence|]. intros l0 df Hl0. rewrite Hheap4.
      rewrite lookup_insert_ne; [rewrite Hheap3; by apply Hfr2|].
      intros <-. apply Hfr1 in Hl0. congruence. }
  destruct (engine_result (engine (rice_data env) pl resolved.2 cfg fc)) as [e|out];
    intros [= _ <-]; exact Hfin.
Qed.

Lemma get_root_store (p : Process) (q : Query) :
  coherent env p ->
  exists p',
    get_root env cfg fc engine q p = (get_root_outcome env cfg fc engine q, p')
    /\ log p' = log p ++ get_root_calls env p q
    /\ coherent env p'
    /\ (forall l, history_cache p = Some l -> history_cache p' = Some l)
    /\ (valid_query q = true -> is_Some (history_cache p'))
    /\ (valid_query q = false -> history_cache p' = history_cache p)
    /\ pipeline_cache p'
       = (if valid_query q
          then match pipeline_cache p with Some pl => Some pl | None => artifact env end
          else pipeline_cache p)
    /\ (forall l0 df, heap p !! l0 = Some df -> heap p' !! l0 = Some df).
Proof.
  intros Hco. unfold get_root, get_root_outcome, get_root_calls.
  destruct (valid_query q).
  - destruct (forecast_store p (default 1 (q_months q)) (q_target_year q)
                (q_target_month q) Hco) as (p' & Hrun & Hlog & Hco' & Hs & Hk & Hpc & Hfr).
    exists p'. split; [done|]. split; [done|]. split; [done|]. split; [done|].
    split; [done|]. split; [done|]. split; done.
  - exists p. rewrite app_nil_r. split; [done|]. split; [done|]. split; [done|].
    split; [done|]. split; [done|]. split; [done|]. split; done.
Qed.

End StoreFacts.

(** X3: a request writes to no object that existed before it: whatever the
    engine does to the frame it is handed, every frame object alive before
    the request holds the same rows afterwards, and a cached history stays
    the cached history. *)
Theorem request_leaves_objects_untouched
    (env : Environment) (cfg : TrainingConfig) (fc : FeatureConfig)
    (engine : DataFrame -> Pipeline -> Z -> TrainingConfig -> FeatureConfig -> EngineRun)
    (q : Query) (p : Process) (l0 : nat) (df : DataFrame) :
  coherent env p -> heap p !! l0 = Some df ->
  heap (get_root env cfg fc engine q p).2 !! l0 = Some df
  /\ (history_cache p = Some l0 ->
      history_cache (get_root env cfg fc engine q p).2 = Some l0).
Proof.
  intros Hco Hl0.
  destruct (get_root_store env cfg fc engine p q Hco)
    as (p' & Hrun & _ & _ & Hk & _ & _ & _ & Hfr).
  rewrite Hrun. cbn [snd]. split; [by apply Hfr|by apply Hk].
Qed.

Lemma request_leaves_objects_untouched_witness :
  heap (get_root ex_env ex_training_config ex_feature_config ex_appending_engine
          (mkQuery (Some 2) None None)
          (get_root ex_env ex_training_config ex_feature_config ex_appending_engine
             (mkQuery (Some 2) None None) initial_process).2).2 !! 0%nat
  = Some ex_history
  /\ (history_cache
        (get_root ex_env ex_training_config ex_feature_config ex_appending_engine
           (mkQuery (Some 2) None None) initial_process).2 = Some 0%nat ->
      history_cache
        (get_root ex_env ex_training_config ex_feature_config ex_appending_engine
           (mkQuery (Some 2) None None)
           (get_root ex_env ex_training_config ex_feature_config ex_appending_engine
              (mkQuery (Some 2) None None) initial_process).2).2 = Some 0%nat).
Proof.
  apply (request_leaves_objects_untouched ex_env ex_training_config ex_feature_config
           ex_appending_engine (mkQuery (Some 2) None None)
           (get_root ex_env ex_training_config ex_feature_config ex_appending_engine
              (mkQuery (Some 2) None None) initial_process).2 0%nat ex_history).
  - destruct (get_root_run ex_env ex_training_config ex_feature_config ex_appending_engine
                initial_process (mkQuery (Some 2) None None)
                (initial_process_coherent ex_env)) as (p' & Hrun & _ & Hco).
    rewrite Hrun. exact Hco.
  - vm_compute. reflexivity.
Defined.

(** ** The process over many requests *)




Section Lifetime.

Variable env : Environment.
Variable cfg : TrainingConfig.
Variable fc : FeatureConfig.
Variable engine : DataFrame -> Pipeline -> Z -> TrainingConfig -> FeatureConfig -> EngineRun.



End Lifetime.


(** ** The caches and the files *)

Lemma bind_returned {A B} (m : M A) (f : A -> M B) (p p1 : Process) (a : A) :
  m p = (inr a, p1) -> bind m f p = f a p1.
Proof. intros Hm. unfold bind. by rewrite Hm. Qed.

Lemma bind_raised {A B} (m : M A) (f : A -> M B) (p p1 : Process) (e : Error) :
  m p = (inl e, p1) -> bind m f p = (inl e, p1).
Proof. intros Hm. unfold bind. by rewrite Hm. Qed.

Lemma get_region_history_cached (env : Environment) (p : Process) (l : nat) :
  history_cache p = Some l -> get_region_history env p = (inr l, p).
Proof. intros Hc. unfold get_region_history. by rewrite Hc. Qed.

Lemma get_pipeline_cached (env : Environment) (cfg : TrainingConfig) (p : Process)
    (pl : Pipeline) :
  pipeline_cache p = Some pl -> get_pipeline env cfg p = (inr pl, p).
Proof. intros Hc. unfold get_pipeline. by rewrite Hc. Qed.

Lemma copy_caches (l : nat) (p p1 : Process) (r : Error + nat) :
  copy l p = (r, p1) ->
  history_cache p1 = history_cache p /\ pipeline_cache p1 = pipeline_cache p.
Proof.
  unfold copy, bind, read. destruct (heap p !! l); cbn; intros [= _ <-]; done.
Qed.

Lemma get_root_files_irrelevant
    (env1 env2 : Environment) (cfg : TrainingConfig) (fc : FeatureConfig)
    (engine : DataFrame -> Pipeline -> Z -> TrainingConfig -> FeatureConfig -> EngineRun)
    (q : Query) (p : Process) (l : nat) (pl : Pipeline) :
  history_cache p = Some l -> pipeline_cache p = Some pl ->
  get_root env1 cfg fc engine q p = get_root env2 cfg fc engine q p.
Proof.
  intros Hc Hpc. unfold get_root. destruct (valid_query q); [|reflexivity].
  unfold forecast.
  rewrite (bind_returned (get_region_history env1) _ p p l
             (get_region_history_cached env1 p l Hc)).
  rewrite (bind_returned (get_region_history env2) _ p p l
             (get_region_history_cached env2 p l Hc)).
  destruct (copy l p) as [[e|l'] p2] eqn:Hcopy.
  - by rewrite !(bind_raised (copy l) _ p p2 e Hcopy).
  - destruct (copy_caches l p p2 _ Hcopy) as [_ Hpc2]. rewrite Hpc in Hpc2.
    rewrite (bind_returned (copy l) _ p p2 l' Hcopy).
    rewrite (bind_returned (copy l) _ p p2 l' Hcopy).
    rewrite (bind_returned (get_pipeline env1 cfg) _ p2 p2 pl
               (get_pipeline_cached env1 cfg p2 pl Hpc2)).
    rewrite (bind_returned (get_pipeline env2 cfg) _ p2 p2 pl
               (get_pipeline_cached env2 cfg p2 pl Hpc2)).
    reflexivity.
Qed.

(** X4: the caches are never invalidated: once the history and the
    pipeline are cached, the answer to a request is the one computed from
    the files as they were when loaded, whatever the files hold now (other
    data, no artifact). *)
Theorem answers_do_not_follow_the_files
    (env env' : Environment) (cfg : TrainingConfig) (fc : FeatureConfig)
    (engine : DataFrame -> Pipeline -> Z -> TrainingConfig -> FeatureConfig -> EngineRun)
    (q : Query) (p : Process) :
  coherent env p -> is_Some (history_cache p) -> is_Some (pipeline_cache p) ->
  (get_root env' cfg fc engine q p).1 = get_root_outcome env cfg fc engine q.
Proof.
  intros Hco [l Hl] [pl Hpl].
  rewrite (get_root_files_irrelevant env' env cfg fc engine q p l pl Hl Hpl).
  destruct (get_root_run env cfg fc engine p q Hco) as (p' & Hrun & _).
  by rewrite Hrun.
Qed.

Lemma answers_do_not_follow_the_files_witness :
  (get_root {| rice_data := []; artifact := None |} ex_training_config ex_feature_config
     (spec_engine ex_feature_values) (mkQuery (Some 2) None None)
     (get_root ex_env ex_training_config ex_feature_config (spec_engine ex_feature_values)
        (mkQuery None None None) initial_process).2).1
  = get_root_outcome ex_env ex_training_config ex_feature_config
      (spec_engine ex_feature_values) (mkQuery (Some 2) None None).
Proof.
  apply (answers_do_not_follow_the_files ex_env {| rice_data := []; artifact := None |}
           ex_training_config ex_feature_config (spec_engine ex_feature_values)
           (mkQuery (Some 2) None None)).
  - destruct (get_root_run ex_env ex_training_config ex_feature_config
                (spec_engine ex_feature_values) initial_process (mkQuery None None None)
                (initial_process_coherent ex_env)) as (p' & Hrun & _ & Hco).
    rewrite Hrun. exact Hco.
  - vm_compute. by eexists.
  - vm_compute. by eexists.
Defined.

(** X5: a failed load of the pipeline is not cached: after a request has
    failed for want of the artifact, the pipeline cache is still empty,
    and once the artifact is in place the next request is answered from
    it, in the same process. *)
Theorem failed_load_is_not_cached
    (env : Environment) (cfg : TrainingConfig) (fc : FeatureConfig)
    (engine : DataFrame -> Pipeline -> Z -> TrainingConfig -> FeatureConfig -> EngineRun)
    (q0 q : Query) (p : Process) (pl : Pipeline) :
  coherent env p -> artifact env = None ->
  pipeline_cache (get_root env cfg fc engine q0 p).2 = None
  /\ (get_root (with_artifact env pl) cfg fc engine q (get_root env cfg fc engine q0 p).2).1
     = get_root_outcome (with_artifact env pl) cfg fc engine q.
Proof.
  intros Hco Hart.
  destruct (get_root_store env cfg fc engine p q0 Hco)
    as (p' & Hrun & _ & Hco' & _ & _ & _ & Hpc & _).
  rewrite Hrun. cbn [snd].
  assert (pipeline_cache p = None) as Hnone.
  { destruct (pipeline_cache p) as [pl'|] eqn:Hp; [|done].
    destruct Hco as [_ Hpl]. rewrite (Hpl pl' Hp) in Hart. done. }
  assert (pipeline_cache p' = None) as Hnone'.
  { rewrite Hpc, Hnone, Hart. by destruct (valid_query q0). }
  split; [done|].
  assert (coherent (with_artifact env pl) p') as Hco1.
  { split; [apply Hco'|]. intros pl' Hpl'. congruence. }
  destruct (get_root_run (with_artifact env pl) cfg fc engine p' q Hco1) as (p'' & Hrun' & _).
  by rewrite Hrun'.
Qed.

Lemma failed_load_is_not_cached_witness :
  pipeline_cache
    (get_root ex_env_no_artifact ex_training_config ex_feature_config
       (spec_engine ex_feature_values) (mkQuery None None None) initial_process).2 = None
  /\ (get_root (with_artifact ex_env_no_artifact ex_pipeline) ex_training_config
        ex_feature_config (spec_engine ex_feature_values) (mkQuery (Some 2) None None)
        (get_root ex_env_no_artifact ex_training_config ex_feature_config
           (spec_engine ex_feature_values) (mkQuery None None None) initial_process).2).1
     = get_root_outcome (with_artifact ex_env_no_artifact ex_pipeline) ex_training_config
         ex_feature_config (spec_engine ex_feature_values) (mkQuery (Some 2) None None).
Proof.
  apply (failed_load_is_not_cached ex_env_no_artifact ex_training_config ex_feature_config
           (spec_engine ex_feature_values) (mkQuery None None None)
           (mkQuery (Some 2) None None) initial_process ex_pipeline).
  - apply initial_process_coherent.
  - reflexivity.
Defined.

(** ** What a request is answered *)

Lemma Timestamp_first_of_month_inr (y m : Z) (t : Timestamp) :
  Timestamp_first_of_month y m = inr t ->
  t = mkTimestamp y m 1 /\ 1 <= m <= 12.
Proof.
  unfold Timestamp_first_of_month. destruct (_ && _) eqn:Hb; [|done].
  intros [= <-]. rewrite !andb_true_iff, !Z.leb_le in Hb. split; [done|lia].
Qed.

Lemma resolve_target_served (months : Z) (ty tm : option Z) (lo : Timestamp)
    (target : option Timestamp) (mg : Z) :
  resolve_target months ty tm (Some lo) = inr (target, mg) ->
  (target = None /\ ty = None /\ tm = None /\ mg = months)
  \/ (exists y m,
        ty = Some y /\ tm = Some m /\ 1 <= m <= 12
        /\ target = Some (mkTimestamp y m 1)
        /\ 1 <= _months_between lo (mkTimestamp y m 1)
        /\ mg = Z.max months (_months_between lo (mkTimestamp y m 1))).
Proof.
  unfold resolve_target. destruct ty as [y|], tm as [m|].
  2: { rewrite bool_decide_eq_false_2, bool_decide_eq_true_2 by done. done. }
  2: { rewrite bool_decide_eq_true_2, bool_decide_eq_false_2 by done. done. }
  2: { rewrite !bool_decide_eq_true_2 by done. intros [= <- <-]. by left. }
  rewrite !bool_decide_eq_false_2 by done. cbn [xorb].
  destruct (Timestamp_first_of_month y m) as [e|t] eqn:Ht; [done|].
  apply Timestamp_first_of_month_inr in Ht as [-> Hm].
  destruct (_ <? 1) eqn:Hd; [done|]. apply Z.ltb_ge in Hd.
  intros [= <- <-]. right. exists y, m. done.
Qed.


Lemma valid_query_months (q : Query) :
  valid_query q = true -> 1 <= default 1 (q_months q) <= 24.
Proof.
  unfold valid_query, in_bounds. destruct (q_months q) as [m|]; simpl; [|lia].
  rewrite !andb_true_iff, !Z.leb_le. lia.
Qed.

(** What a served request was answered from. *)
Lemma get_root_outcome_served
    (env : Environment) (cfg : TrainingConfig) (fc : FeatureConfig)
    (engine : DataFrame -> Pipeline -> Z -> TrainingConfig -> FeatureConfig -> EngineRun)
    (q : Query) (resp : Response) :
  get_root_outcome env cfg fc engine q = inr resp ->
  valid_query q = true
  /\ exists pl lo target mg out,
       artifact env = Some pl
       /\ max_date (rice_data env) = Some lo
       /\ resolve_target (default 1 (q_months q)) (q_target_year q) (q_target_month q)
            (Some lo) = inr (target, mg)
       /\ engine_result (engine (rice_data env) pl mg cfg fc) = inr out
       /\ make_response (default 1 (q_months q)) mg target (Some lo) out.1 = inr resp.
Proof.
  unfold get_root_outcome, forecast_outcome.
  destruct (valid_query q); [|done].
  destruct (artifact env) as [pl|]; [|done].
  destruct (resolve_target _ _ _ _) as [e|[target mg]] eqn:Hres; [done|]. cbn [fst snd].
  destruct (engine_result _) as [e|out] eqn:Heng; [done|].
  destruct (max_date (rice_data env)) as [lo|] eqn:Hlo; [|done].
  intros Hresp. split; [done|]. exists pl, lo, target, mg, out. done.
Qed.

(** X6: a served request has called the engine exactly once, for the
    number of months the answer reports as generated; that number is at
    least the months requested (which lie in 1..24), equals them when no
    target was given, and is at most the larger of 24 and the month
    difference from the latest observation to December 2100. *)
Theorem served_request_calls_engine_once
    (env : Environment) (cfg : TrainingConfig) (fc : FeatureConfig)
    (engine : DataFrame -> Pipeline -> Z -> TrainingConfig -> FeatureConfig -> EngineRun)
    (q : Query) (p p' : Process) (resp : Response) :
  coherent env p ->
  get_root env cfg fc engine q p = (inr resp, p') ->
  1 <= months_requested resp <= 24
  /\ months_requested resp <= months_generated resp
  /\ (target_date resp = None -> months_generated resp = months_requested resp)
  /\ (exists lo, max_date (rice_data env) = Some lo
                 /\ months_generated resp
                    <= Z.max 24 (_months_between lo (mkTimestamp 2100 12 1)))
  /\ exists calls,
       log p' = log p ++ calls
       /\ filter (fun ev => is_forecast_call ev = true) calls
          = [MultiStepForecast (months_generated resp)].
Proof.
  intros Hco Hrun.
  destruct (get_root_run env cfg fc engine p q Hco) as (p'' & Hrun' & Hlog & _).
  rewrite Hrun in Hrun'. injection Hrun' as Hout <-. symmetry in Hout.
  destruct (get_root_outcome_served env cfg fc engine q resp Hout)
    as (Hv & pl & lo & target & mg & out & Hart & Hlo & Hres & Heng & Hresp).
  pose proof (valid_query_months q Hv) as Hmonths.
  unfold make_response in Hresp. injection Hresp as <-. cbn [months_requested
    months_generated target_date].
  split; [done|].
  assert (filter (fun ev => is_forecast_call ev = true) (get_root_calls env p q)
          = [MultiStepForecast mg]) as Hcalls.
  { unfold get_root_calls, forecast_calls. rewrite Hv, Hart, Hlo, Hres. cbn [snd].
    destruct (history_cache p), (pipeline_cache p); reflexivity. }
  destruct (resolve_target_served _ _ _ _ _ _ Hres)
    as [(-> & _ & _ & ->)|(y & m & Hy & Hm & Hmb & -> & Hdelta & ->)].
  - split; [lia|]. split; [done|]. split; [exists lo; split; [done|lia]|].
    exists (get_root_calls env p q). done.
  - split; [lia|]. split; [done|]. split.
    + exists lo. split; [done|].
      destruct (valid_query_bounds q y m Hv Hy Hm) as [Hyb _].
      rewrite !months_between_index. unfold mkTimestamp; cbn [month_index]. lia.
    + exists (get_root_calls env p q). done.
Qed.

Lemma served_request_calls_engine_once_witness :
  exists (resp : Response) (p' : Process),
    get_root ex_env ex_training_config ex_feature_config ex_silent_engine
      (mkQuery (Some 2) (Some 2100) (Some 12)) initial_process = (inr resp, p')
    /\ months_requested resp = 2
    /\ months_generated resp = 923
    /\ 1 <= months_requested resp <= 24
    /\ months_requested resp <= months_generated resp
    /\ (target_date resp = None -> months_generated resp = months_requested resp)
    /\ (exists lo, max_date (rice_data ex_env) = Some lo
                   /\ months_generated resp
                      <= Z.max 24 (_months_between lo (mkTimestamp 2100 12 1)))
    /\ exists calls,
         log p' = log initial_process ++ calls
         /\ filter (fun ev => is_forecast_call ev = true) calls
            = [MultiStepForecast (months_generated resp)].
Proof.
  eexists _, _. split; [vm_compute; reflexivity|].
  split; [reflexivity|]. split; [reflexivity|].
  eapply (served_request_calls_engine_once ex_env ex_training_config ex_feature_config
            ex_silent_engine (mkQuery (Some 2) (Some 2100) (Some 12)) initial_process).
  - apply initial_process_coherent.
  - vm_compute. reflexivity.
Defined.

(** X7: when a target was given, every result of the answer carries the
    target date as its forecast date, and [result_count] is the number of
    results. *)
Theorem target_results_carry_target_date
    (env : Environment) (cfg : TrainingConfig) (fc : FeatureConfig)
    (engine : DataFrame -> Pipeline -> Z -> TrainingConfig -> FeatureConfig -> EngineRun)
    (q : Query) (p p' : Process) (resp : Response) (s : string) :
  coherent env p ->
  get_root env cfg fc engine q p = (inr resp, p') ->
  target_date resp = Some s ->
  Forall (fun r => res_forecast_date r = s) (results resp)
  /\ result_count resp = Z.of_nat (length (results resp)).
Proof.
  intros Hco Hrun Htarget.
  destruct (get_root_run env cfg fc engine p q Hco) as (p'' & Hrun' & _).
  rewrite Hrun in Hrun'. injection Hrun' as Hout _. symmetry in Hout.
  destruct (get_root_outcome_served env cfg fc engine q resp Hout)
    as (_ & pl & lo & target & mg & out & _ & _ & _ & _ & Hresp).
  unfold make_response in Hresp. injection Hresp as <-.
  cbn [target_date results result_count] in *. split; [|done].
  destruct target as [t|]; [|done]. injection Htarget as <-.
  apply Forall_fmap, Forall_forall. intros row Hrow.
  apply list_elem_of_filter in Hrow as [Heq _]. cbn. by rewrite Heq.
Qed.

Lemma target_results_carry_target_date_witness :
  exists (resp : Response) (p' : Process),
    get_root ex_env ex_training_config ex_feature_config (spec_engine ex_feature_values)
      (mkQuery (Some 4) (Some 2024) (Some 3)) initial_process = (inr resp, p')
    /\ months_generated resp = 4
    /\ Forall (fun r => res_forecast_date r = "2024-03-01"%string) (results resp)
    /\ result_count resp = Z.of_nat (length (results resp)).
Proof.
  eexists _, _. split; [vm_compute; reflexivity|]. split; [reflexivity|].
  eapply (target_results_carry_target_date ex_env ex_training_config ex_feature_config
            (spec_engine ex_feature_values) (mkQuery (Some 4) (Some 2024) (Some 3))
            initial_process).
  - apply initial_process_coherent.
  - vm_compute. reflexivity.
  - reflexivity.
Defined.



(** ** The dashboard with any engine *)

Section ForecastsPage.

Variable cfg : TrainingConfig.
Variable fc : FeatureConfig.
Variable engine : DataFrame -> Pipeline -> Z -> TrainingConfig -> FeatureConfig -> EngineRun.
Variable generate_advisories : History -> list ForecastRecord -> list AdvisoryRecord.

Lemma layout_advisories_no_engine (u : User) (predictions : list ForecastRecord)
    (histories : list History) :
  engine_calls (layout_advisories generate_advisories u predictions histories).1 = [].
Proof.
  unfold layout_advisories. destruct (selectbox _ _); [|done].
  destruct (py_index _ _); [|done]. cbn. by destruct (generate_advisories _ _).
Qed.

Lemma layout_forecasts_engine_calls (u : User) (region_df : DataFrame) (pl : Pipeline) :
  engine_calls (layout_forecasts cfg fc engine generate_advisories u region_df (Some pl)).1
  = [(region_df, slider 1 6 u)].
Proof.
  unfold layout_forecasts.
  destruct (engine_result _) as [e|[predictions histories]]; [done|].
  pose proof (layout_advisories_no_engine u predictions histories) as Hnone.
  destruct (layout_advisories _ _ _ _) as [acts err]. cbn [fst snd] in *.
  unfold engine_calls in *. by rewrite !omap_app, Hnone.
Qed.

Lemma layout_forecasts_no_pipeline (u : User) (region_df : DataFrame) :
  engine_calls (layout_forecasts cfg fc engine generate_advisories u region_df None).1 = []
  /\ (layout_forecasts cfg fc engine generate_advisories u region_df None).2 = None.
Proof. done. Qed.

End ForecastsPage.

(** X9: given a pipeline, the dashboard calls the engine exactly once, on
    the regional frame and with a number of months between 1 and 6,
    whatever the user does with the slider; when the engine raises, the
    exception leaves the page with nothing shown but the header. *)
Theorem dashboard_calls_engine_once
    (cfg : TrainingConfig) (fc : FeatureConfig)
    (engine : DataFrame -> Pipeline -> Z -> TrainingConfig -> FeatureConfig -> EngineRun)
    (generate_advisories : History -> list ForecastRecord -> list AdvisoryRecord)
    (u : User) (region_df : DataFrame) (pl : Pipeline) :
  1 <= slider 1 6 u <= 6
  /\ engine_calls (layout_forecasts cfg fc engine generate_advisories u region_df (Some pl)).1
     = [(region_df, slider 1 6 u)]
  /\ (forall e,
        engine_result (engine region_df pl (slider 1 6 u) cfg fc) = inl e ->
        layout_forecasts cfg fc engine generate_advisories u region_df (Some pl)
        = ([Render (Header "Forecasts & Advisories");
            CallMultiStepForecast region_df (slider 1 6 u)], Some e)).
Proof.
  split; [apply slider_range; lia|]. split; [apply layout_forecasts_engine_calls|].
  intros e He. unfold layout_forecasts. by rewrite He.
Qed.

(** X10: given a pipeline, a run of the forecasts section either raises
    and computes no advisories, or ends normally after computing them
    exactly once, from predictions that are not empty and all of one step
    k, and from the entry of [histories] that Python's index k - 1
    selects. *)
Theorem advisories_once_or_exception
    (cfg : TrainingConfig) (fc : FeatureConfig)
    (engine : DataFrame -> Pipeline -> Z -> TrainingConfig -> FeatureConfig -> EngineRun)
    (generate_advisories : History -> list ForecastRecord -> list AdvisoryRecord)
    (u : User) (region_df : DataFrame) (pl : Pipeline) :
  (advisory_calls
     (layout_forecasts cfg fc engine generate_advisories u region_df (Some pl)).1 = []
   /\ exists e,
        (layout_forecasts cfg fc engine generate_advisories u region_df (Some pl)).2 = Some e)
  \/ (exists predictions histories k h,
        engine_result (engine region_df pl (slider 1 6 u) cfg fc) = inr (predictions, histories)
        /\ py_index histories (k - 1) = Some h
        /\ filter (fun row => step row = k) predictions <> []
        /\ advisory_calls
             (layout_forecasts cfg fc engine generate_advisories u region_df (Some pl)).1
           = [(h, filter (fun row => step row = k) predictions)]
        /\ (layout_forecasts cfg fc engine generate_advisories u region_df (Some pl)).2 = None).
Proof.
  destruct (engine_result (engine region_df pl (slider 1 6 u) cfg fc))
    as [e|[predictions histories]] eqn:Heng.
  { left. unfold layout_forecasts. rewrite Heng. split; [done|by exists e]. }
  destruct (layout_forecasts_returned cfg fc engine generate_advisories u region_df pl
              predictions histories Heng) as (Hadv & Herr & _).
  rewrite Hadv, Herr.
  destruct (selectbox (step_options predictions) u) as [k|] eqn:Hsel.
  2:{ left. unfold layout_advisories. rewrite Hsel. split; [done|by eexists]. }
  destruct (py_index histories (k - 1)) as [h|] eqn:Hidx.
  2:{ left. unfold layout_advisories. rewrite Hsel, Hidx. split; [done|by eexists]. }
  right. exists predictions, histories, k, h.
  destruct (layout_advisories_call generate_advisories u predictions histories k h Hsel Hidx)
    as [Hcall Hnone].
  split; [done|]. split; [done|]. split; [|done].
  apply selectbox_elem, step_options_elem in Hsel. destruct Hsel as (row & Hrow & Hk).
  intros Hnil.
  assert (row ∈ filter (fun row => step row = k) predictions) as Hin
    by by apply list_elem_of_filter.
  rewrite Hnil in Hin. by apply elem_of_nil in Hin.
Qed.

(** X11: the snapshot is taken with Python's list index. For a selected
    step k and n snapshots: with 1 <= k <= n the advisories see snapshot
    k - 1; with -n < k <= 0 the index wraps and they see snapshot
    n + k - 1, counted from the end; otherwise IndexError is raised and
    [generate_advisories] is not called. *)
Theorem snapshot_index_follows_python
    (generate_advisories : History -> list ForecastRecord -> list AdvisoryRecord)
    (u : User) (predictions : list ForecastRecord) (histories : list History) (k : Z) :
  selectbox (step_options predictions) u = Some k ->
  (1 <= k <= Z.of_nat (length histories) ->
   exists h, histories !! Z.to_nat (k - 1) = Some h
     /\ advisory_calls (layout_advisories generate_advisories u predictions histories).1
        = [(h, filter (fun row => step row = k) predictions)])
  /\ (- Z.of_nat (length histories) < k <= 0 ->
      exists h, histories !! Z.to_nat (Z.of_nat (length histories) + k - 1) = Some h
        /\ advisory_calls (layout_advisories generate_advisories u predictions histories).1
           = [(h, filter (fun row => step row = k) predictions)])
  /\ (Z.of_nat (length histories) < k \/ k <= - Z.of_nat (length histories) ->
      layout_advisories generate_advisories u predictions histories
      = ([], Some (IndexError "list index out of range"))).
Proof.
  intros Hsel. split; [|split].
  - intros Hk.
    destruct (lookup_lt_is_Some_2 histories (Z.to_nat (k - 1))) as [h Hh]; [lia|].
    exists h. split; [done|].
    apply (layout_advisories_call generate_advisories u predictions histories k h Hsel).
    rewrite py_index_in_range by lia. done.
  - intros Hk.
    destruct (lookup_lt_is_Some_2 histories
                (Z.to_nat (Z.of_nat (length histories) + k - 1))) as [h Hh]; [lia|].
    exists h. split; [done|].
    apply (layout_advisories_call generate_advisories u predictions histories k h Hsel).
    unfold py_index.
    destruct ((0 <=? k - 1) && (k - 1 <? Z.of_nat (length histories))) eqn:Hb1.
    { rewrite andb_true_iff, Z.leb_le in Hb1. lia. }
    destruct ((- Z.of_nat (length histories) <=? k - 1) && (k - 1 <? 0)) eqn:Hb2.
    { rewrite <- Hh. f_equal. lia. }
    rewrite andb_false_iff, Z.leb_gt, Z.ltb_ge in Hb2. lia.
  - intros Hk. unfold layout_advisories. rewrite Hsel.
    replace (py_index histories (k - 1)) with (@None History); [done|].
    unfold py_index.
    destruct ((0 <=? k - 1) && (k - 1 <? Z.of_nat (length histories))) eqn:Hb1.
    { rewrite andb_true_iff, Z.leb_le, Z.ltb_lt in Hb1. lia. }
    destruct ((- Z.of_nat (length histories) <=? k - 1) && (k - 1 <? 0)) eqn:Hb2; [|done].
    rewrite andb_true_iff, Z.leb_le, Z.ltb_lt in Hb2. lia.
Qed.

Lemma snapshot_index_follows_python_witness :
  (1 <= 0 <= Z.of_nat (length [[("A"%string, ex_history)]; @nil (string * list PricePoint)]) ->
   exists h, [[("A"%string, ex_history)]; @nil (string * list PricePoint)] !! Z.to_nat (0 - 1)
             = Some h
     /\ advisory_calls
          (layout_advisories (fun _ _ => []) (mkUser 1 0) [ex_row_step 0]
             [[("A"%string, ex_history)]; []]).1
        = [(h, filter (fun row => step row = 0) [ex_row_step 0])])
  /\ (- Z.of_nat (length [[("A"%string, ex_history)]; @nil (string * list PricePoint)]) < 0 <= 0 ->
      exists h, [[("A"%string, ex_history)]; @nil (string * list PricePoint)]
                  !! Z.to_nat (Z.of_nat
                       (length [[("A"%string, ex_history)]; @nil (string * list PricePoint)])
                     + 0 - 1) = Some h
        /\ advisory_calls
             (layout_advisories (fun _ _ => []) (mkUser 1 0) [ex_row_step 0]
                [[("A"%string, ex_history)]; []]).1
           = [(h, filter (fun row => step row = 0) [ex_row_step 0])])
  /\ (Z.of_nat (length [[("A"%string, ex_history)]; @nil (string * list PricePoint)]) < 0
      \/ 0 <= - Z.of_nat (length [[("A"%string, ex_history)]; @nil (string * list PricePoint)]) ->
      layout_advisories (fun _ _ => []) (mkUser 1 0) [ex_row_step 0]
        [[("A"%string, ex_history)]; []]
      = ([], Some (IndexError "list index out of range"))).
Proof.
  apply (snapshot_index_follows_python (fun _ _ => []) (mkUser 1 0) [ex_row_step 0]
           [[("A"%string, ex_history)]; []] 0).
  vm_compute. reflexivity.
Defined.

(** ** The evaluation table *)

Lemma dict_get_set_eq (k : string) (v : JSON) (d : PyDict) :
  dict_get k (dict_set k v d) = Some v.
Proof.
  induction d as [|[k' v'] d IH]; cbn.
  - by rewrite decide_True.
  - destruct (decide (k' = k)) as [->|Hne]; cbn.
    + by rewrite decide_True.
    + by rewrite decide_False.
Qed.

Lemma dict_get_set_ne (k k' : string) (v : JSON) (d : PyDict) :
  k <> k' -> dict_get k' (dict_set k v d) = dict_get k' d.
Proof.
  intros Hne. induction d as [|[k0 v0] d IH]; cbn.
  - by rewrite decide_False.
  - destruct (decide (k0 = k)) as [->|Hne0]; cbn.
    + by rewrite !decide_False.
    + by rewrite IH.
Qed.

Lemma dict_get_snoc (k : string) (d : PyDict) (kv : string * JSON) :
  dict_get k (d ++ [kv])
  = match dict_get k d with
    | Some v => Some v
    | None => if decide (kv.1 = k) then Some kv.2 else None
    end.
Proof.
  induction d as [|[k' v'] d IH]; cbn.
  - by destruct kv.
  - by destruct (decide (k' = k)).
Qed.

(** In [{**d, **extra}] a key has the value [extra] gives it last, and
    the value of [d] when [extra] does not have it. *)
Lemma dict_get_update (k : string) (d extra : PyDict) :
  dict_get k (dict_update d extra)
  = match dict_get k (reverse extra) with
    | Some v => Some v
    | None => dict_get k d
    end.
Proof.
  revert d. induction extra as [|[k' v'] extra IH]; intros d; [done|].
  change (dict_update d ((k', v') :: extra)) with (dict_update (dict_set k' v' d) extra).
  rewrite IH, reverse_cons, dict_get_snoc.
  destruct (dict_get k (reverse extra)); [done|]. cbn [fst snd].
  destruct (decide (k' = k)) as [->|Hne].
  - apply dict_get_set_eq.
  - by apply dict_get_set_ne.
Qed.

(** A dict stays a dict: setting a key makes no duplicate. *)
Lemma dict_set_keys (k : string) (v : JSON) (d : PyDict) :
  (dict_set k v d).*1 = if decide (k ∈ d.*1) then d.*1 else d.*1 ++ [k].
Proof.
  induction d as [|[k' v'] d IH]; cbn.
  - rewrite decide_False; [done|]. apply not_elem_of_nil.
  - destruct (decide (k' = k)) as [->|Hne]; cbn.
    + rewrite decide_True; [done|]. left.
    + rewrite IH. destruct (decide (k ∈ d.*1)) as [Hin|Hout].
      * rewrite decide_True; [done|]. by right.
      * rewrite decide_False; [done|]. rewrite elem_of_cons. by intros [->|?].
Qed.

Lemma dict_set_NoDup (k : string) (v : JSON) (d : PyDict) :
  NoDup d.*1 -> NoDup (dict_set k v d).*1.
Proof.
  intros Hd. rewrite dict_set_keys. destruct (decide (k ∈ d.*1)); [done|].
  apply NoDup_app. split; [done|]. split; [|apply NoDup_singleton].
  intros x Hx ->%list_elem_of_singleton. done.
Qed.

Lemma dict_update_NoDup (d extra : PyDict) :
  NoDup d.*1 -> NoDup (dict_update d extra).*1.
Proof.
  revert d. induction extra as [|[k v] extra IH]; intros d Hd; [done|].
  change (dict_update d ((k, v) :: extra)) with (dict_update (dict_set k v d) extra).
  by apply IH, dict_set_NoDup.
Qed.

Lemma rename_column_kept (k k' : string) :
  k = "model"%string \/ k = "selected"%string ->
  rename_column k' = k <-> k' = k.
Proof.
  intros Hk. unfold rename_column.
  repeat case_decide; subst; split; intros Heq; try done;
    destruct Hk as [Hk|Hk]; subst; discriminate.
Qed.

Lemma dict_get_rename (k : string) (record : PyDict) :
  k = "model"%string \/ k = "selected"%string ->
  dict_get k (rename_record record) = dict_get k record.
Proof.
  intros Hk. induction record as [|[k' v'] record IH]; [done|].
  cbn. pose proof (rename_column_kept k k' Hk) as Hiff.
  destruct (decide (rename_column k' = k)) as [Hr|Hr], (decide (k' = k)) as [He|He];
    try done; tauto.
Qed.

Lemma evaluation_records_objects (selected : option JSON) (models : PyDict) :
  Forall (fun kv => exists stats, kv.2 = JObject stats) models ->
  exists records,
    evaluation_records selected models = inr records
    /\ length records = length models
    /\ forall i name stats,
         models !! i = Some (name, JObject stats) ->
         records !! i
         = Some (dict_set "selected"
                   (JString (if names selected name then "best" else ""))
                   (dict_update [("model"%string, JString name)] stats)).
Proof.
  induction 1 as [|[name v] models [stats Hv] _ (records & Heq & Hlen & Hrec)].
  { exists []. split; [done|]. split; [done|]. intros i ? ? Hi. by destruct i. }
  cbn in Hv. subst v. cbn [evaluation_records]. rewrite Heq.
  eexists. split; [done|]. split; [cbn; by rewrite Hlen|].
  intros [|i] name' stats' Hi.
  - by injection Hi as <- <-.
  - cbn in Hi |- *. by apply Hrec.
Qed.


Lemma is_best_record (selected : option JSON) (name : string) (record : PyDict) :
  is_best (rename_record
             (dict_set "selected" (JString (if names selected name then "best" else ""))
                record))
  = names selected name.
Proof.
  unfold is_best. rewrite dict_get_rename by (by right). rewrite dict_get_set_eq.
  by destruct (names selected name).
Qed.

Lemma evaluation_records_best (selected : option JSON) (models : PyDict)
    (records : list PyDict) :
  evaluation_records selected models = inr records ->
  is_best <$> (rename_record <$> records) = (fun kv => names selected kv.1) <$> models.
Proof.
  revert records. induction models as [|[name v] models IH]; intros records.
  { by intros [= <-]. }
  cbn [evaluation_records]. destruct v as [| | | | |stats]; try done.
  destruct (evaluation_records selected models) as [e'|records']; [done|].
  intros [= <-]. cbn [fmap list_fmap]. rewrite is_best_record. f_equal. by apply IH.
Qed.

Lemma count_true_fmap {A B} (f : A -> bool) (g : B -> bool) (l : list A) (l' : list B) :
  f <$> l = g <$> l' ->
  length (filter (fun x => f x = true) l) = length (filter (fun y => g y = true) l').
Proof.
  revert l'. induction l as [|x l IH]; intros [|y l'] Heq; try done.
  injection Heq as Hxy Hrest. rewrite !filter_cons, Hxy.
  destruct (decide (g y = true)); cbn; by rewrite (IH l' Hrest).
Qed.

Lemma count_never {A} (l : list A) :
  length (filter (fun _ : A => false = true) l) = 0%nat.
Proof. induction l as [|x l IH]; [done|]. by rewrite filter_cons, decide_False. Qed.

Lemma count_named (s : string) (models : PyDict) :
  NoDup models.*1 ->
  length (filter (fun kv : string * JSON => String.eqb kv.1 s = true) models)
  = if decide (s ∈ models.*1) then 1%nat else 0%nat.
Proof.
  induction models as [|[k v] models IH]; intros Hnd.
  { rewrite decide_False; [done|]. apply not_elem_of_nil. }
  rewrite fmap_cons in Hnd |- *. cbn [fst] in Hnd |- *.
  apply NoDup_cons in Hnd as [Hk Hnd]. specialize (IH Hnd).
  rewrite filter_cons. cbn [fst].
  destruct (decide (String.eqb k s = true)) as [Heq|Hne].
  - apply String.eqb_eq in Heq. subst k. cbn [length]. rewrite IH.
    rewrite (decide_False (P := s ∈ models.*1)) by done.
    rewrite decide_True; [done|]. left.
  - rewrite IH.
    assert (k <> s) by (intros ->; by rewrite String.eqb_refl in Hne).
    destruct (decide (s ∈ models.*1)).
    + rewrite decide_True; [done|]. by right.
    + rewrite decide_False; [done|]. rewrite elem_of_cons. by intros [->|?].
Qed.

(** X12: when the metrics hold a dict of models whose values are dicts,
    the evaluation shows one record per model, in the order of the dict.
    In the record of a model, "selected" is "best" when the model's name
    is the string under "selected_model" and "" otherwise, whatever the
    statistics hold under "selected"; "model" is the name, unless the
    statistics have a key "model", whose value then replaces it. *)
Theorem evaluation_shows_one_record_per_model
    (fields models : PyDict) :
  dict_get "models" fields = Some (JObject models) ->
  Forall (fun kv => exists stats, kv.2 = JObject stats) models ->
  exists records,
    layout_evaluation (Some (JObject fields))
    = ([ShowHeader "Model Evaluation"; ShowRecords records], None)
    /\ length records = length models
    /\ forall i name stats,
         models !! i = Some (name, JObject stats) ->
         exists record,
           records !! i = Some record
           /\ dict_get "selected" record
              = Some (JString (if names (dict_get "selected_model" fields) name
                               then "best" else ""))
           /\ dict_get "model" record
              = Some (default (JString name) (dict_get "model" (reverse stats))).
Proof.
  intros Hmodels Hall.
  destruct (evaluation_records_objects (dict_get "selected_model" fields) models Hall)
    as (records & Heq & Hlen & Hrec).
  exists (rename_record <$> records).
  split; [|split].
  - unfold layout_evaluation. destruct fields as [|kv fields]; [done|].
    cbn [truthy negb]. by rewrite Hmodels, Heq.
  - by rewrite length_fmap.
  - intros i name stats Hi. eexists. split.
    { rewrite list_lookup_fmap, (Hrec i name stats Hi). done. }
    split.
    + rewrite dict_get_rename by (by right). apply dict_get_set_eq.
    + rewrite dict_get_rename by (by left).
      rewrite dict_get_set_ne by done. rewrite dict_get_update.
      destruct (dict_get "model" (reverse stats)); [done|]. cbn. by rewrite decide_True.
Qed.

Lemma evaluation_shows_one_record_per_model_witness :
  exists records,
    layout_evaluation
      (Some (JObject [("selected_model"%string, JString "ridge");
                      ("models"%string,
                       JObject [("ridge"%string, JObject [("selected"%string, JNull)]);
                                ("forest"%string,
                                 JObject [("model"%string, JString "rf")])])]))
    = ([ShowHeader "Model Evaluation"; ShowRecords records], None)
    /\ length records
       = length [("ridge"%string, JObject [("selected"%string, JNull)]);
                 ("forest"%string, JObject [("model"%string, JString "rf")])]
    /\ forall i name stats,
         [("ridge"%string, JObject [("selected"%string, JNull)]);
          ("forest"%string, JObject [("model"%string, JString "rf")])] !! i
         = Some (name, JObject stats) ->
         exists record,
           records !! i = Some record
           /\ dict_get "selected" record
              = Some (JString
                        (if names (dict_get "selected_model"
                                     [("selected_model"%string, JString "ridge");
                                      ("models"%string,
                                       JObject [("ridge"%string,
                                                 JObject [("selected"%string, JNull)]);
                                                ("forest"%string,
                                                 JObject [("model"%string, JString "rf")])])])
                                  name
                         then "best" else ""))
           /\ dict_get "model" record
              = Some (default (JString name) (dict_get "model" (reverse stats))).
Proof.
  apply (evaluation_shows_one_record_per_model
           [("selected_model"%string, JString "ridge");
            ("models"%string,
             JObject [("ridge"%string, JObject [("selected"%string, JNull)]);
                      ("forest"%string, JObject [("model"%string, JString "rf")])])]
           [("ridge"%string, JObject [("selected"%string, JNull)]);
            ("forest"%string, JObject [("model"%string, JString "rf")])]).
  - vm_compute. reflexivity.
  - repeat constructor; eexists; reflexivity.
Defined.

(** X13: when the names of the models are distinct and the evaluation
    ends normally with a table, at most one record is marked "best":
    exactly one when "selected_model" is a string that names a model, and
    none when it is missing, is no string, or names no model. *)
Theorem at_most_one_model_marked_best
    (fields models : PyDict) (shown : list Display) :
  dict_get "models" fields = Some (JObject models) ->
  NoDup models.*1 ->
  layout_evaluation (Some (JObject fields)) = (shown, None) ->
  exists records,
    shown = [ShowHeader "Model Evaluation"; ShowRecords records]
    /\ length (filter (fun record => is_best record = true) records)
       = match dict_get "selected_model" fields with
         | Some (JString s) => if decide (s ∈ models.*1) then 1%nat else 0%nat
         | _ => 0%nat
         end.
Proof.
  intros Hmodels Hnd. unfold layout_evaluation.
  assert (truthy (JObject fields) = true) as -> by (by destruct fields).
  cbn [negb]. rewrite Hmodels.
  destruct (evaluation_records _ models) as [e|records] eqn:Heq; [done|].
  intros [= <-]. eexists. split; [done|].
  rewrite (count_true_fmap is_best
             (fun m => names (dict_get "selected_model" fields) m.1)
             _ models (evaluation_records_best _ _ _ Heq)).
  destruct (dict_get "selected_model" fields) as [[| | |s| |]|];
    try (cbn [names]; apply count_never).
  cbn [names]. by apply count_named.
Qed.

Lemma at_most_one_model_marked_best_witness :
  exists records,
    [ShowHeader "Model Evaluation";
     ShowRecords [[("model"%string, JString "ridge"); ("selected"%string, JString "best")];
                  [("model"%string, JString "rf"); ("selected"%string, JString "")]]]
    = [ShowHeader "Model Evaluation"; ShowRecords records]
    /\ length (filter (fun record => is_best record = true) records)
       = match dict_get "selected_model"
                 [("selected_model"%string, JString "ridge");
                  ("models"%string,
                   JObject [("ridge"%string, JObject [("selected"%string, JNull)]);
                            ("forest"%string, JObject [("model"%string, JString "rf")])])]
         with
         | Some (JString s) =>
             if decide (s ∈ [("ridge"%string, JObject [("selected"%string, JNull)]);
                             ("forest"%string, JObject [("model"%string, JString "rf")])].*1)
             then 1%nat else 0%nat
         | _ => 0%nat
         end.
Proof.
  apply (at_most_one_model_marked_best
           [("selected_model"%string, JString "ridge");
            ("models"%string,
             JObject [("ridge"%string, JObject [("selected"%string, JNull)]);
                      ("forest"%string, JObject [("model"%string, JString "rf")])])]
           [("ridge"%string, JObject [("selected"%string, JNull)]);
            ("forest"%string, JObject [("model"%string, JString "rf")])]).
  - vm_compute. reflexivity.
  - apply (bool_decide_unpack _). vm_compute. exact I.
  - vm_compute. reflexivity.
Defined.



(** ** The overview *)

Lemma choose_elem {A} (l : list A) (i : nat) (x : A) : choose l i = Some x -> x ∈ l.
Proof.
  unfold choose. destruct (l !! i) as [y|] eqn:Hl.
  - intros [= <-]. by eapply list_elem_of_lookup_2.
  - destruct l as [|y l]; [done|]. intros [= <-]. left.
Qed.

Lemma choose_is_Some {A} (l : list A) (i : nat) : l <> [] -> is_Some (choose l i).
Proof.
  intros Hl. unfold choose. destruct (l !! i); [by eexists|].
  destruct l; [done|]. by eexists.
Qed.

Lemma available_regions_elem (r : string) (region_df : DataFrame) :
  r ∈ available_regions region_df <-> r ∈ admin1 <$> region_df.
Proof. unfold available_regions. by rewrite merge_sort_Permutation, elem_of_remove_dups. Qed.

Lemma available_regions_sorted (region_df : DataFrame) :
  StronglySorted (strict String.le) (available_regions region_df).
Proof.
  unfold available_regions. apply StronglySorted_strict; [apply _| |].
  - apply StronglySorted_merge_sort; apply _.
  - rewrite merge_sort_Permutation. apply NoDup_remove_dups.
Qed.

(** X15: with a national row and a regional frame that is not empty, the
    overview ends normally; the regions offered are those of the frame,
    ascending and each once, and the regional chart shows the rows of one
    of them, all of them, in the order of the frame, and at least one. *)
Theorem overview_charts_one_listed_region
    (region_index : nat) (df : list Observation) (region_df : DataFrame)
    (national_df : list NationalPoint) (latest : NationalPoint) :
  last national_df = Some latest ->
  region_df <> [] ->
  StronglySorted (strict String.le) (available_regions region_df)
  /\ (forall r, r ∈ available_regions region_df <-> r ∈ admin1 <$> region_df)
  /\ exists r,
       r ∈ admin1 <$> region_df
       /\ filter (fun row => admin1 row = r) region_df <> []
       /\ layout_overview region_index df region_df national_df
          = ([ShowHeader "Exploratory Overview";
              ShowMetric "Rows" (Count (length df));
              ShowMetric "Regions" (Count (length (remove_dups (obs_admin1 <$> df))));
              ShowMetric "Span" (Span (min_year df) (max_year df));
              ShowMetric "Latest Price" (Price (national_price latest));
              ShowLineChart (r +:+ " retail prices")
                ((fun row => (date row, avg_price row))
                   <$> filter (fun row => admin1 row = r) region_df)
                "PHP/kg";
              ShowLineChart "National average retail price"
                ((fun row => (nat_date row, national_price row)) <$> national_df)
                "PHP/kg"],
             None).
Proof.
  intros Hlast Hne.
  split; [apply available_regions_sorted|].
  split; [intros r; apply available_regions_elem|].
  assert (available_regions region_df <> []) as Hav.
  { destruct region_df as [|row rest]; [done|]. intros Hnil.
    assert (admin1 row ∈ available_regions (row :: rest)) as Hin
      by (apply available_regions_elem; left).
    rewrite Hnil in Hin. by apply elem_of_nil in Hin. }
  destruct (choose_is_Some (available_regions region_df) region_index Hav) as [r Hr].
  pose proof (choose_elem _ _ _ Hr) as Hin. apply available_regions_elem in Hin.
  exists r. split; [done|]. split.
  - apply list_elem_of_fmap in Hin as (row & -> & Hrow). intros Hnil.
    assert (row ∈ filter (fun row' => admin1 row' = admin1 row) region_df) as Hf
      by by apply list_elem_of_filter.
    rewrite Hnil in Hf. by apply elem_of_nil in Hf.
  - unfold layout_overview. rewrite Hlast, Hr. cbn [app].
    rewrite (list_filter_iff (fun row => Some (admin1 row) = Some r)
               (fun row => admin1 row = r)); [done|].
    intros row. split; [by intros [= ->]|by intros ->].
Qed.

Lemma overview_charts_one_listed_region_witness :
  StronglySorted (strict String.le) (available_regions ex_history)
  /\ (forall r, r ∈ available_regions ex_history <-> r ∈ admin1 <$> ex_history)
  /\ exists r,
       r ∈ admin1 <$> ex_history
       /\ filter (fun row => admin1 row = r) ex_history <> []
       /\ layout_overview 1 [mkObservation "A" 2023; mkObservation "B" 2024] ex_history
            [mkNationalPoint (mkTimestamp 2024 1 1) PrimFloat.one]
          = ([ShowHeader "Exploratory Overview";
              ShowMetric "Rows"
                (Count (length [mkObservation "A" 2023; mkObservation "B" 2024]));
              ShowMetric "Regions"
                (Count (length (remove_dups
                                  (obs_admin1
                                     <$> [mkObservation "A" 2023; mkObservation "B" 2024]))));
              ShowMetric "Span"
                (Span (min_year [mkObservation "A" 2023; mkObservation "B" 2024])
                      (max_year [mkObservation "A" 2023; mkObservation "B" 2024]));
              ShowMetric "Latest Price"
                (Price (national_price
                          (mkNationalPoint (mkTimestamp 2024 1 1) PrimFloat.one)));
              ShowLineChart (r +:+ " retail prices")
                ((fun row => (date row, avg_price row))
                   <$> filter (fun row => admin1 row = r) ex_history)
                "PHP/kg";
              ShowLineChart "National average retail price"
                ((fun row => (nat_date row, national_price row))
                   <$> [mkNationalPoint (mkTimestamp 2024 1 1) PrimFloat.one])
                "PHP/kg"],
             None).
Proof.
  apply (overview_charts_one_listed_region 1
           [mkObservation "A" 2023; mkObservation "B" 2024] ex_history
           [mkNationalPoint (mkTimestamp 2024 1 1) PrimFloat.one]
           (mkNationalPoint (mkTimestamp 2024 1 1) PrimFloat.one)).
  - reflexivity.
  - vm_compute. discriminate.
Defined.

(** ** The page *)

Lemma and_then_ok (a b : list Display * option Exception) :
  a.2 = None -> and_then a b = (a.1 ++ b.1, b.2).
Proof. intros Ha. unfold and_then. by rewrite Ha. Qed.

Lemma and_then_raised (a b : list Display * option Exception) (e : Exception) :
  a.2 = Some e -> and_then a b = a.
Proof. intros Ha. unfold and_then. by rewrite Ha. Qed.

Lemma page_engine_calls_app (l1 l2 : list Display) :
  page_engine_calls (l1 ++ l2) = page_engine_calls l1 ++ page_engine_calls l2.
Proof.
  unfold page_engine_calls, engine_calls. by rewrite !omap_app.
Qed.

Lemma page_engine_calls_forecasts (acts : list Action) :
  page_engine_calls (ShowForecasts <$> acts) = engine_calls acts.
Proof.
  unfold page_engine_calls. f_equal.
  induction acts as [|a acts IH]; [done|]. cbn. by rewrite IH.
Qed.

Lemma layout_overview_shows (region_index : nat) (df : list Observation)
    (region_df : DataFrame) (national_df : list NationalPoint) :
  page_engine_calls (layout_overview region_index df region_df national_df).1 = []
  /\ ShowHeader "SDG Alignment" ∉ (layout_overview region_index df region_df national_df).1.
Proof.
  unfold layout_overview. destruct (last national_df); cbn [fst app]; (split; [done|]);
    intros Hin; repeat (apply elem_of_cons in Hin as [Hin|Hin]; [discriminate|]);
    by apply elem_of_nil in Hin.
Qed.

Lemma layout_evaluation_shows (metrics : option JSON) :
  page_engine_calls (layout_evaluation metrics).1 = []
  /\ ShowHeader "SDG Alignment" ∉ (layout_evaluation metrics).1.
Proof.
  assert (forall shown : list Display,
            (shown = [ShowHeader "Model Evaluation"]
             \/ (exists text, shown = [ShowHeader "Model Evaluation"; ShowInfo text])
             \/ (exists records, shown = [ShowHeader "Model Evaluation"; ShowRecords records])) ->
            page_engine_calls shown = [] /\ ShowHeader "SDG Alignment" ∉ shown) as Hshape.
  { intros shown [->|[[text ->]|[records ->]]]; (split; [done|]);
      intros Hin; repeat (apply elem_of_cons in Hin as [Hin|Hin]; [discriminate|]);
      by apply elem_of_nil in Hin. }
  apply Hshape. unfold layout_evaluation.
  destruct metrics as [v|]; [|right; left; by eexists].
  destruct (truthy v); cbn [negb]; [|right; left; by eexists].
  destruct v as [| | | | |fields]; try by left.
  destruct (dict_get "models" fields) as [[| | | | |models]|]; try by left.
  destruct (evaluation_records _ models); [by left|]. right; right. by eexists.
Qed.

Lemma layout_sdg_section_shows : page_engine_calls layout_sdg_section = [].
Proof. done. Qed.

Section PageFacts.

Variable cfg : TrainingConfig.
Variable fc : FeatureConfig.
Variable engine : DataFrame -> Pipeline -> Z -> TrainingConfig -> FeatureConfig -> EngineRun.
Variable generate_advisories : History -> list ForecastRecord -> list AdvisoryRecord.
Variable region_monthly_average : list Observation -> DataFrame.
Variable national_monthly_average : list Observation -> list NationalPoint.

Lemma forecasts_section_shows (u : User) (region_df : DataFrame)
    (pipeline : option Pipeline) :
  page_engine_calls (forecasts_section cfg fc engine generate_advisories u region_df pipeline).1
  = match pipeline with
    | Some _ => [(region_df, slider 1 6 u)]
    | None => []
    end
  /\ ShowHeader "SDG Alignment"
     ∉ (forecasts_section cfg fc engine generate_advisories u region_df pipeline).1.
Proof.
  unfold forecasts_section. cbn [fst]. split.
  - rewrite page_engine_calls_forecasts. destruct pipeline as [pl|]; [|done].
    apply layout_forecasts_engine_calls.
  - intros Hin. apply list_elem_of_fmap in Hin as (a & Ha & _). discriminate.
Qed.

(** The page as the sections it ran: what [main] shows and raises, by the
    outcome of each section. *)
Lemma main_sections (files : Files) (v : Visitor) :
  let df := rice_csv files in
  let header :=
    [ShowTitle "Rice Price Forecasting & Advisory";
     ShowCaption "Forecasting pipeline + knowledge-based advisories inspired by the MLI guide."] in
  let ov := layout_overview (region_pick v) df (region_monthly_average df)
              (national_monthly_average df) in
  let ev := layout_evaluation (metrics_json files) in
  let fs := forecasts_section cfg fc engine generate_advisories (forecasts_user v)
              (region_monthly_average df) (best_model files) in
  main cfg fc engine generate_advisories region_monthly_average national_monthly_average
    files v
  = match ov.2 with
    | Some e => (header ++ ov.1, Some e)
    | None =>
        match ev.2 with
        | Some e => (header ++ ov.1 ++ ev.1, Some e)
        | None =>
            match fs.2 with
            | Some e => (header ++ ov.1 ++ ev.1 ++ fs.1, Some e)
            | None => (header ++ ov.1 ++ ev.1 ++ fs.1 ++ layout_sdg_section, None)
            end
        end
    end.
Proof.
  intros df header ov ev fs. unfold main, load_metrics, load_pipeline. cbn [artifact].
  fold df. fold ov. fold ev. fold fs.
  unfold and_then at 1. cbn [fst snd].
  destruct ov as [ov1 [e|]]; cbn [fst snd].
  { unfold and_then at 1. done. }
  unfold and_then at 1. cbn [fst snd].
  destruct ev as [ev1 [e|]]; cbn [fst snd].
  { unfold and_then at 1. done. }
  unfold and_then at 1. cbn [fst snd].
  destruct fs as [fs1 [e|]]; cbn [fst snd]; unfold and_then; cbn [fst snd]; done.
Qed.

End PageFacts.

(** X16: a run of the page ends with the SDG section exactly when no
    section raised: without exception what is shown ends with the three
    elements of the SDG section, and after an exception of the overview,
    the evaluation or the forecasts the SDG header is not shown at all. *)
Theorem page_ends_with_sdg_unless_exception
    (cfg : TrainingConfig) (fc : FeatureConfig)
    (engine : DataFrame -> Pipeline -> Z -> TrainingConfig -> FeatureConfig -> EngineRun)
    (generate_advisories : History -> list ForecastRecord -> list AdvisoryRecord)
    (region_monthly_average : list Observation -> DataFrame)
    (national_monthly_average : list Observation -> list NationalPoint)
    (files : Files) (v : Visitor) :
  ((main cfg fc engine generate_advisories region_monthly_average national_monthly_average
      files v).2 = None ->
   exists before,
     (main cfg fc engine generate_advisories region_monthly_average national_monthly_average
        files v).1 = before ++ layout_sdg_section)
  /\ (forall e,
        (main cfg fc engine generate_advisories region_monthly_average
           national_monthly_average files v).2 = Some e ->
        ShowHeader "SDG Alignment"
        ∉ (main cfg fc engine generate_advisories region_monthly_average
             national_monthly_average files v).1).
Proof.
  rewrite main_sections.
  pose proof (layout_overview_shows (region_pick v) (rice_csv files)
                (region_monthly_average (rice_csv files))
                (national_monthly_average (rice_csv files))) as [_ Hov].
  pose proof (layout_evaluation_shows (metrics_json files)) as [_ Hev].
  pose proof (forecasts_section_shows cfg fc engine generate_advisories (forecasts_user v)
                (region_monthly_average (rice_csv files)) (best_model files)) as [_ Hfs].
  assert (forall rest : list Display,
            ShowHeader "SDG Alignment" ∉ rest ->
            ShowHeader "SDG Alignment"
            ∉ [ShowTitle "Rice Price Forecasting & Advisory";
               ShowCaption "Forecasting pipeline + knowledge-based advisories inspired by the MLI guide."]
              ++ rest) as Hhead.
  { intros rest Hrest Hin. cbn [app] in Hin.
    do 2 (apply elem_of_cons in Hin as [Hin|Hin]; [discriminate|]). done. }
  cbv zeta.
  destruct (layout_overview _ _ _ _) as [ov1 [e1|]]; cbn [fst snd] in *.
  { split; [done|]. intros e _. by apply Hhead. }
  destruct (layout_evaluation _) as [ev1 [e2|]]; cbn [fst snd] in *.
  { split; [done|]. intros e _. apply Hhead. rewrite elem_of_app. tauto. }
  destruct (forecasts_section _ _ _ _ _ _ _) as [fs1 [e3|]]; cbn [fst snd] in *.
  { split; [done|]. intros e _. apply Hhead. rewrite !elem_of_app. tauto. }
  split; [|done]. intros _. eexists. by rewrite !app_assoc.
Qed.

(** X17: a run of the page calls the engine at most once: once, on the
    regional frame and with the months of the slider, when the overview
    and the evaluation ended without exception and the pipeline was
    found; not at all otherwise. *)
Theorem page_calls_engine_after_earlier_sections
    (cfg : TrainingConfig) (fc : FeatureConfig)
    (engine : DataFrame -> Pipeline -> Z -> TrainingConfig -> FeatureConfig -> EngineRun)
    (generate_advisories : History -> list ForecastRecord -> list AdvisoryRecord)
    (region_monthly_average : list Observation -> DataFrame)
    (national_monthly_average : list Observation -> list NationalPoint)
    (files : Files) (v : Visitor) :
  page_engine_calls
    (main cfg fc engine generate_advisories region_monthly_average national_monthly_average
       files v).1
  = match (layout_overview (region_pick v) (rice_csv files)
             (region_monthly_average (rice_csv files))
             (national_monthly_average (rice_csv files))).2,
          (layout_evaluation (metrics_json files)).2,
          best_model files with
    | None, None, Some _ =>
        [(region_monthly_average (rice_csv files), slider 1 6 (forecasts_user v))]
    | _, _, _ => []
    end.
Proof.
  rewrite main_sections.
  pose proof (layout_overview_shows (region_pick v) (rice_csv files)
                (region_monthly_average (rice_csv files))
                (national_monthly_average (rice_csv files))) as [Hov _].
  pose proof (layout_evaluation_shows (metrics_json files)) as [Hev _].
  pose proof (forecasts_section_shows cfg fc engine generate_advisories (forecasts_user v)
                (region_monthly_average (rice_csv files)) (best_model files)) as [Hfs _].
  cbv zeta.
  destruct (layout_overview _ _ _ _) as [ov1 [e1|]]; cbn [fst snd] in *.
  { by rewrite page_engine_calls_app, Hov. }
  destruct (layout_evaluation _) as [ev1 [e2|]]; cbn [fst snd] in *.
  { by rewrite !page_engine_calls_app, Hov, Hev. }
  destruct (forecasts_section _ _ _ _ _ _ _) as [fs1 [e3|]]; cbn [fst snd] in *;
    rewrite !page_engine_calls_app, Hov, Hev, Hfs; cbn [app];
    destruct (best_model files); by rewrite ?app_nil_r.
Qed.

(** X18: when the national monthly average has no row, the page raises
    IndexError in the overview after the title, the caption, the header
    and three metrics; nothing of the evaluation, the forecasts or the
    SDG section is shown and the engine is not called, also when the
    metrics and the pipeline are there. *)
Theorem page_without_national_rows_raises
    (cfg : TrainingConfig) (fc : FeatureConfig)
    (engine : DataFrame -> Pipeline -> Z -> TrainingConfig -> FeatureConfig -> EngineRun)
    (generate_advisories : History -> list ForecastRecord -> list AdvisoryRecord)
    (region_monthly_average : list Observation -> DataFrame)
    (national_monthly_average : list Observation -> list NationalPoint)
    (files : Files) (v : Visitor) :
  national_monthly_average (rice_csv files) = [] ->
  main cfg fc engine generate_advisories region_monthly_average national_monthly_average
    files v
  = ([ShowTitle "Rice Price Forecasting & Advisory";
      ShowCaption "Forecasting pipeline + knowledge-based advisories inspired by the MLI guide.";
      ShowHeader "Exploratory Overview";
      ShowMetric "Rows" (Count (length (rice_csv files)));
      ShowMetric "Regions" (Count (length (remove_dups (obs_admin1 <$> rice_csv files))));
      ShowMetric "Span" (Span (min_year (rice_csv files)) (max_year (rice_csv files)))],
     Some (Raised (IndexError "single positional indexer is out-of-bounds"))).
Proof.
  intros Hnat. rewrite main_sections. cbv zeta.
  unfold layout_overview. by rewrite Hnat.
Qed.

Lemma page_without_national_rows_raises_witness :
  main ex_training_config ex_feature_config (spec_engine ex_feature_values)
    (fun _ _ => []) (fun _ => ex_history) (fun _ => [])
    (mkFiles [] None (Some ex_pipeline)) (mkVisitor 0 (mkUser 1 0))
  = ([ShowTitle "Rice Price Forecasting & Advisory";
      ShowCaption "Forecasting pipeline + knowledge-based advisories inspired by the MLI guide.";
      ShowHeader "Exploratory Overview";
      ShowMetric "Rows" (Count (length (rice_csv (mkFiles [] None (Some ex_pipeline)))));
      ShowMetric "Regions"
        (Count (length (remove_dups
                          (obs_admin1 <$> rice_csv (mkFiles [] None (Some ex_pipeline))))));
      ShowMetric "Span" (Span (min_year (rice_csv (mkFiles [] None (Some ex_pipeline))))
                              (max_year (rice_csv (mkFiles [] None (Some ex_pipeline)))))],
     Some (Raised (IndexError "single positional indexer is out-of-bounds"))).
Proof.
  apply (page_without_national_rows_raises ex_training_config ex_feature_config
           (spec_engine ex_feature_values) (fun _ _ => []) (fun _ => ex_history)
           (fun _ => []) (mkFiles [] None (Some ex_pipeline)) (mkVisitor 0 (mkUser 1 0))).
  reflexivity.
Defined.

(** ** The select box of the forecasts *)

Lemma step_options_elem_iff (predictions : list ForecastRecord) (k : Z) :
  k ∈ step_options predictions <-> exists row, row ∈ predictions /\ step row = k.
Proof.
  unfold step_options.
  rewrite merge_sort_Permutation, elem_of_remove_dups, list_elem_of_fmap.
  split.
  - intros (row & -> & Hrow). by exists row.
  - intros (row & Hrow & <-). by exists row.
Qed.

Lemma step_options_sorted (predictions : list ForecastRecord) :
  StronglySorted Z.le (step_options predictions).
Proof. unfold step_options. apply StronglySorted_merge_sort; apply _. Qed.

Lemma step_options_NoDup (predictions : list ForecastRecord) :
  NoDup (step_options predictions).
Proof. unfold step_options. rewrite merge_sort_Permutation. apply NoDup_remove_dups. Qed.

(** X19: the steps offered in the select box are the steps of the
    predictions, each once and ascending; a step gets the label with the
    month, taken from the first prediction of that step, exactly when it
    is one of those offered, so the fallback label "Step k" is never shown
    for an option. *)
Theorem offered_steps_have_month_labels
    (predictions : list ForecastRecord) (k : Z) :
  StronglySorted Z.lt (step_options predictions)
  /\ (k ∈ step_options predictions <->
      exists row rest,
        filter (fun row => step row = k) predictions = row :: rest
        /\ _format_step predictions k = MonthAndStep (forecast_date row) k)
  /\ (k ∉ step_options predictions <-> _format_step predictions k = StepOnly k).
Proof.
  split; [|split].
  - assert (forall l : list Z, StronglySorted Z.le l -> NoDup l -> StronglySorted Z.lt l)
      as Hstrict.
    { induction 1 as [|x l Hl IH Hx]; intros Hnd; [constructor|].
      apply NoDup_cons in Hnd as [Hxl Hnd]. constructor; [by apply IH|].
      rewrite Forall_forall in Hx |- *. intros y Hy. specialize (Hx y Hy).
      destruct (decide (x = y)) as [->|Hne]; [done|]. lia. }
    apply Hstrict; [apply step_options_sorted|apply step_options_NoDup].
  - rewrite step_options_elem_iff. unfold _format_step. split.
    + intros (row & Hrow & Hk).
      assert (row ∈ filter (fun row => step row = k) predictions) as Hin
        by by apply list_elem_of_filter.
      destruct (filter (fun row => step row = k) predictions) as [|row' rest].
      { by apply elem_of_nil in Hin. }
      by exists row', rest.
    + intros (row & rest & Hf & _).
      assert (row ∈ filter (fun row => step row = k) predictions) as Hin
        by (rewrite Hf; left).
      apply list_elem_of_filter in Hin as [Hk Hin]. by exists row.
  - rewrite step_options_elem_iff. unfold _format_step. split.
    + intros Hno.
      destruct (filter (fun row => step row = k) predictions) as [|row rest] eqn:Hf; [done|].
      exfalso. apply Hno.
      assert (row ∈ filter (fun row => step row = k) predictions) as Hin
        by (rewrite Hf; left).
      apply list_elem_of_filter in Hin as [Hk Hin]. by exists row.
    + intros Hlabel (row & Hrow & Hk).
      assert (row ∈ filter (fun row => step row = k) predictions) as Hin
        by by apply list_elem_of_filter.
      destruct (filter (fun row => step row = k) predictions); [|done].
      by apply elem_of_nil in Hin.
Qed.

(** X20: when the user leaves the select box as it is (the first option),
    the advisories are for the earliest step among the predictions. *)
Theorem default_step_is_the_earliest
    (predictions : list ForecastRecord) (u : User) (k : Z) :
  selectbox_index u = 0%nat ->
  selectbox (step_options predictions) u = Some k ->
  (exists row, row ∈ predictions /\ step row = k)
  /\ forall row, row ∈ predictions -> k <= step row.
Proof.
  intros Hu Hsel. split.
  { by apply step_options_elem, (selectbox_elem _ u). }
  intros row Hrow.
  assert (step row ∈ step_options predictions) as Hin
    by (apply step_options_elem_iff; by exists row).
  pose proof (step_options_sorted predictions) as Hsorted.
  unfold selectbox in Hsel. rewrite Hu in Hsel.
  destruct (step_options predictions) as [|k0 rest]; [done|].
  cbn in Hsel. injection Hsel as ->.
  apply StronglySorted_inv in Hsorted as [_ Hall].
  apply elem_of_cons in Hin as [->|Hin]; [lia|].
  rewrite Forall_forall in Hall. by apply Hall.
Qed.

Lemma default_step_is_the_earliest_witness :
  (exists row, row ∈ [ex_row_step 3; ex_row_step 2; ex_row_step 3] /\ step row = 2)
  /\ forall row, row ∈ [ex_row_step 3; ex_row_step 2; ex_row_step 3] -> 2 <= step row.
Proof.
  apply (default_step_is_the_earliest [ex_row_step 3; ex_row_step 2; ex_row_step 3]
           (mkUser 1 0) 2).
  - reflexivity.
  - vm_compute. reflexivity.
Defined.
